(** * Migration orchestrator of [migrate_indices.py]

    A shallow embedding of the reindex orchestration script and the
    properties of its submit phase and poll loop.

    The script talks to three collaborators: the file system and YAML
    loader, the OpenSearch client (constructor, [reindex], [tasks.get]) and
    the clock ([datetime.now], [time.sleep]).  They are gathered in one
    record of operations over an abstract world; the script itself is
    written in a small monad that threads the world, collects the calls and
    log records it emits, and propagates Python exceptions.

    Conventions of the model:
    - an exception is an instance of [Exception], what [except Exception]
      catches;
    - the clock is read in whole time units, and the elapsed time of the
      summary line is a difference of two readings;
    - a log record is its level and the values interpolated in its format
      string, not the formatted text;
    - the [while] loop takes a bound on its number of passes, and a run
      that exhausts it ends as [OutOfFuel], which no handler catches;
    - the configuration is typed: each of its four keys is absent or holds
      a value of the type the script expects (a mapping, a list of names,
      a name).  A document with [null] or another scalar in place of the
      list or of the remote mapping, on which the script raises
      [TypeError] at the [for] of the submit loop or at the first
      subscript of [start_reindex_task], is not represented; the
      properties that depend on it say so. *)

From Stdlib Require Import ZArith Lia.
From stdpp Require Import base option list strings gmap.

Local Open Scope string_scope.
Local Open Scope list_scope.
Local Open Scope Z_scope.

(** ** Python values *)

(** The values that flow through the script: the entries of the client's
    response dictionaries. *)
Inductive PyVal :=
| PyNone
| PyBool (b : bool)
| PyInt (n : Z)
| PyStr (s : string).

#[global] Instance PyVal_eq_dec : EqDecision PyVal.
Proof. solve_decision. Defined.

(** Python truth value testing, as used by [if task_id:] and
    [if status['completed']:]. *)
Definition truthy (v : PyVal) : bool :=
  match v with
  | PyNone => false
  | PyBool b => b
  | PyInt n => negb (Z.eqb n 0)
  | PyStr s => negb (String.eqb s EmptyString)
  end.

(** Exceptions: a [KeyError] raised by a subscript of the script itself, or
    an exception raised inside a collaborator, kept with its message. *)
Inductive Exn :=
| KeyError (key : string)
| ClientError (msg : string).

(** [str(e)] *)
Definition exn_str (e : Exn) : string :=
  match e with
  | KeyError k => "'" +:+ k +:+ "'"
  | ClientError m => m
  end.

Inductive Result (A : Type) :=
| Ok (a : A)
| Raise (e : Exn).
Arguments Ok {A} a.
Arguments Raise {A} e.

(** A response dictionary of the client, [Dict]. *)
Abbreviation Dict := (gmap string PyVal).

(** The configuration mapping, restricted to the four keys the script reads;
    [None] is an absent key, and a key that is present holds a value of the
    type the script expects. *)
Record Config := {
  es_target_config : option Dict;
  es_source_remote : option (gmap string string);
  source_indices : option (list string);
  target_index : option string
}.

(** The [body] argument of [reindex]. *)
Record ReindexBody := {
  source_remote_host : string;
  source_remote_username : string;
  source_remote_password : string;
  source_index : string;
  dest_index : string
}.

(** ** Logging *)

Inductive Level := INFO | ERROR.

(** One constructor per [logging] call of the script, with the values its
    format string interpolates. *)
Inductive LogMsg :=
| MsgLoadedConfig (file_path : string)
| MsgLoadFailed (file_path : string) (e : Exn)
| MsgClientInitialized (hosts : PyVal)
| MsgClientInitFailed (e : Exn)
| MsgAttempt (source host target : string)
| MsgStarted (source target : string) (task_id : PyVal)
| MsgStartFailed (source : string) (e : Exn)
| MsgChecked (task_id : PyVal) (completed : bool)
| MsgCheckFailed (task_id : PyVal) (e : Exn)
| MsgTaskFailed (index : string) (error : PyVal)
| MsgTaskSucceeded (index : string)
| MsgInProgress (index : string)
| MsgMigrationCompleted (seconds : Z)
| MsgMigrationFailed (e : Exn).

(** What the script does to the outside, in order. *)
Inductive Event :=
| EvLoad (file_path : string)
| EvInit (target_config : Dict)
| EvReindex (body : ReindexBody) (wait_for_completion : bool)
    (params : gmap string string)
| EvTasksGet (task_id : PyVal)
| EvSleep (seconds : Z)
| EvLog (lvl : Level) (msg : LogMsg).

(** ** Collaborators *)

(** [W] is the state of the outside world, [H] the client object. *)
Record Env (W H : Type) := {
  env_now : W -> Z;
  env_sleep : Z -> W -> W;
  env_load : string -> W -> Result Config * W;
  env_init : Dict -> W -> Result H * W;
  env_reindex :
    H -> ReindexBody -> bool -> gmap string string -> W -> Result Dict * W;
  env_tasks_get : H -> PyVal -> W -> Result Dict * W
}.
Arguments env_now {W H} _ _.
Arguments env_sleep {W H} _ _ _.
Arguments env_load {W H} _ _ _.
Arguments env_init {W H} _ _ _.
Arguments env_reindex {W H} _ _ _ _ _ _.
Arguments env_tasks_get {W H} _ _ _ _.

(** ** The monad of the script *)

Inductive Outcome (A : Type) :=
| Ret (a : A)
| Exc (e : Exn)
| OutOfFuel.
Arguments Ret {A} a.
Arguments Exc {A} e.
Arguments OutOfFuel {A}.

(** A computation maps the world to an outcome, the world it leaves and the
    events it emitted. *)
Definition M (W A : Type) : Type := W -> Outcome A * W * list Event.

Definition ret {W A} (a : A) : M W A := fun w => (Ret a, w, []).

Definition bind {W A B} (m : M W A) (k : A -> M W B) : M W B :=
  fun w =>
    match m w with
    | (Ret a, w1, t1) =>
        match k a w1 with
        | (o, w2, t2) => (o, w2, t1 ++ t2)
        end
    | (Exc e, w1, t1) => (Exc e, w1, t1)
    | (OutOfFuel, w1, t1) => (OutOfFuel, w1, t1)
    end.

#[global] Instance M_ret {W} : MRet (M W) := fun A => @ret W A.
#[global] Instance M_bind {W} : MBind (M W) := fun A B k m => @bind W A B m k.

Definition raise {W A} (e : Exn) : M W A := fun w => (Exc e, w, []).

Definition out_of_fuel {W A} : M W A := fun w => (OutOfFuel, w, []).

(** [try: m except Exception as e: h e] *)
Definition try_except {W A} (m : M W A) (h : Exn -> M W A) : M W A :=
  fun w =>
    match m w with
    | (Exc e, w1, t1) =>
        match h e w1 with
        | (o, w2, t2) => (o, w2, t1 ++ t2)
        end
    | r => r
    end.

Definition emit {W} (ev : Event) : M W unit := fun w => (Ret tt, w, [ev]).

Definition log {W} (lvl : Level) (msg : LogMsg) : M W unit :=
  emit (EvLog lvl msg).

(** A call of a collaborator: the call is recorded, then its result is
    returned or its exception raised. *)
Definition call {W A} (ev : Event) (f : W -> Result A * W) : M W A :=
  fun w =>
    match f w with
    | (Ok a, w1) => (Ret a, w1, [ev])
    | (Raise e, w1) => (Exc e, w1, [ev])
    end.

(** [d[key]] *)
Definition getitem {W V} (d : gmap string V) (key : string) : M W V :=
  match d !! key with
  | Some v => ret v
  | None => raise (KeyError key)
  end.

(** [config[key]] for one of the four keys. *)
Definition config_getitem {W V} (field : option V) (key : string) : M W V :=
  match field with
  | Some v => ret v
  | None => raise (KeyError key)
  end.

(** ** The dictionary [task_ids]

    Python dictionaries keep insertion order, which is the order of the
    polls and of their log lines. *)
Abbreviation TaskIds := (list (string * PyVal)).

(** [key in d] *)
Definition dict_mem (key : string) (d : TaskIds) : bool :=
  bool_decide (key ∈ d.*1).

(** [d[key] = value]: an existing key keeps its place. *)
Fixpoint dict_set (key : string) (value : PyVal) (d : TaskIds) : TaskIds :=
  match d with
  | [] => [(key, value)]
  | (k, v) :: d' =>
      if decide (k = key) then (k, value) :: d'
      else (k, v) :: dict_set key value d'
  end.

Fixpoint dict_remove (key : string) (d : TaskIds) : TaskIds :=
  match d with
  | [] => []
  | (k, v) :: d' =>
      if decide (k = key) then d' else (k, v) :: dict_remove key d'
  end.

(** [d.pop(key)], the popped value dropped. *)
Definition dict_pop {W} (key : string) (d : TaskIds) : M W TaskIds :=
  if dict_mem key d then ret (dict_remove key d) else raise (KeyError key).

(** ** The script *)

Section Script.
Context {W H : Type} (env : Env W H).

Definition now : M W Z := fun w => (Ret (env_now env w), w, []).

Definition sleep (seconds : Z) : M W unit :=
  fun w => (Ret tt, env_sleep env seconds w, [EvSleep seconds]).

Definition load_config (file_path : string) : M W Config :=
  try_except
    (config ← call (EvLoad file_path) (env_load env file_path);
     log INFO (MsgLoadedConfig file_path);;
     mret config)
    (fun e =>
       log ERROR (MsgLoadFailed file_path e);;
       raise e).

Definition initialize_opensearch_client (config : Config) : M W H :=
  try_except
    (target_config ← config_getitem (es_target_config config)
                       "es_target_config";
     es_target ← call (EvInit target_config) (env_init env target_config);
     hosts ← getitem target_config "hosts";
     log INFO (MsgClientInitialized hosts);;
     mret es_target)
    (fun e =>
       log ERROR (MsgClientInitFailed e);;
       raise e).

Definition reindex_params : gmap string string :=
  {[ "requests_per_second" := "-1" ]}.

Definition start_reindex_task (es_target : H) (source_index target_index : string)
    (source_remote : gmap string string) : M W PyVal :=
  host ← getitem source_remote "host";
  log INFO (MsgAttempt source_index host target_index);;
  host ← getitem source_remote "host";
  username ← getitem source_remote "username";
  password ← getitem source_remote "password";
  let body :=
    {| source_remote_host := host;
       source_remote_username := username;
       source_remote_password := password;
       source_index := source_index;
       dest_index := target_index |} in
  try_except
    (response ← call (EvReindex body false reindex_params)
                  (env_reindex env es_target body false reindex_params);
     task_id ← getitem response "task";
     log INFO (MsgStarted source_index target_index task_id);;
     mret task_id)
    (fun e =>
       log ERROR (MsgStartFailed source_index e);;
       mret PyNone).

(** The dictionary built by the handler of [check_task_status]. *)
Definition failed_status (e : Exn) : Dict :=
  <["completed" := PyBool true]> (<["error" := PyStr (exn_str e)]> ∅).

Definition check_task_status (es_target : H) (task_id : PyVal) : M W Dict :=
  try_except
    (response ← call (EvTasksGet task_id) (env_tasks_get env es_target task_id);
     log INFO (MsgChecked task_id
                 (truthy (default (PyBool false) (response !! "completed"))));;
     mret response)
    (fun e =>
       log ERROR (MsgCheckFailed task_id e);;
       mret (failed_status e)).

(** The body of the submit loop, for one [index]. *)
Definition submit_index (es_target : H) (config : Config) (index : string)
    (task_ids : TaskIds) : M W TaskIds :=
  target ← config_getitem (target_index config) "target_index";
  remote ← config_getitem (es_source_remote config) "es_source_remote";
  task_id ← start_reindex_task es_target index target remote;
  if truthy task_id then mret (dict_set index task_id task_ids)
  else mret task_ids.

(** [for index in config['source_indices']: ...] *)
Fixpoint submit_all (es_target : H) (config : Config) (indices : list string)
    (task_ids : TaskIds) : M W TaskIds :=
  match indices with
  | [] => mret task_ids
  | index :: rest =>
      task_ids' ← submit_index es_target config index task_ids;
      submit_all es_target config rest task_ids'
  end.

(** The body of the inner [for] loop, for one item of the snapshot. *)
Definition poll_job (es_target : H) (item : string * PyVal)
    (task_ids : TaskIds) : M W TaskIds :=
  let '(index, task_id) := item in
  status ← check_task_status es_target task_id;
  completed ← getitem status "completed";
  if truthy completed then
    match status !! "error" with
    | Some error => log ERROR (MsgTaskFailed index error)
    | None => log INFO (MsgTaskSucceeded index)
    end;;
    dict_pop index task_ids
  else
    log INFO (MsgInProgress index);;
    mret task_ids.

(** [for index, task_id in list(task_ids.items()): ...] over the snapshot
    [items]. *)
Fixpoint poll_items (es_target : H) (items : TaskIds) (task_ids : TaskIds)
    : M W TaskIds :=
  match items with
  | [] => mret task_ids
  | item :: rest =>
      task_ids' ← poll_job es_target item task_ids;
      poll_items es_target rest task_ids'
  end.

(** One pass of the [while] body. *)
Definition poll_cycle (es_target : H) (task_ids : TaskIds) : M W TaskIds :=
  sleep 10;;
  poll_items es_target task_ids task_ids.

(** [while task_ids: ...]; [fuel] bounds the number of passes. *)
Fixpoint poll_loop (fuel : nat) (es_target : H) (task_ids : TaskIds)
    : M W unit :=
  match task_ids with
  | [] => mret tt
  | _ :: _ =>
      match fuel with
      | O => out_of_fuel
      | S fuel' =>
          task_ids' ← poll_cycle es_target task_ids;
          poll_loop fuel' es_target task_ids'
      end
  end.

(** The poll loop and the summary line that follows it. *)
Definition poll_phase (fuel : nat) (es_target : H) (start_time : Z)
    (task_ids : TaskIds) : M W unit :=
  poll_loop fuel es_target task_ids;;
  end_time ← now;
  log INFO (MsgMigrationCompleted (end_time - start_time)).

Definition submit_phase (es_target : H) (config : Config) : M W TaskIds :=
  indices ← config_getitem (source_indices config) "source_indices";
  submit_all es_target config indices [].

Definition migrate_indices (fuel : nat) (config_path : string) : M W unit :=
  start_time ← now;
  try_except
    (config ← load_config config_path;
     es_target ← initialize_opensearch_client config;
     task_ids ← submit_phase es_target config;
     poll_phase fuel es_target start_time task_ids)
    (fun e => log ERROR (MsgMigrationFailed e)).

End Script.

(** ** A scripted client

    A fake collaborator for the scenarios.  Its world is the clock and the
    number of submissions received so far; replies are read off a script:
    the reply to a submission depends on its body and its rank, the status
    of a task on the time of the query.  Every call of the client takes
    [sc_latency] time units, and sleeping takes the time asked for. *)
Record Script := {
  sc_load : string -> Result Config;
  sc_init : Dict -> Result unit;
  sc_reindex : ReindexBody -> nat -> Result Dict;
  sc_status : PyVal -> Z -> Result Dict;
  sc_latency : Z
}.

Record Sim := {
  sim_clock : Z;
  sim_submitted : nat
}.

Definition sim_advance (seconds : Z) (w : Sim) : Sim :=
  {| sim_clock := sim_clock w + seconds; sim_submitted := sim_submitted w |}.

Definition scripted (s : Script) : Env Sim unit :=
  {| env_now := sim_clock;
     env_sleep := sim_advance;
     env_load := fun file_path w => (sc_load s file_path, w);
     env_init := fun target_config w => (sc_init s target_config, w);
     env_reindex := fun _ body _ _ w =>
       (sc_reindex s body (sim_submitted w),
        {| sim_clock := sim_clock w + sc_latency s;
           sim_submitted := S (sim_submitted w) |});
     env_tasks_get := fun _ task_id w =>
       (sc_status s task_id (sim_clock w), sim_advance (sc_latency s) w) |}.

(** The world at the start of a run. *)
Definition sim_start : Sim := {| sim_clock := 0; sim_submitted := 0 |}.

(** The events of a run, and how it ended. *)
Definition trace {W A} (r : Outcome A * W * list Event) : list Event := r.2.
Definition outcome {W A} (r : Outcome A * W * list Event) : Outcome A := r.1.1.
Definition world {W A} (r : Outcome A * W * list Event) : W := r.1.2.

(** *** The two-collection scenario *)

Definition archive_remote : gmap string string :=
  <["host" := "https://source:9200"]>
    (<["username" := "elastic"]> {[ "password" := "secret" ]}).

Definition archive_config : Config :=
  {| es_target_config := Some {[ "hosts" := PyStr "https://target:9200" ]};
     es_source_remote := Some archive_remote;
     source_indices := Some ["logs-2023"; "logs-2024"];
     target_index := Some "logs-archive" |}.

Definition in_progress : Dict := {[ "completed" := PyBool false ]}.
Definition completed_ok : Dict := {[ "completed" := PyBool true ]}.
Definition completed_with (error : string) : Dict :=
  <["completed" := PyBool true]> {[ "error" := PyStr error ]}.

(** Task identifiers in the order of the submissions. *)
Definition nth_task (rank : nat) : Dict :=
  match rank with
  | O => {[ "task" := PyStr "task-1" ]}
  | 1%nat => {[ "task" := PyStr "task-2" ]}
  | _ => {[ "task" := PyStr "task-3" ]}
  end.

(** Both jobs in progress at the first poll; at the second, the first has
    completed and the second has failed. *)
Definition archive_script : Script :=
  {| sc_load := fun _ => Ok archive_config;
     sc_init := fun _ => Ok tt;
     sc_reindex := fun _ rank => Ok (nth_task rank);
     sc_status := fun task_id clock =>
       if clock <? 20 then Ok in_progress
       else if decide (task_id = PyStr "task-1") then Ok completed_ok
       else Ok (completed_with "mapping conflict");
     sc_latency := 0 |}.

Definition archive_jobs : TaskIds :=
  [("logs-2023", PyStr "task-1"); ("logs-2024", PyStr "task-2")].

(** *** Variations

    The status endpoint is unreachable for the second task. *)
Definition unreachable_script : Script :=
  {| sc_load := sc_load archive_script;
     sc_init := sc_init archive_script;
     sc_reindex := sc_reindex archive_script;
     sc_status := fun task_id clock =>
       if decide (task_id = PyStr "task-2")
       then Raise (ClientError "connection refused")
       else sc_status archive_script task_id clock;
     sc_latency := 0 |}.

(** Three collections; the submission of the second one meets a transport
    error. *)
Definition three_config : Config :=
  {| es_target_config := es_target_config archive_config;
     es_source_remote := Some archive_remote;
     source_indices := Some ["logs-2022"; "logs-2023"; "logs-2024"];
     target_index := Some "logs-archive" |}.

Definition transport_error_script : Script :=
  {| sc_load := fun _ => Ok three_config;
     sc_init := sc_init archive_script;
     sc_reindex := fun body rank =>
       if String.eqb (source_index body) "logs-2023"
       then Raise (ClientError "connection reset")
       else Ok (nth_task rank);
     sc_status := fun _ _ => Ok completed_ok;
     sc_latency := 0 |}.

(** The submission of the second collection returns an empty task
    identifier. *)
Definition empty_task_script : Script :=
  {| sc_load := fun _ => Ok three_config;
     sc_init := sc_init archive_script;
     sc_reindex := fun body rank =>
       if String.eqb (source_index body) "logs-2023"
       then Ok {[ "task" := PyStr EmptyString ]}
       else Ok (nth_task rank);
     sc_status := fun _ _ => Ok completed_ok;
     sc_latency := 0 |}.

(** The same collection listed twice. *)
Definition twice_config : Config :=
  {| es_target_config := es_target_config archive_config;
     es_source_remote := Some archive_remote;
     source_indices := Some ["logs-2023"; "logs-2023"];
     target_index := Some "logs-archive" |}.

Definition twice_script : Script :=
  {| sc_load := fun _ => Ok twice_config;
     sc_init := sc_init archive_script;
     sc_reindex := fun _ rank => Ok (nth_task rank);
     sc_status := fun _ _ => Ok completed_ok;
     sc_latency := 0 |}.

(** One job, and a client that takes one time unit per call: the job is
    still in progress at the first query and completed from time 21 on. *)
Definition slow_script : Script :=
  {| sc_load := fun _ => Ok archive_config;
     sc_init := sc_init archive_script;
     sc_reindex := fun _ rank => Ok (nth_task rank);
     sc_status := fun _ clock =>
       if clock <? 21 then Ok in_progress else Ok completed_ok;
     sc_latency := 1 |}.

(** The status of the second task lacks the ['completed'] entry once the
    first pass is over. *)
Definition malformed_script : Script :=
  {| sc_load := sc_load archive_script;
     sc_init := sc_init archive_script;
     sc_reindex := sc_reindex archive_script;
     sc_status := fun task_id clock =>
       if clock <? 20 then Ok in_progress
       else if decide (task_id = PyStr "task-1") then Ok completed_ok
       else Ok {[ "error" := PyStr "mapping conflict" ]};
     sc_latency := 0 |}.

(** The configuration has no ['target_index'] key. *)
Definition keyless_config : Config :=
  {| es_target_config := es_target_config archive_config;
     es_source_remote := Some archive_remote;
     source_indices := Some ["logs-2023"; "logs-2024"];
     target_index := None |}.

Definition keyless_script : Script :=
  {| sc_load := fun _ => Ok keyless_config;
     sc_init := sc_init archive_script;
     sc_reindex := sc_reindex archive_script;
     sc_status := sc_status archive_script;
     sc_latency := 0 |}.

(** The configuration file is not there. *)
Definition missing_file_script : Script :=
  {| sc_load := fun _ => Raise (ClientError "No such file or directory");
     sc_init := sc_init archive_script;
     sc_reindex := sc_reindex archive_script;
     sc_status := sc_status archive_script;
     sc_latency := 0 |}.

(** On the scripted client, the [n]-th query of a task after time [clock]
    (one query every 10 time units) is the first to report completion; the
    earlier ones return, and report the task in progress. *)
Definition completes_at (s : Script) (clock : Z) (task_id : PyVal) (n : nat)
    : Prop :=
  (1 <= n)%nat
  /\ (exists status completed,
        sc_status s task_id (clock + 10 * Z.of_nat n) = Ok status
        /\ status !! "completed" = Some completed
        /\ truthy completed = true)
  /\ forall m, (1 <= m < n)%nat ->
       exists status completed,
         sc_status s task_id (clock + 10 * Z.of_nat m) = Ok status
         /\ status !! "completed" = Some completed
         /\ truthy completed = false.

(** ** Observations on a trace *)

(** The task identifier of a status query. *)
Definition queried (ev : Event) : option PyVal :=
  match ev with
  | EvTasksGet task_id => Some task_id
  | _ => None
  end.

Definition status_queries (t : list Event) : list PyVal := omap queried t.

(** The log alone. *)
Definition logged (ev : Event) : option (Level * LogMsg) :=
  match ev with
  | EvLog lvl msg => Some (lvl, msg)
  | _ => None
  end.

Definition log_lines (t : list Event) : list (Level * LogMsg) := omap logged t.

(** The body of a submit call. *)
Definition submitted (ev : Event) : option ReindexBody :=
  match ev with
  | EvReindex body _ _ => Some body
  | _ => None
  end.

Definition submit_calls (t : list Event) : list ReindexBody := omap submitted t.

(** The line of the poll loop for a job whose status reports completion. *)
Definition verdict_line (index : string) (status : Dict) : Event :=
  match status !! "error" with
  | Some error => EvLog ERROR (MsgTaskFailed index error)
  | None => EvLog INFO (MsgTaskSucceeded index)
  end.

Definition is_sleep (ev : Event) : bool :=
  match ev with
  | EvSleep _ => true
  | _ => false
  end.

(** The number of passes of the poll loop: one [time.sleep] each. *)
Definition cycles_of (t : list Event) : nat := length (List.filter is_sleep t).

Definition is_summary (ev : Event) : bool :=
  match ev with
  | EvLog _ (MsgMigrationCompleted _) => true
  | _ => false
  end.

(** The two lines that end a run: the summary and the failure. *)
Definition is_final (ev : Event) : bool :=
  match ev with
  | EvLog _ (MsgMigrationCompleted _) | EvLog _ (MsgMigrationFailed _) => true
  | _ => false
  end.

Definition not_final (ev : Event) : Prop := is_final ev = false.

(** Every event a computation emits, in whatever world it runs, satisfies
    [P]. *)
Definition emits {W A} (P : Event -> Prop) (m : M W A) : Prop :=
  forall w, Forall P (trace (m w)).

(** [ceil (a / b)] for a positive [b]. *)
Definition ceil_div (a b : Z) : Z := - ((- a) / b).

(** ** The life of a job, read off the log *)

Inductive JobState := Pending | Submitted | Completed | Failed.

Inductive JobEvent := JSubmit | JProgress | JComplete | JFail.

(** What a log line tells about the job of source collection [index]: a
    started task with a truthy identifier is the one assignment to
    [task_ids]; the three lines of the poll loop are its outcomes. *)
Definition job_event (index : string) (ev : Event) : option JobEvent :=
  match ev with
  | EvLog _ (MsgStarted source _ task_id) =>
      if bool_decide (source = index) && truthy task_id then Some JSubmit else None
  | EvLog _ (MsgInProgress i) =>
      if bool_decide (i = index) then Some JProgress else None
  | EvLog _ (MsgTaskSucceeded i) =>
      if bool_decide (i = index) then Some JComplete else None
  | EvLog _ (MsgTaskFailed i _) =>
      if bool_decide (i = index) then Some JFail else None
  | _ => None
  end.

Definition lifecycle (index : string) (t : list Event) : list JobEvent :=
  omap (job_event index) t.

(** Pending -> Submitted -> Completed | Failed, and nothing else. *)
Definition job_step (s : JobState) (e : JobEvent) : option JobState :=
  match s, e with
  | Pending, JSubmit => Some Submitted
  | Submitted, JProgress => Some Submitted
  | Submitted, JComplete => Some Completed
  | Submitted, JFail => Some Failed
  | _, _ => None
  end.

Fixpoint job_run (s : JobState) (es : list JobEvent) : option JobState :=
  match es with
  | [] => Some s
  | e :: es' =>
      match job_step s e with
      | Some s' => job_run s' es'
      | None => None
      end
  end.

(** The state of the job of [index] as [task_ids] shows it. *)
Definition active_state (index : string) (task_ids : TaskIds) (idle : JobState)
    : JobState :=
  if dict_mem index task_ids then Submitted else idle.

Section Contracts.
Context {W H : Type} (env : Env W H).

(** The client contract on status responses: a returned status has a
    ['completed'] entry. *)
Definition status_contract : Prop :=
  forall es_target task_id w status w',
    env_tasks_get env es_target task_id w = (Ok status, w') ->
    is_Some (status !! "completed").

(** Some status response of the client lacks the ['completed'] entry. *)
Definition malformed_status (es_target : H) : Prop :=
  exists task_id w status w',
    env_tasks_get env es_target task_id w = (Ok status, w')
    /\ status !! "completed" = None.

(** Every submission of [index] raises. *)
Definition submit_fails (index : string) : Prop :=
  forall es_target body w,
    source_index body = index ->
    exists e w',
      env_reindex env es_target body false reindex_params w = (Raise e, w').

(** Every submission of [index] returns, with a falsy task identifier. *)
Definition submit_falsy (index : string) : Prop :=
  forall es_target body w,
    source_index body = index ->
    exists response task_id w',
      env_reindex env es_target body false reindex_params w = (Ok response, w')
      /\ response !! "task" = Some task_id /\ truthy task_id = false.

(** Every submission returns a truthy task identifier. *)
Definition submit_succeeds : Prop :=
  forall es_target body w,
    exists response task_id w',
      env_reindex env es_target body false reindex_params w = (Ok response, w')
      /\ response !! "task" = Some task_id /\ truthy task_id = true.

(** [n] passes of the poll loop, none of which raised, lead from one
    active set to another. *)
Inductive cycles_to (es_target : H)
  : TaskIds -> W -> nat -> TaskIds -> W -> list Event -> Prop :=
| cycles_zero task_ids w :
    cycles_to es_target task_ids w 0 task_ids w []
| cycles_step task_ids w ids1 w1 t1 n ids2 w2 t2 :
    task_ids <> [] ->
    poll_cycle env es_target task_ids w = (Ret ids1, w1, t1) ->
    cycles_to es_target ids1 w1 n ids2 w2 t2 ->
    cycles_to es_target task_ids w (S n) ids2 w2 (t1 ++ t2).
End Contracts.

(** A submit call as the script issues it for one of [indices]: the remote
    credentials and the destination of the configuration, no waiting for
    completion, no throttling. *)
Definition submit_call_ok (config : Config) (indices : list string)
    (ev : Event) : Prop :=
  match ev with
  | EvReindex body wait_for_completion params =>
      wait_for_completion = false
      /\ params = reindex_params
      /\ params !! "requests_per_second" = Some "-1"
      /\ target_index config = Some (dest_index body)
      /\ source_index body ∈ indices
      /\ exists remote,
           es_source_remote config = Some remote
           /\ remote !! "host" = Some (source_remote_host body)
           /\ remote !! "username" = Some (source_remote_username body)
           /\ remote !! "password" = Some (source_remote_password body)
  | _ => True
  end.

(** A configuration with the four keys, and the three keys of the remote. *)
Definition config_complete (config : Config) (indices : list string)
    (target : string) (remote : gmap string string) : Prop :=
  is_Some (es_target_config config)
  /\ source_indices config = Some indices
  /\ target_index config = Some target
  /\ es_source_remote config = Some remote
  /\ is_Some (remote !! "host")
  /\ is_Some (remote !! "username")
  /\ is_Some (remote !! "password").

(** ** Further scenarios and observations *)

(** The target configuration has no ['hosts'] entry. *)
Definition hostless_config : Config :=
  {| es_target_config := Some {[ "timeout" := PyInt 30 ]};
     es_source_remote := Some archive_remote;
     source_indices := Some ["logs-2023"; "logs-2024"];
     target_index := Some "logs-archive" |}.

(** The remote has no ['password'] entry. *)
Definition passwordless_remote : gmap string string :=
  <["host" := "https://source:9200"]> {[ "username" := "elastic" ]}.

Definition passwordless_config : Config :=
  {| es_target_config := es_target_config archive_config;
     es_source_remote := Some passwordless_remote;
     source_indices := Some ["logs-2023"; "logs-2024"];
     target_index := Some "logs-archive" |}.

Definition passwordless_script : Script :=
  {| sc_load := fun _ => Ok passwordless_config;
     sc_init := sc_init archive_script;
     sc_reindex := sc_reindex archive_script;
     sc_status := sc_status archive_script;
     sc_latency := 0 |}.

(** The response to a submission has no ['task'] entry. *)
Definition taskless_script : Script :=
  {| sc_load := sc_load archive_script;
     sc_init := sc_init archive_script;
     sc_reindex := fun _ _ => Ok {[ "acknowledged" := PyBool true ]};
     sc_status := sc_status archive_script;
     sc_latency := 0 |}.

(** Nothing to migrate, and neither a destination nor a remote. *)
Definition idle_config : Config :=
  {| es_target_config := es_target_config archive_config;
     es_source_remote := None;
     source_indices := Some [];
     target_index := None |}.

Definition idle_script : Script :=
  {| sc_load := fun _ => Ok idle_config;
     sc_init := sc_init archive_script;
     sc_reindex := sc_reindex archive_script;
     sc_status := sc_status archive_script;
     sc_latency := 0 |}.

(** Every submission is refused. *)
Definition refusing_script : Script :=
  {| sc_load := sc_load archive_script;
     sc_init := sc_init archive_script;
     sc_reindex := fun _ _ => Raise (ClientError "forbidden");
     sc_status := sc_status archive_script;
     sc_latency := 0 |}.

(** The keys whose absence can halt a run once the client is built. *)
Definition halting_keys : list string :=
  ["source_indices"; "target_index"; "es_source_remote"; "host"; "username";
   "password"; "completed"].

Section Progress.
Context {W H : Type} (env : Env W H).

(** Every status query of [task_id] returns, and reports it in progress. *)
Definition always_in_progress (task_id : PyVal) : Prop :=
  forall es_target w,
    exists status completed w',
      env_tasks_get env es_target task_id w = (Ok status, w')
      /\ status !! "completed" = Some completed
      /\ truthy completed = false.
End Progress.

(** The second task never completes. *)
Definition stuck_script : Script :=
  {| sc_load := sc_load archive_script;
     sc_init := sc_init archive_script;
     sc_reindex := sc_reindex archive_script;
     sc_status := fun task_id clock =>
       if decide (task_id = PyStr "task-2") then Ok in_progress
       else Ok completed_ok;
     sc_latency := 0 |}.

Section Steady.
Context {W H : Type} (env : Env W H).

(** The clock does not run backwards across a call of a collaborator, and
    a sleep takes at least the time asked for. *)
Definition steady_clock : Prop :=
  (forall seconds w,
     env_now env w + seconds <= env_now env (env_sleep env seconds w))
  /\ (forall file_path w,
        env_now env w <= env_now env (env_load env file_path w).2)
  /\ (forall target_config w,
        env_now env w <= env_now env (env_init env target_config w).2)
  /\ (forall es_target body wait_for_completion params w,
        env_now env w
        <= env_now env
             (env_reindex env es_target body wait_for_completion params w).2)
  /\ (forall es_target task_id w,
        env_now env w <= env_now env (env_tasks_get env es_target task_id w).2).

(** The computation takes at least 10 time units per sleep it makes. *)
Definition elapses {A} (m : M W A) : Prop :=
  forall w,
    env_now env w + 10 * Z.of_nat (cycles_of (trace (m w)))
    <= env_now env (world (m w)).
End Steady.

(** The value [task_ids] holds for [key], if any. *)
Fixpoint dict_get (key : string) (d : TaskIds) : option PyVal :=
  match d with
  | [] => None
  | (k, v) :: d' => if decide (k = key) then Some v else dict_get key d'
  end.

(** The task identifier a log line reports as started for [index], when it
    is truthy: the value the submit loop then assigns to [task_ids[index]]. *)
Definition started (index : string) (ev : Event) : option PyVal :=
  match ev with
  | EvLog _ (MsgStarted source _ task_id) =>
      if bool_decide (source = index) && truthy task_id then Some task_id
      else None
  | _ => None
  end.

(** The last task started for [index], if any. *)
Definition last_started (index : string) (t : list Event) : option PyVal :=
  last (omap (started index) t).

Definition is_started (ev : Event) : bool :=
  match ev with
  | EvLog _ (MsgStarted _ _ _) => true
  | _ => false
  end.

(** A line logged at ERROR. *)
Definition is_error (ev : Event) : bool :=
  match ev with
  | EvLog ERROR _ => true
  | _ => false
  end.

(** The verdicts of the poll loop are logged at their levels: a failure at
    ERROR, a success at INFO. *)
Definition verdict_level (ev : Event) : bool :=
  match ev with
  | EvLog INFO (MsgTaskFailed _ _) => false
  | EvLog ERROR (MsgTaskSucceeded _) => false
  | _ => true
  end.

(** The remote of the two-collection scenario, with other credentials. *)
Definition rotated_remote : gmap string string :=
  <["host" := "https://source:9200"]>
    (<["username" := "migrator"]> {[ "password" := "rotated" ]}).

(** The client refuses the submission and names the user in its error. *)
Definition echoing_script : Script :=
  {| sc_load := sc_load archive_script;
     sc_init := sc_init archive_script;
     sc_reindex := fun body _ =>
       Raise (ClientError ("authentication failed for user "
                             +:+ source_remote_username body));
     sc_status := sc_status archive_script;
     sc_latency := 0 |}.

(** * Properties *)

(** ** The dictionary operations *)

Section Dict.
Implicit Types (d : TaskIds) (k j : string) (v : PyVal).

Lemma dict_mem_true k d : dict_mem k d = true <-> k ∈ d.*1.
Proof. unfold dict_mem. by rewrite bool_decide_eq_true. Qed.

Lemma dict_mem_false k d : dict_mem k d = false <-> k ∉ d.*1.
Proof. unfold dict_mem. by rewrite bool_decide_eq_false. Qed.

Lemma dict_remove_sublist k d : sublist (dict_remove k d) d.
Proof.
  induction d as [|[k' v] d IH]; simpl; [done|].
  case_decide; [by apply sublist_cons | by apply sublist_skip].
Qed.

Lemma dict_remove_keys_ne k j d :
  j <> k -> j ∈ (dict_remove k d).*1 <-> j ∈ d.*1.
Proof.
  intros Hne. induction d as [|[k' v] d IH]; simpl; [done|].
  case_decide; subst; simpl; rewrite !elem_of_cons; naive_solver.
Qed.

Lemma dict_remove_keys_eq k d : NoDup d.*1 -> k ∉ (dict_remove k d).*1.
Proof.
  induction d as [|[k' v] d IH]; simpl; [intros _; apply not_elem_of_nil|].
  rewrite NoDup_cons. intros [Hk' Hd].
  case_decide; subst; simpl; [done|].
  rewrite not_elem_of_cons. split; [done | by apply IH].
Qed.

Lemma dict_remove_NoDup k d : NoDup d.*1 -> NoDup (dict_remove k d).*1.
Proof.
  intros Hd. apply (sublist_NoDup _ d.*1); [exact Hd|].
  apply fmap_sublist, dict_remove_sublist.
Qed.

Lemma dict_set_keys k v j d :
  j ∈ (dict_set k v d).*1 <-> j = k \/ j ∈ d.*1.
Proof.
  induction d as [|[k' v'] d IH]; simpl.
  - rewrite list_elem_of_singleton, elem_of_nil. naive_solver.
  - case_decide; subst; simpl; rewrite !elem_of_cons; naive_solver.
Qed.

Lemma dict_set_NoDup k v d : NoDup d.*1 -> NoDup (dict_set k v d).*1.
Proof.
  induction d as [|[k' v'] d IH]; simpl.
  - intros _. apply NoDup_singleton.
  - rewrite NoDup_cons. intros [Hk' Hd].
    case_decide; subst; simpl; rewrite NoDup_cons.
    + done.
    + split; [|by apply IH]. rewrite dict_set_keys. naive_solver.
Qed.

Lemma dict_set_fresh k v d : k ∉ d.*1 -> dict_set k v d = d ++ [(k, v)].
Proof.
  induction d as [|[k' v'] d IH]; simpl; [done|].
  rewrite not_elem_of_cons. intros [Hne Hk].
  case_decide; [congruence|]. by rewrite IH.
Qed.
Lemma dict_key_unique k v1 v2 (d : TaskIds) :
  NoDup d.*1 -> (k, v1) ∈ d -> (k, v2) ∈ d -> v1 = v2.
Proof.
  induction d as [|[k' v'] d IH]; simpl; [by intros _ ?%elem_of_nil|].
  rewrite NoDup_cons, !elem_of_cons. intros [Hk' Hd] [H1|H1] [H2|H2].
  - congruence.
  - simplify_eq. by apply (list_elem_of_fmap_2 fst) in H2.
  - simplify_eq. by apply (list_elem_of_fmap_2 fst) in H1.
  - by apply IH.
Qed.
End Dict.

(** ** Running the monad *)

Section Run.
Context {W : Type}.

Lemma run_bind_ret {A B} (m : M W A) (k : A -> M W B) w a w1 t1 :
  m w = (Ret a, w1, t1) ->
  (m ≫= k) w = (outcome (k a w1), world (k a w1), t1 ++ trace (k a w1)).
Proof.
  intros Hm. unfold mbind, M_bind, bind. rewrite Hm.
  by destruct (k a w1) as [[o w2] t2].
Qed.

Lemma run_bind_exc {A B} (m : M W A) (k : A -> M W B) w e w1 t1 :
  m w = (Exc e, w1, t1) -> (m ≫= k) w = (Exc e, w1, t1).
Proof. intros Hm. unfold mbind, M_bind, bind. by rewrite Hm. Qed.

Lemma run_bind_fuel {A B} (m : M W A) (k : A -> M W B) w w1 t1 :
  m w = (OutOfFuel, w1, t1) -> (m ≫= k) w = (OutOfFuel, w1, t1).
Proof. intros Hm. unfold mbind, M_bind, bind. by rewrite Hm. Qed.

Lemma run_bind {A B} (m : M W A) (k : A -> M W B) w :
  (m ≫= k) w =
    match outcome (m w) with
    | Ret a =>
        let r := k a (world (m w)) in
        (outcome r, world r, trace (m w) ++ trace r)
    | Exc e => (Exc e, world (m w), trace (m w))
    | OutOfFuel => (OutOfFuel, world (m w), trace (m w))
    end.
Proof.
  unfold mbind, M_bind, bind.
  destruct (m w) as [[[a|e|] w1] t1]; unfold outcome, world, trace; simpl;
    [|done..].
  by destruct (k a w1) as [[o w2] t2].
Qed.

Lemma run_try_except {A} (m : M W A) (h : Exn -> M W A) w :
  try_except m h w =
    match outcome (m w) with
    | Exc e =>
        let r := h e (world (m w)) in
        (outcome r, world r, trace (m w) ++ trace r)
    | _ => m w
    end.
Proof.
  unfold try_except.
  destruct (m w) as [[[a|e|] w1] t1]; unfold outcome, world, trace; simpl;
    [done| |done].
  by destruct (h e w1) as [[o w2] t2].
Qed.

End Run.

(** Unfold the monad down to pairs. *)
Ltac run :=
  unfold mbind, mret, M_bind, M_ret, bind, ret, raise, try_except, log, emit,
    call, getitem, config_getitem, dict_pop, out_of_fuel in *;
  simpl in *.

Section Steps.
Context {W H : Type} (env : Env W H).

(** [check_task_status] never raises: a failing query becomes a status. *)
Lemma check_task_status_run (es_target : H) task_id w :
  check_task_status env es_target task_id w =
    match env_tasks_get env es_target task_id w with
    | (Ok response, w1) =>
        (Ret response, w1,
         [EvTasksGet task_id;
          EvLog INFO (MsgChecked task_id
            (truthy (default (PyBool false) (response !! "completed"))))])
    | (Raise e, w1) =>
        (Ret (failed_status e), w1,
         [EvTasksGet task_id; EvLog ERROR (MsgCheckFailed task_id e)])
    end.
Proof.
  unfold check_task_status. run.
  by destruct (env_tasks_get env es_target task_id w) as [[response|e] w1].
Qed.

Lemma failed_status_completed e :
  failed_status e !! "completed" = Some (PyBool true).
Proof. unfold failed_status. by rewrite lookup_insert_eq. Qed.

Lemma failed_status_error e :
  failed_status e !! "error" = Some (PyStr (exn_str e)).
Proof.
  unfold failed_status.
  rewrite lookup_insert_ne by done. by rewrite lookup_insert_eq.
Qed.

(** One step of the inner loop, case by case. *)
Lemma poll_job_run (es_target : H) index task_id (task_ids : TaskIds) w :
  poll_job env es_target (index, task_id) task_ids w =
    let r := check_task_status env es_target task_id w in
    match outcome r with
    | Ret status =>
        match status !! "completed" with
        | None => (Exc (KeyError "completed"), world r, trace r)
        | Some completed =>
            if truthy completed then
              (if dict_mem index task_ids
               then Ret (dict_remove index task_ids)
               else Exc (KeyError index),
               world r, trace r ++ [verdict_line index status])
            else
              (Ret task_ids, world r,
               trace r ++ [EvLog INFO (MsgInProgress index)])
        end
    | Exc e => (Exc e, world r, trace r)
    | OutOfFuel => (OutOfFuel, world r, trace r)
    end.
Proof.
  unfold poll_job.
  destruct (check_task_status env es_target task_id w) as [[[status|e|] w1] t1] eqn:Hc;
    [|by rewrite (run_bind_exc _ _ _ _ _ _ Hc)|by rewrite (run_bind_fuel _ _ _ _ _ Hc)].
  rewrite (run_bind_ret _ _ _ _ _ _ Hc). unfold outcome, world, trace. simpl.
  run. destruct (status !! "completed") as [completed|]; simpl.
  - destruct (truthy completed); simpl.
    + unfold verdict_line.
      destruct (status !! "error"), (dict_mem index task_ids); simpl;
        by rewrite ?app_nil_r.
    + done.
  - by rewrite app_nil_r.
Qed.

(** A submission with the three remote keys present, case by case: the
    handler turns every failure of the call into [None]. *)
Lemma start_reindex_task_run (es_target : H) source target remote host
    username password w :
  remote !! "host" = Some host ->
  remote !! "username" = Some username ->
  remote !! "password" = Some password ->
  let body :=
    {| source_remote_host := host; source_remote_username := username;
       source_remote_password := password; source_index := source;
       dest_index := target |} in
  start_reindex_task env es_target source target remote w =
    match env_reindex env es_target body false reindex_params w with
    | (Ok response, w1) =>
        match response !! "task" with
        | Some task_id =>
            (Ret task_id, w1,
             [EvLog INFO (MsgAttempt source host target);
              EvReindex body false reindex_params;
              EvLog INFO (MsgStarted source target task_id)])
        | None =>
            (Ret PyNone, w1,
             [EvLog INFO (MsgAttempt source host target);
              EvReindex body false reindex_params;
              EvLog ERROR (MsgStartFailed source (KeyError "task"))])
        end
    | (Raise e, w1) =>
        (Ret PyNone, w1,
         [EvLog INFO (MsgAttempt source host target);
          EvReindex body false reindex_params;
          EvLog ERROR (MsgStartFailed source e)])
    end.
Proof.
  intros Hh Hu Hp body. unfold start_reindex_task. run.
  rewrite Hh, Hu, Hp. simpl. fold body.
  destruct (env_reindex env es_target body false reindex_params w)
    as [[response|e] w1]; simpl; [|done].
  by destruct (response !! "task").
Qed.

(** With a remote key missing, the subscript raises before the call. *)
Lemma start_reindex_task_missing (es_target : H) source target remote w :
  remote !! "host" = None \/ remote !! "username" = None
    \/ remote !! "password" = None ->
  exists key t,
    start_reindex_task env es_target source target remote w
      = (Exc (KeyError key), w, t)
    /\ (t = [] \/ exists host, t = [EvLog INFO (MsgAttempt source host target)]).
Proof.
  intros Hmiss. unfold start_reindex_task. run.
  destruct (remote !! "host") as [host|]; simpl; [|by eauto 6].
  destruct (remote !! "username") as [username|]; simpl; [|by eauto 7].
  destruct (remote !! "password") as [password|]; simpl; [|by eauto 7].
  naive_solver.
Qed.

Lemma lifecycle_app j t1 t2 :
  lifecycle j (t1 ++ t2) = lifecycle j t1 ++ lifecycle j t2.
Proof. apply omap_app. Qed.

Lemma status_queries_app t1 t2 :
  status_queries (t1 ++ t2) = status_queries t1 ++ status_queries t2.
Proof. apply omap_app. Qed.

Lemma submit_calls_app t1 t2 :
  submit_calls (t1 ++ t2) = submit_calls t1 ++ submit_calls t2.
Proof. apply omap_app. Qed.

Lemma cycles_of_app t1 t2 :
  cycles_of (t1 ++ t2) = (cycles_of t1 + cycles_of t2)%nat.
Proof. unfold cycles_of. by rewrite List.filter_app, length_app. Qed.

(** What one step of the inner loop leaves in the log and in [task_ids],
    for a job of the active set. *)
Lemma poll_job_cases (es_target : H) index task_id (task_ids : TaskIds) w :
  index ∈ task_ids.*1 ->
  let r := poll_job env es_target (index, task_id) task_ids w in
  status_queries (trace r) = [task_id]
  /\ submit_calls (trace r) = []
  /\ cycles_of (trace r) = 0%nat
  /\ (forall j, j <> index -> lifecycle j (trace r) = [])
  /\ match outcome r with
      | Ret ids' =>
          (ids' = task_ids /\ lifecycle index (trace r) = [JProgress])
          \/ (ids' = dict_remove index task_ids
              /\ (lifecycle index (trace r) = [JComplete]
                  \/ lifecycle index (trace r) = [JFail]))
      | Exc e =>
          e = KeyError "completed" /\ lifecycle index (trace r) = []
          /\ malformed_status env es_target
      | OutOfFuel => False
      end.
Proof.
  intros Hin%dict_mem_true. cbv zeta.
  rewrite poll_job_run, check_task_status_run. cbv zeta.
  assert (Hne : forall j (P Q : option JobEvent), j <> index ->
            (if bool_decide (index = j) then P else Q) = Q).
  { intros j P Q Hj. by rewrite bool_decide_eq_false_2. }
  assert (Heq : forall (P Q : option JobEvent),
            (if bool_decide (index = index) then P else Q) = P).
  { intros P Q. by rewrite bool_decide_eq_true_2. }
  destruct (env_tasks_get env es_target task_id w) as [[status|e] w1] eqn:Hget;
    unfold outcome, world, trace; simpl.
  - destruct (status !! "completed") as [completed|] eqn:Hcompleted; simpl;
      [|split_and!; try done; by exists task_id, w, status, w1].
    destruct (truthy completed); simpl; rewrite ?Hin.
    + unfold verdict_line. destruct (status !! "error");
        unfold lifecycle; simpl; rewrite Heq;
        (repeat split; [intros j Hj; by rewrite Hne|by eauto]).
    + unfold lifecycle; simpl; rewrite Heq.
      repeat split; [intros j Hj; by rewrite Hne|by eauto].
  - rewrite failed_status_completed. simpl. rewrite Hin.
    unfold verdict_line. rewrite failed_status_error.
    unfold lifecycle; simpl; rewrite Heq.
    repeat split; [intros j Hj; by rewrite Hne|by eauto].
Qed.

Lemma poll_items_cons (es_target : H) item rest (task_ids : TaskIds) w :
  poll_items env es_target (item :: rest) task_ids w =
    (poll_job env es_target item task_ids
       ≫= poll_items env es_target rest) w.
Proof. done. Qed.

(** One pass over a snapshot [items] of distinct jobs, all of them in the
    active set [cur]: every job is queried once, in order; a job is left
    in the set with a progress line or removed with a verdict; the jobs
    outside the snapshot are not touched. *)
Lemma poll_items_cases (es_target : H) (items cur : TaskIds) w :
  NoDup cur.*1 -> NoDup items.*1 ->
  (forall k, k ∈ items.*1 -> k ∈ cur.*1) ->
  let r := poll_items env es_target items cur w in
  submit_calls (trace r) = []
  /\ cycles_of (trace r) = 0%nat
  /\ (forall j, j ∉ items.*1 -> lifecycle j (trace r) = [])
  /\ match outcome r with
      | Ret cur' =>
          status_queries (trace r) = items.*2
          /\ sublist cur' cur
          /\ (forall j, j ∉ items.*1 -> j ∈ cur'.*1 <-> j ∈ cur.*1)
          /\ (forall j, j ∈ items.*1 ->
                (lifecycle j (trace r) = [JProgress] /\ j ∈ cur'.*1)
                \/ ((lifecycle j (trace r) = [JComplete]
                     \/ lifecycle j (trace r) = [JFail])
                    /\ j ∉ cur'.*1))
      | Exc e =>
          e = KeyError "completed"
          /\ malformed_status env es_target
          /\ (forall task_id, task_id ∈ status_queries (trace r) ->
                task_id ∈ items.*2)
          /\ (forall j, is_Some (job_run Submitted (lifecycle j (trace r))))
      | OutOfFuel => False
      end.
Proof.
  revert cur w. induction items as [|[index task_id] rest IH];
    intros cur w Hcur Hitems Hsub; cbv zeta.
  { simpl. repeat split; try done. by intros j Hj%elem_of_nil. }
  simpl in Hitems. apply NoDup_cons in Hitems as [Hfresh Hrest].
  assert (Hin : index ∈ cur.*1) by (apply Hsub; simpl; left).
  pose proof (poll_job_cases es_target index task_id cur w Hin) as Hjob.
  cbv zeta in Hjob. rewrite poll_items_cons.
  destruct (poll_job env es_target (index, task_id) cur w)
    as [[[cur1|e|] w1] t1] eqn:Hrun;
    unfold outcome, trace in Hjob; simpl in Hjob;
    destruct Hjob as (Hq1 & Hs1 & Hc1 & Hother & Hcase); [| |done].
  - (* the step returned: the rest of the snapshot runs from [cur1] *)
    rewrite (run_bind_ret _ _ _ _ _ _ Hrun).
    assert (Hsub1 : sublist cur1 cur).
    { destruct Hcase as [[-> _]|[-> _]]; [done|apply dict_remove_sublist]. }
    assert (Hcur1 : NoDup cur1.*1).
    { apply (sublist_NoDup _ cur.*1); [done|by apply fmap_sublist]. }
    assert (Hkeep : forall j, j <> index -> j ∈ cur1.*1 <-> j ∈ cur.*1).
    { intros j Hj. destruct Hcase as [[-> _]|[-> _]]; [done|].
      by apply dict_remove_keys_ne. }
    assert (Hsub' : forall k, k ∈ rest.*1 -> k ∈ cur1.*1).
    { intros k Hk. apply Hkeep; [by intros ->|].
      apply Hsub. simpl. by right. }
    specialize (IH cur1 w1 Hcur1 Hrest Hsub'). cbv zeta in IH.
    destruct (poll_items env es_target rest cur1 w1) as [[o2 w2] t2].
    unfold outcome, world, trace in *; simpl in *.
    destruct IH as (Hs2 & Hc2 & Hnone & IH).
    rewrite submit_calls_app, Hs1, Hs2, cycles_of_app, Hc1, Hc2.
    split; [done|]. split; [done|]. split.
    { intros j Hj. apply not_elem_of_cons in Hj as [Hj1 Hj2].
      by rewrite lifecycle_app, Hother, Hnone. }
    destruct o2 as [cur2|e|]; [| |done].
    + destruct IH as (Hq2 & Hsub2 & Hout & Hin2).
      split; [by rewrite status_queries_app, Hq1, Hq2|].
      split; [by etrans|]. split.
      { intros j Hj. apply not_elem_of_cons in Hj as [Hj1 Hj2].
        by rewrite Hout, Hkeep. }
      intros j Hj. rewrite lifecycle_app.
      apply elem_of_cons in Hj as [->|Hj].
      * rewrite (Hnone index Hfresh), app_nil_r, (Hout index Hfresh).
        destruct Hcase as [[-> Hl]|[-> Hl]]; [by left|right].
        split; [done|by apply dict_remove_keys_eq].
      * rewrite Hother by (by intros ->). simpl. by apply Hin2.
    + destruct IH as (-> & Hbad & Hq2 & Hacc).
      split; [done|]. split; [done|]. split.
      { intros tid. rewrite status_queries_app, Hq1. simpl.
        rewrite !elem_of_cons. naive_solver. }
      intros j. rewrite lifecycle_app.
      destruct (decide (j = index)) as [->|Hj].
      * rewrite (Hnone index Hfresh), app_nil_r.
        destruct Hcase as [[_ ->]|[_ [->| ->]]]; by eexists.
      * rewrite Hother by done. apply Hacc.
  - (* the step raised: the pass stops there *)
    rewrite (run_bind_exc _ _ _ _ _ _ Hrun).
    unfold outcome, trace; simpl. destruct Hcase as (-> & Hl & Hbad).
    split; [done|]. split; [done|]. split.
    { intros j Hj. apply not_elem_of_cons in Hj as [Hj1 Hj2]. by apply Hother. }
    split; [done|]. split; [done|]. split.
    { intros tid. rewrite Hq1. intros ->%list_elem_of_singleton. simpl. left. }
    intros j. destruct (decide (j = index)) as [->|Hj].
    * rewrite Hl. by eexists.
    * rewrite Hother by done. by eexists.
Qed.


Lemma poll_cycle_run (es_target : H) (task_ids : TaskIds) w :
  poll_cycle env es_target task_ids w =
    let r := poll_items env es_target task_ids task_ids (env_sleep env 10 w) in
    (outcome r, world r, EvSleep 10 :: trace r).
Proof.
  unfold poll_cycle, sleep. run.
  by destruct (poll_items env es_target task_ids task_ids (env_sleep env 10 w))
    as [[o w1] t1].
Qed.

(** One pass of the poll loop over an active set of distinct jobs. *)
Lemma poll_cycle_cases (es_target : H) (cur : TaskIds) w :
  NoDup cur.*1 ->
  let r := poll_cycle env es_target cur w in
  submit_calls (trace r) = []
  /\ cycles_of (trace r) = 1%nat
  /\ (forall j, j ∉ cur.*1 -> lifecycle j (trace r) = [])
  /\ match outcome r with
      | Ret cur' =>
          status_queries (trace r) = cur.*2
          /\ sublist cur' cur
          /\ (forall j, j ∈ cur.*1 ->
                (lifecycle j (trace r) = [JProgress] /\ j ∈ cur'.*1)
                \/ ((lifecycle j (trace r) = [JComplete]
                     \/ lifecycle j (trace r) = [JFail])
                    /\ j ∉ cur'.*1))
      | Exc e =>
          e = KeyError "completed"
          /\ malformed_status env es_target
          /\ (forall task_id, task_id ∈ status_queries (trace r) ->
                task_id ∈ cur.*2)
          /\ (forall j, is_Some (job_run Submitted (lifecycle j (trace r))))
      | OutOfFuel => False
      end.
Proof.
  intros Hcur. cbv zeta. rewrite poll_cycle_run. cbv zeta.
  pose proof (poll_items_cases es_target cur cur (env_sleep env 10 w)
                Hcur Hcur (fun k Hk => Hk)) as Hpass.
  cbv zeta in Hpass.
  destruct (poll_items env es_target cur cur (env_sleep env 10 w))
    as [[o1 w1] t1].
  unfold outcome, world, trace in *; simpl in *.
  destruct Hpass as (Hs1 & Hc1 & Hnone1 & Hpass).
  split; [done|]. split; [by rewrite <- Hc1|]. split; [done|].
  destruct o1 as [cur1|e|]; naive_solver.
Qed.

Lemma poll_loop_nil fuel (es_target : H) w :
  poll_loop env fuel es_target [] w = (Ret tt, w, []).
Proof. by destruct fuel. Qed.

Lemma poll_loop_step fuel (es_target : H) (task_ids : TaskIds) w :
  task_ids <> [] ->
  poll_loop env (S fuel) es_target task_ids w =
    (poll_cycle env es_target task_ids
       ≫= poll_loop env fuel es_target) w.
Proof. by destruct task_ids. Qed.

Lemma job_run_app s l1 l2 :
  job_run s (l1 ++ l2) =
    match job_run s l1 with
    | Some s' => job_run s' l2
    | None => None
    end.
Proof.
  revert s. induction l1 as [|e l1 IH]; intros s; simpl; [done|].
  by destruct (job_step s e).
Qed.

(** The whole poll loop, for any fuel: only jobs of the active set are
    queried and reported, each one leaves the set at most once, and the
    only exception it lets through is the missing ['completed']. *)
Lemma poll_loop_cases fuel (es_target : H) (cur : TaskIds) w :
  NoDup cur.*1 ->
  let r := poll_loop env fuel es_target cur w in
  submit_calls (trace r) = []
  /\ (forall j, j ∉ cur.*1 -> lifecycle j (trace r) = [])
  /\ (forall j, j ∈ cur.*1 ->
        exists s, job_run Submitted (lifecycle j (trace r)) = Some s
          /\ (outcome r = Ret tt -> s = Completed \/ s = Failed))
  /\ (forall task_id, task_id ∈ status_queries (trace r) -> task_id ∈ cur.*2)
  /\ (forall e, outcome r = Exc e ->
        e = KeyError "completed" /\ malformed_status env es_target).
Proof.
  revert cur w. induction fuel as [|fuel IH]; intros cur w Hcur; cbv zeta.
  { destruct cur as [|item cur]; simpl; unfold outcome, trace; simpl.
    - split_and!; try done; by intros ? ?%elem_of_nil.
    - split_and!; try done; [|by intros ? ?%elem_of_nil].
      intros j _. by exists Submitted. }
  destruct (decide (cur = [])) as [->|Hne].
  { rewrite poll_loop_nil. unfold outcome, trace; simpl.
    split_and!; try done; by intros ? ?%elem_of_nil. }
  rewrite (poll_loop_step _ _ _ _ Hne).
  pose proof (poll_cycle_cases es_target cur w Hcur) as Hpass.
  cbv zeta in Hpass.
  destruct (poll_cycle env es_target cur w) as [[[cur1|e|] w1] t1] eqn:Hrun;
    unfold outcome, world, trace in Hpass; simpl in Hpass;
    destruct Hpass as (Hs1 & _ & Hnone1 & Hpass); [| |done].
  - (* the pass returned [cur1] *)
    destruct Hpass as (Hq1 & Hsub1 & Hin1).
    assert (Hcur1 : NoDup cur1.*1).
    { apply (sublist_NoDup _ cur.*1); [done|by apply fmap_sublist]. }
    assert (Hkeys : forall j, j ∈ cur1.*1 -> j ∈ cur.*1).
    { intros j Hj. eapply elem_of_sublist; [done|by apply fmap_sublist]. }
    assert (Hvals : forall v, v ∈ cur1.*2 -> v ∈ cur.*2).
    { intros v Hv. eapply elem_of_sublist; [done|by apply fmap_sublist]. }
    rewrite (run_bind_ret _ _ _ _ _ _ Hrun).
    specialize (IH cur1 w1 Hcur1). cbv zeta in IH.
    destruct (poll_loop env fuel es_target cur1 w1) as [[o2 w2] t2].
    unfold outcome, world, trace in *; simpl in *.
    destruct IH as (Hs2 & Hnone2 & Hin2 & Hq2 & He2).
    split; [by rewrite submit_calls_app, Hs1, Hs2|]. split.
    { intros j Hj. rewrite lifecycle_app, Hnone1, Hnone2; naive_solver. }
    split.
    { intros j Hj. rewrite lifecycle_app, job_run_app.
      destruct (Hin1 j Hj) as [[-> Hj1]|[Hl Hj1]].
      - simpl. by apply Hin2.
      - rewrite (Hnone2 j Hj1).
        destruct Hl as [-> | ->]; simpl; eauto. }
    split; [|done].
    intros tid. rewrite status_queries_app, elem_of_app, Hq1. naive_solver.
  - (* the pass raised *)
    rewrite (run_bind_exc _ _ _ _ _ _ Hrun).
    unfold outcome, world, trace in *; simpl in *.
    destruct Hpass as (-> & Hbad & Hq & Hacc).
    split_and!; try done.
    + intros j Hj. destruct (Hacc j) as [s Hs]. by exists s.
    + intros e [= <-]. done.
Qed.


Lemma run_now {B} (k : Z -> M W B) w :
  (now env ≫= k) w = k (env_now env w) w.
Proof.
  unfold mbind, M_bind, bind, now.
  by destruct (k (env_now env w) w) as [[o w1] t1].
Qed.

Lemma load_config_run file_path w :
  load_config env file_path w =
    match env_load env file_path w with
    | (Ok config, w1) =>
        (Ret config, w1,
         [EvLoad file_path; EvLog INFO (MsgLoadedConfig file_path)])
    | (Raise e, w1) =>
        (Exc e, w1,
         [EvLoad file_path; EvLog ERROR (MsgLoadFailed file_path e)])
    end.
Proof.
  unfold load_config. run.
  by destruct (env_load env file_path w) as [[config|e] w1].
Qed.

Lemma initialize_opensearch_client_run config w :
  initialize_opensearch_client env config w =
    match es_target_config config with
    | None =>
        (Exc (KeyError "es_target_config"), w,
         [EvLog ERROR (MsgClientInitFailed (KeyError "es_target_config"))])
    | Some target_config =>
        match env_init env target_config w with
        | (Ok es_target, w1) =>
            match target_config !! "hosts" with
            | Some hosts =>
                (Ret es_target, w1,
                 [EvInit target_config; EvLog INFO (MsgClientInitialized hosts)])
            | None =>
                (Exc (KeyError "hosts"), w1,
                 [EvInit target_config;
                  EvLog ERROR (MsgClientInitFailed (KeyError "hosts"))])
            end
        | (Raise e, w1) =>
            (Exc e, w1,
             [EvInit target_config; EvLog ERROR (MsgClientInitFailed e)])
        end
    end.
Proof.
  unfold initialize_opensearch_client. run.
  destruct (es_target_config config) as [target_config|]; simpl; [|done].
  destruct (env_init env target_config w) as [[es_target|e] w1]; simpl; [|done].
  by destruct (target_config !! "hosts").
Qed.

Lemma poll_phase_run fuel (es_target : H) start_time (task_ids : TaskIds) w :
  poll_phase env fuel es_target start_time task_ids w =
    let r := poll_loop env fuel es_target task_ids w in
    match outcome r with
    | Ret _ =>
        (Ret tt, world r,
         trace r ++
         [EvLog INFO (MsgMigrationCompleted (env_now env (world r) - start_time))])
    | Exc e => (Exc e, world r, trace r)
    | OutOfFuel => (OutOfFuel, world r, trace r)
    end.
Proof.
  unfold poll_phase, now. cbv zeta.
  destruct (poll_loop env fuel es_target task_ids w) as [[[[]|e|] w1] t1] eqn:Hrun.
  - rewrite (run_bind_ret _ _ _ _ _ _ Hrun). by run.
  - by rewrite (run_bind_exc _ _ _ _ _ _ Hrun).
  - by rewrite (run_bind_fuel _ _ _ _ _ Hrun).
Qed.

(** The line the handler of [migrate_indices] logs. *)
Lemma migrate_indices_run fuel config_path w :
  migrate_indices env fuel config_path w =
    let failed e := [EvLog ERROR (MsgMigrationFailed e)] in
    let r1 := load_config env config_path w in
    match outcome r1 with
    | Ret config =>
        let r2 := initialize_opensearch_client env config (world r1) in
        match outcome r2 with
        | Ret es_target =>
            let r3 := submit_phase env es_target config (world r2) in
            match outcome r3 with
            | Ret task_ids =>
                let r4 := poll_phase env fuel es_target (env_now env w)
                            task_ids (world r3) in
                match outcome r4 with
                | Ret _ =>
                    (Ret tt, world r4,
                     trace r1 ++ trace r2 ++ trace r3 ++ trace r4)
                | Exc e =>
                    (Ret tt, world r4,
                     trace r1 ++ trace r2 ++ trace r3 ++ trace r4 ++ failed e)
                | OutOfFuel =>
                    (OutOfFuel, world r4,
                     trace r1 ++ trace r2 ++ trace r3 ++ trace r4)
                end
            | Exc e =>
                (Ret tt, world r3, trace r1 ++ trace r2 ++ trace r3 ++ failed e)
            | OutOfFuel =>
                (OutOfFuel, world r3, trace r1 ++ trace r2 ++ trace r3)
            end
        | Exc e => (Ret tt, world r2, trace r1 ++ trace r2 ++ failed e)
        | OutOfFuel => (OutOfFuel, world r2, trace r1 ++ trace r2)
        end
    | Exc e => (Ret tt, world r1, trace r1 ++ failed e)
    | OutOfFuel => (OutOfFuel, world r1, trace r1)
    end.
Proof.
  unfold migrate_indices. rewrite run_now. cbv zeta.
  rewrite run_try_except. rewrite run_bind.
  unfold outcome, world, trace. cbn [fst snd].
  destruct (load_config env config_path w) as [[[config|e|] w1] t1];
    cbn [fst snd]; [|by run|done].
  rewrite run_bind. unfold outcome, world, trace. cbn [fst snd].
  destruct (initialize_opensearch_client env config w1) as [[[es|e|] w2] t2];
    cbn [fst snd]; [|by run; rewrite <- !app_assoc|done].
  rewrite run_bind. unfold outcome, world, trace. cbn [fst snd].
  destruct (submit_phase env es config w2) as [[[ids|e|] w3] t3];
    cbn [fst snd]; [|by run; rewrite <- !app_assoc|done].
  destruct (poll_phase env fuel es (env_now env w) ids w3) as [[[[]|e|] w4] t4];
    cbn [fst snd]; [done| |done].
  run. by rewrite <- !app_assoc.
Qed.


Lemma submit_index_run (es_target : H) config index (task_ids : TaskIds) w :
  submit_index env es_target config index task_ids w =
    match target_index config with
    | None => (Exc (KeyError "target_index"), w, [])
    | Some target =>
        match es_source_remote config with
        | None => (Exc (KeyError "es_source_remote"), w, [])
        | Some remote =>
            let r := start_reindex_task env es_target index target remote w in
            match outcome r with
            | Ret task_id =>
                (Ret (if truthy task_id then dict_set index task_id task_ids
                      else task_ids),
                 world r, trace r)
            | Exc e => (Exc e, world r, trace r)
            | OutOfFuel => (OutOfFuel, world r, trace r)
            end
        end
    end.
Proof.
  unfold submit_index.
  destruct (target_index config) as [target|]; [|done].
  destruct (es_source_remote config) as [remote|]; [|done].
  run.
  by destruct (start_reindex_task env es_target index target remote w)
    as [[[task_id|e|] w1] t1]; unfold outcome, world, trace; simpl;
    try destruct (truthy task_id); simpl; rewrite ?app_nil_r.
Qed.

Lemma submit_call_ok_mono config (l1 l2 : list string) ev :
  (forall i, i ∈ l1 -> i ∈ l2) ->
  submit_call_ok config l1 ev -> submit_call_ok config l2 ev.
Proof. destruct ev; simpl; naive_solver. Qed.

(** One step of the submit loop: at most one call, made as the
    configuration says; the active set gains [index] exactly when the
    call returned a truthy task identifier. *)
Lemma submit_index_cases (es_target : H) config index (task_ids : TaskIds) w :
  let r := submit_index env es_target config index task_ids w in
  status_queries (trace r) = []
  /\ cycles_of (trace r) = 0%nat
  /\ Forall (submit_call_ok config [index]) (trace r)
  /\ (forall j, j <> index -> lifecycle j (trace r) = [])
  /\ match outcome r with
      | Ret ids' =>
          length (submit_calls (trace r)) = 1%nat
          /\ ((ids' = task_ids /\ lifecycle index (trace r) = [])
              \/ (exists task_id,
                    ids' = dict_set index task_id task_ids
                    /\ lifecycle index (trace r) = [JSubmit]))
      | Exc e =>
          lifecycle index (trace r) = [] /\ submit_calls (trace r) = []
          /\ exists key, e = KeyError key
      | OutOfFuel => False
      end.
Proof.
  cbv zeta. rewrite submit_index_run.
  destruct (target_index config) as [target|] eqn:Htarget;
    [|unfold outcome, trace; simpl; split_and!; try done; eauto].
  destruct (es_source_remote config) as [remote|] eqn:Hremote;
    [|unfold outcome, trace; simpl; split_and!; try done; eauto].
  cbv zeta.
  destruct (remote !! "host") as [host|] eqn:Hhost.
  2:{ destruct (start_reindex_task_missing es_target index target remote w)
        as (key & t & -> & Ht); [by left|].
      unfold outcome, trace; simpl.
      destruct Ht as [->|[host ->]]; split_and!; try done; try (by repeat (apply Forall_cons; split; [exact I|])); eauto. }
  destruct (remote !! "username") as [username|] eqn:Husername.
  2:{ destruct (start_reindex_task_missing es_target index target remote w)
        as (key & t & -> & Ht); [by right; left|].
      unfold outcome, trace; simpl.
      destruct Ht as [->|[host' ->]]; split_and!; try done; try (by repeat (apply Forall_cons; split; [exact I|])); eauto. }
  destruct (remote !! "password") as [password|] eqn:Hpassword.
  2:{ destruct (start_reindex_task_missing es_target index target remote w)
        as (key & t & -> & Ht); [by right; right|].
      unfold outcome, trace; simpl.
      destruct Ht as [->|[host' ->]]; split_and!; try done; try (by repeat (apply Forall_cons; split; [exact I|])); eauto. }
  rewrite (start_reindex_task_run es_target index target remote host
             username password w Hhost Husername Hpassword).
  cbv zeta.
  assert (Hne : forall j (P Q : option JobEvent) b, j <> index ->
            (if bool_decide (index = j) && b then P else Q) = Q).
  { intros j P Q b Hj. by rewrite bool_decide_eq_false_2. }
  assert (Heq : forall (P Q : option JobEvent) b,
            (if bool_decide (index = index) && b then P else Q)
            = if b then P else Q).
  { intros P Q b. by rewrite bool_decide_eq_true_2. }
  match goal with |- context [env_reindex env es_target ?b false reindex_params w] =>
    set (body := b) end.
  assert (Hok : submit_call_ok config [index] (EvReindex body false reindex_params)).
  { simpl. split_and!; try done; [by left|]. by exists remote. }
  destruct (env_reindex env es_target body false reindex_params w)
    as [[response|e] w1].
  - destruct (response !! "task") as [task_id|];
      unfold outcome, world, trace; simpl.
    + split; [done|]. split; [done|]. split; [by repeat (apply Forall_cons; split; [first [exact I|exact Hok]|])|].
      split; [intros j Hj; unfold lifecycle; simpl; by rewrite Hne|].
      split; [done|]. unfold lifecycle; simpl. rewrite Heq.
      destruct (truthy task_id); eauto.
    + split; [done|]. split; [done|]. split; [by repeat (apply Forall_cons; split; [first [exact I|exact Hok]|])|].
      split; [done|]. split; [done|]. by left.
  - unfold outcome, world, trace; simpl.
    split; [done|]. split; [done|]. split; [by repeat (apply Forall_cons; split; [first [exact I|exact Hok]|])|].
    split; [done|]. split; [done|]. by left.
Qed.


Lemma submit_all_cons (es_target : H) config index rest (task_ids : TaskIds) w :
  submit_all env es_target config (index :: rest) task_ids w =
    (submit_index env es_target config index task_ids
       ≫= submit_all env es_target config rest) w.
Proof. done. Qed.

Lemma submit_calls_sources config indices t :
  Forall (submit_call_ok config indices) t ->
  forall body, body ∈ submit_calls t -> source_index body ∈ indices.
Proof.
  intros Hall body (ev & Hev & Hbody)%list_elem_of_omap.
  rewrite Forall_forall in Hall. specialize (Hall ev Hev).
  destruct ev; simplify_eq/=. naive_solver.
Qed.

(** The submit loop, for any list of source collections: one call per
    collection, in order, unless a missing configuration key stops it. *)
Lemma submit_all_cases (es_target : H) config indices (task_ids : TaskIds) w :
  let r := submit_all env es_target config indices task_ids w in
  status_queries (trace r) = []
  /\ cycles_of (trace r) = 0%nat
  /\ Forall (submit_call_ok config indices) (trace r)
  /\ (forall j, j ∉ indices -> lifecycle j (trace r) = [])
  /\ match outcome r with
      | Ret ids' =>
          source_index <$> submit_calls (trace r) = indices
          /\ (NoDup task_ids.*1 -> NoDup ids'.*1)
          /\ (forall j, j ∈ task_ids.*1 -> j ∈ ids'.*1)
          /\ (forall j, j ∈ ids'.*1 -> j ∈ task_ids.*1 \/ j ∈ indices)
      | Exc e => exists key, e = KeyError key
      | OutOfFuel => False
      end.
Proof.
  revert task_ids w. induction indices as [|index rest IH];
    intros task_ids w; cbv zeta.
  { unfold outcome, trace; simpl. split_and!; try done. by left. }
  rewrite submit_all_cons, run_bind.
  pose proof (submit_index_cases es_target config index task_ids w) as Hstep.
  cbv zeta in Hstep.
  destruct (submit_index env es_target config index task_ids w)
    as [[[ids1|e|] w1] t1];
    unfold outcome, world, trace in Hstep |- *;
    cbn [fst snd] in Hstep |- *;
    destruct Hstep as (Hq1 & Hc1 & Hok1 & Hother1 & Hcase1); [| |done].
  - specialize (IH ids1 w1). cbv zeta in IH.
    destruct (submit_all env es_target config rest ids1 w1) as [[o2 w2] t2].
    unfold outcome, world, trace in *. cbn [fst snd] in *.
    destruct IH as (Hq2 & Hc2 & Hok2 & Hnone2 & Hcase2).
    destruct Hcase1 as [Hlen1 Hcase1].
    split; [by rewrite status_queries_app, Hq1, Hq2|].
    split; [by rewrite cycles_of_app, Hc1, Hc2|].
    split.
    { apply Forall_app. split.
      - eapply Forall_impl; [exact Hok1|]. intros ev.
        apply submit_call_ok_mono. intros i ->%list_elem_of_singleton. left.
      - eapply Forall_impl; [exact Hok2|]. intros ev.
        apply submit_call_ok_mono. intros i Hi. by right. }
    split.
    { intros j [Hj1 Hj2]%not_elem_of_cons.
      by rewrite lifecycle_app, Hother1, Hnone2. }
    destruct o2 as [ids2|e|]; [|done..].
    destruct Hcase2 as (Hsrc2 & Hnd2 & Hkeep2 & Hkeys2).
    assert (Hkeys1 : forall j, j ∈ ids1.*1 <-> j ∈ task_ids.*1
                       \/ (j = index /\ ids1 <> task_ids)).
    { intros j. destruct Hcase1 as [[-> _]|(task_id & -> & _)]; [naive_solver|].
      rewrite dict_set_keys. split; [|naive_solver].
      intros [->|Hj]; [|by left].
      destruct (decide (index ∈ task_ids.*1)); [by left|right].
      split; [done|]. rewrite dict_set_fresh by done.
      intros Heq. apply (f_equal length) in Heq.
      rewrite length_app in Heq. simpl in Heq. lia. }
    split_and!.
    + rewrite submit_calls_app, fmap_app, Hsrc2.
      destruct (submit_calls t1) as [|body [|]] eqn:Hcalls; simplify_eq/=.
      f_equal.
      assert (Hb : source_index body ∈ [index]).
      { eapply submit_calls_sources; [exact Hok1|]. rewrite Hcalls. left. }
      by apply list_elem_of_singleton in Hb.
    + intros Hnd. apply Hnd2.
      destruct Hcase1 as [[-> _]|(task_id & -> & _)]; [done|].
      by apply dict_set_NoDup.
    + intros j Hj. apply Hkeep2, Hkeys1. by left.
    + intros j Hj. destruct (Hkeys2 j Hj) as [Hj1|Hj1].
      * apply Hkeys1 in Hj1 as [Hj1|[-> _]]; [by left|right; left].
      * right. by right.
  - unfold outcome, world, trace. cbn [fst snd].
    destruct Hcase1 as (Hl & Hs & key & ->).
    split_and!; try done.
    + eapply Forall_impl; [exact Hok1|]. intros ev.
      apply submit_call_ok_mono. intros i ->%list_elem_of_singleton. left.
    + intros j [Hj1 Hj2]%not_elem_of_cons. by apply Hother1.
    + by exists key.
Qed.

(** With distinct source collections, each one is submitted at most once,
    and is in the active set exactly when that happened. *)
Lemma submit_all_lifecycle (es_target : H) config indices (task_ids : TaskIds) w :
  NoDup indices ->
  (forall k, k ∈ indices -> k ∉ task_ids.*1) ->
  let r := submit_all env es_target config indices task_ids w in
  forall j, j ∈ indices ->
    match outcome r with
    | Ret ids' =>
        (lifecycle j (trace r) = [JSubmit] /\ j ∈ ids'.*1)
        \/ (lifecycle j (trace r) = [] /\ j ∉ ids'.*1)
    | _ => lifecycle j (trace r) = [JSubmit] \/ lifecycle j (trace r) = []
    end.
Proof.
  revert task_ids w. induction indices as [|index rest IH];
    intros task_ids w Hnd Hfresh; cbv zeta; [by intros j Hj%elem_of_nil|].
  apply NoDup_cons in Hnd as [Hindex Hrest].
  rewrite submit_all_cons, run_bind.
  pose proof (submit_index_cases es_target config index task_ids w) as Hstep.
  cbv zeta in Hstep.
  destruct (submit_index env es_target config index task_ids w)
    as [[[ids1|e|] w1] t1];
    unfold outcome, world, trace in Hstep |- *;
    cbn [fst snd] in Hstep |- *;
    destruct Hstep as (_ & _ & _ & Hother1 & Hcase1); [| |done].
  - destruct Hcase1 as [_ Hcase1].
    assert (Hfresh1 : forall k, k ∈ rest -> k ∉ ids1.*1).
    { intros k Hk. assert (k <> index) by (by intros ->).
      assert (k ∉ task_ids.*1) by (apply Hfresh; by right).
      destruct Hcase1 as [[-> _]|(task_id & -> & _)]; [done|].
      rewrite dict_set_keys. naive_solver. }
    specialize (IH ids1 w1 Hrest Hfresh1). cbv zeta in IH.
    pose proof (submit_all_cases es_target config rest ids1 w1) as Hall.
    cbv zeta in Hall.
    destruct (submit_all env es_target config rest ids1 w1) as [[o2 w2] t2].
    unfold outcome, world, trace in *. cbn [fst snd] in *.
    destruct Hall as (_ & _ & _ & Hnone2 & Hcase2).
    intros j Hj. rewrite lifecycle_app.
    apply elem_of_cons in Hj as [->|Hj].
    + rewrite (Hnone2 index Hindex), app_nil_r.
      destruct o2 as [ids2|e|]; [|naive_solver..].
      destruct Hcase2 as (_ & _ & Hkeep2 & Hkeys2).
      destruct Hcase1 as [[-> Hl]|(task_id & -> & Hl)].
      * right. split; [done|]. intros Hin.
        destruct (Hkeys2 index Hin) as [Hin'|Hin']; [|done].
        revert Hin'. apply Hfresh. by left.
      * left. split; [done|]. apply Hkeep2, dict_set_keys. by left.
    + rewrite Hother1 by (by intros ->). simpl. by apply IH.
  - destruct Hcase1 as (Hl & _). intros j Hj.
    destruct (decide (j = index)) as [->|Hne]; [by right|].
    right. by apply Hother1.
Qed.

(** With the keys of the configuration present, the submit loop returns,
    whatever the calls do. *)
Lemma submit_all_complete (es_target : H) config indices target remote
    (task_ids : TaskIds) w :
  target_index config = Some target ->
  es_source_remote config = Some remote ->
  is_Some (remote !! "host") -> is_Some (remote !! "username") ->
  is_Some (remote !! "password") ->
  exists ids' w' t,
    submit_all env es_target config indices task_ids w = (Ret ids', w', t).
Proof.
  intros Htarget Hremote [host Hhost] [username Husername] [password Hpassword].
  revert task_ids w. induction indices as [|index rest IH]; intros task_ids w.
  { by eexists _, _, _. }
  rewrite submit_all_cons, run_bind, submit_index_run, Htarget, Hremote.
  cbv zeta.
  rewrite (start_reindex_task_run es_target index target remote host
             username password w Hhost Husername Hpassword).
  cbv zeta.
  match goal with |- context [env_reindex env es_target ?b false reindex_params w] =>
    destruct (env_reindex env es_target b false reindex_params w)
      as [[response|e] w1] end;
    [destruct (response !! "task") as [task_id|]|];
    unfold outcome, world, trace; cbn [fst snd];
    match goal with |- context [submit_all env es_target config rest ?i ?v] =>
      destruct (IH i v) as (ids' & w' & t & ->) end;
    cbn [fst snd]; by eexists _, _, _.
Qed.

(** A collection whose submissions raise, or return a falsy identifier,
    does not enter the active set. *)
Lemma submit_index_excluded (es_target : H) config index (task_ids : TaskIds) w :
  submit_fails env index \/ submit_falsy env index ->
  forall ids', outcome (submit_index env es_target config index task_ids w)
               = Ret ids' -> ids' = task_ids.
Proof.
  intros Hbad ids'. rewrite submit_index_run.
  destruct (target_index config) as [target|]; [|done].
  destruct (es_source_remote config) as [remote|]; [|done].
  cbv zeta.
  destruct (remote !! "host") as [host|] eqn:Hhost.
  2:{ destruct (start_reindex_task_missing es_target index target remote w)
        as (key & t & -> & _); [by left|done]. }
  destruct (remote !! "username") as [username|] eqn:Husername.
  2:{ destruct (start_reindex_task_missing es_target index target remote w)
        as (key & t & -> & _); [by right; left|done]. }
  destruct (remote !! "password") as [password|] eqn:Hpassword.
  2:{ destruct (start_reindex_task_missing es_target index target remote w)
        as (key & t & -> & _); [by right; right|done]. }
  rewrite (start_reindex_task_run es_target index target remote host
             username password w Hhost Husername Hpassword).
  cbv zeta.
  match goal with |- context [env_reindex env es_target ?b false reindex_params w] =>
    set (body := b) end.
  destruct Hbad as [Hbad|Hbad].
  - destruct (Hbad es_target body w eq_refl) as (e & w1 & ->).
    unfold outcome; simpl. congruence.
  - destruct (Hbad es_target body w eq_refl)
      as (response & task_id & w1 & -> & -> & Hfalsy).
    unfold outcome; simpl. rewrite Hfalsy. congruence.
Qed.

Lemma submit_all_excluded (es_target : H) config indices index
    (task_ids : TaskIds) w :
  submit_fails env index \/ submit_falsy env index ->
  index ∉ task_ids.*1 ->
  forall ids', outcome (submit_all env es_target config indices task_ids w)
               = Ret ids' -> index ∉ ids'.*1.
Proof.
  intros Hbad. revert task_ids w.
  induction indices as [|i rest IH]; intros task_ids w Hout ids'.
  { unfold outcome; simpl. congruence. }
  rewrite submit_all_cons, run_bind.
  pose proof (submit_index_cases es_target config i task_ids w) as Hstep.
  pose proof (submit_index_excluded es_target config index task_ids w Hbad)
    as Hsame.
  cbv zeta in Hstep.
  destruct (submit_index env es_target config i task_ids w)
    as [[[ids1|e|] w1] t1] eqn:Hrun;
    unfold outcome, world, trace in Hstep |- *;
    cbn [fst snd] in Hstep |- *; [|done..].
  destruct Hstep as (_ & _ & _ & _ & _ & Hcase).
  intros Hret. apply (IH ids1 w1); [|by destruct (submit_all _ _ _ _ _ _) as [[]]].
  destruct Hcase as [[-> _]|(task_id & -> & _)]; [done|].
  destruct (decide (i = index)) as [->|Hne].
  - rewrite Hrun in Hsame. unfold outcome in Hsame. simpl in Hsame.
    by rewrite (Hsame _ eq_refl).
  - rewrite dict_set_keys. naive_solver.
Qed.

(** A submission with the keys of the configuration present. *)
Lemma submit_index_complete (es_target : H) config index target remote host
    username password (task_ids : TaskIds) w :
  target_index config = Some target ->
  es_source_remote config = Some remote ->
  remote !! "host" = Some host ->
  remote !! "username" = Some username ->
  remote !! "password" = Some password ->
  let body :=
    {| source_remote_host := host; source_remote_username := username;
       source_remote_password := password; source_index := index;
       dest_index := target |} in
  let attempt :=
    [EvLog INFO (MsgAttempt index host target);
     EvReindex body false reindex_params] in
  submit_index env es_target config index task_ids w =
    match env_reindex env es_target body false reindex_params w with
    | (Ok response, w1) =>
        match response !! "task" with
        | Some task_id =>
            (Ret (if truthy task_id then dict_set index task_id task_ids
                  else task_ids),
             w1, attempt ++ [EvLog INFO (MsgStarted index target task_id)])
        | None =>
            (Ret task_ids, w1,
             attempt ++ [EvLog ERROR (MsgStartFailed index (KeyError "task"))])
        end
    | (Raise e, w1) =>
        (Ret task_ids, w1, attempt ++ [EvLog ERROR (MsgStartFailed index e)])
    end.
Proof.
  intros Htarget Hremote Hhost Husername Hpassword body attempt.
  rewrite submit_index_run, Htarget, Hremote. cbv zeta.
  rewrite (start_reindex_task_run es_target index target remote host
             username password w Hhost Husername Hpassword).
  cbv zeta. fold body.
  destruct (env_reindex env es_target body false reindex_params w)
    as [[response|e] w1]; [|done].
  by destruct (response !! "task").
Qed.

(** The poll phase: the loop, and the summary line when it returns. *)
Lemma poll_phase_cases fuel (es_target : H) start_time (cur : TaskIds) w :
  NoDup cur.*1 ->
  let r := poll_phase env fuel es_target start_time cur w in
  submit_calls (trace r) = []
  /\ (forall j, j ∉ cur.*1 -> lifecycle j (trace r) = [])
  /\ (forall j, j ∈ cur.*1 ->
        exists s, job_run Submitted (lifecycle j (trace r)) = Some s
          /\ (outcome r = Ret tt -> s = Completed \/ s = Failed))
  /\ (forall task_id, task_id ∈ status_queries (trace r) -> task_id ∈ cur.*2)
  /\ (forall e, outcome r = Exc e ->
        e = KeyError "completed" /\ malformed_status env es_target).
Proof.
  intros Hcur. cbv zeta. rewrite poll_phase_run. cbv zeta.
  pose proof (poll_loop_cases fuel es_target cur w Hcur) as Hloop.
  cbv zeta in Hloop.
  destruct (poll_loop env fuel es_target cur w) as [[[[]|e|] w1] t1];
    unfold outcome, world, trace in *; cbn [fst snd] in *;
    destruct Hloop as (Hs & Hnone & Hin & Hq & He); [|done..].
  split; [by rewrite submit_calls_app, Hs|].
  split; [intros j Hj; by rewrite lifecycle_app, Hnone|].
  split.
  { intros j Hj. destruct (Hin j Hj) as (s & Hs' & Hterm).
    exists s. rewrite lifecycle_app, job_run_app, Hs'. by destruct s. }
  split; [|done].
  intros tid. rewrite status_queries_app, elem_of_app.
  intros [Htid|Htid%elem_of_nil]; [by apply Hq|done].
Qed.

Lemma contract_not_malformed (es_target : H) :
  status_contract env -> ~ malformed_status env es_target.
Proof.
  intros Hcontract (task_id & w & status & w' & Hget & Hnone).
  destruct (Hcontract _ _ _ _ _ Hget) as [completed Hsome]. congruence.
Qed.

End Steps.

(** ** What a computation can log *)

Section Emits.
Context {W : Type} (P : Event -> Prop).

Lemma emits_mret {A} (a : A) : emits P (mret a : M W A).
Proof. intros w. apply Forall_nil_2. Qed.

Lemma emits_raise {A} e : emits P (raise e : M W A).
Proof. intros w. apply Forall_nil_2. Qed.

Lemma emits_out_of_fuel {A} : emits P (out_of_fuel : M W A).
Proof. intros w. apply Forall_nil_2. Qed.

Lemma emits_log lvl msg : P (EvLog lvl msg) -> emits P (log lvl msg : M W unit).
Proof. intros Hev w. by apply Forall_singleton. Qed.

Lemma emits_call {A} ev (f : W -> Result A * W) : P ev -> emits P (call ev f).
Proof.
  intros Hev w. unfold call, trace.
  destruct (f w) as [[a|e] w1]; by apply Forall_singleton.
Qed.

Lemma emits_getitem {V} (d : gmap string V) key : emits P (getitem d key : M W V).
Proof. intros w. unfold getitem. destruct (d !! key); apply Forall_nil_2. Qed.

Lemma emits_config_getitem {V} (field : option V) key :
  emits P (config_getitem field key : M W V).
Proof. intros w. destruct field; apply Forall_nil_2. Qed.

Lemma emits_dict_pop key d : emits P (dict_pop key d : M W TaskIds).
Proof. intros w. unfold dict_pop. destruct (dict_mem key d); apply Forall_nil_2. Qed.

Lemma emits_bind {A B} (m : M W A) (k : A -> M W B) :
  emits P m -> (forall a, emits P (k a)) -> emits P (m ≫= k).
Proof.
  intros Hm Hk w. rewrite run_bind. specialize (Hm w).
  destruct (m w) as [[[a|e|] w1] t1]; unfold outcome, world, trace in *;
    cbn [fst snd] in *; [|done..].
  apply Forall_app. split; [done|]. apply Hk.
Qed.

Lemma emits_try_except {A} (m : M W A) (h : Exn -> M W A) :
  emits P m -> (forall e, emits P (h e)) -> emits P (try_except m h).
Proof.
  intros Hm Hh w. rewrite run_try_except. specialize (Hm w).
  destruct (m w) as [[[a|e|] w1] t1]; unfold outcome, world, trace in *;
    cbn [fst snd] in *; [done| |done].
  apply Forall_app. split; [done|]. apply Hh.
Qed.
End Emits.

Create HintDb emits.
#[export] Hint Resolve emits_mret emits_raise emits_out_of_fuel emits_getitem
  emits_config_getitem emits_dict_pop : emits.

(** Decompose a computation along its binds, handlers and case analyses. *)
Ltac emits_step :=
  first
    [ apply emits_bind; [|intros ?]
    | apply emits_try_except; [|intros ?]
    | apply emits_log; done
    | apply emits_call; done
    | match goal with
      | |- emits _ (match ?x with _ => _ end) => destruct x
      end ].
Ltac emits := repeat emits_step; auto with emits.

Section Final.
Context {W H : Type} (env : Env W H).

Lemma now_not_final : emits not_final (now env).
Proof. intros w. apply Forall_nil_2. Qed.

Lemma sleep_not_final seconds : emits not_final (sleep env seconds).
Proof. intros w. by apply Forall_singleton. Qed.

Lemma load_config_not_final file_path : emits not_final (load_config env file_path).
Proof. unfold load_config. emits. Qed.

Lemma initialize_opensearch_client_not_final config :
  emits not_final (initialize_opensearch_client env config).
Proof. unfold initialize_opensearch_client. emits. Qed.

Lemma start_reindex_task_not_final (es_target : H) source target remote :
  emits not_final (start_reindex_task env es_target source target remote).
Proof. unfold start_reindex_task. emits. Qed.

Lemma check_task_status_not_final (es_target : H) task_id :
  emits not_final (check_task_status env es_target task_id).
Proof. unfold check_task_status. emits. Qed.

Lemma submit_all_not_final (es_target : H) config indices task_ids :
  emits not_final (submit_all env es_target config indices task_ids).
Proof.
  revert task_ids. induction indices as [|index rest IH]; intros task_ids;
    simpl; [emits|].
  apply emits_bind; [|done].
  unfold submit_index. emits.
Qed.

Lemma submit_phase_not_final (es_target : H) config :
  emits not_final (submit_phase env es_target config).
Proof. unfold submit_phase. emits. apply submit_all_not_final. Qed.

Lemma poll_items_not_final (es_target : H) items task_ids :
  emits not_final (poll_items env es_target items task_ids).
Proof.
  revert task_ids. induction items as [|[index task_id] rest IH];
    intros task_ids; simpl; [emits|].
  apply emits_bind; [|done].
  emits.
Qed.

Lemma poll_loop_not_final fuel (es_target : H) task_ids :
  emits not_final (poll_loop env fuel es_target task_ids).
Proof.
  revert task_ids. induction fuel as [|fuel IH]; intros [|item task_ids];
    cbn [poll_loop]; [emits..|].
  apply emits_bind; [|apply IH].
  unfold poll_cycle. apply emits_bind; [apply sleep_not_final|].
  intros _. apply poll_items_not_final.
Qed.
End Final.

(** ** The claims *)

Section Polling.
Context {W H : Type} (env : Env W H).

(** C1 — the poll step is a case analysis on the status returned for the
    job: completed with an ['error'] entry, the job is logged as failed
    and removed from the active set; completed without one, it is logged
    as successful and removed; otherwise a progress line is logged and
    the job stays.  Over a whole pass, every job of the active set is
    queried once, and the jobs left with a progress line are exactly the
    jobs of the set the next pass starts from.  The loop then makes that
    next pass: a job left in progress is in its snapshot with the same
    task identifier, and is queried again when the pass returns, as it
    does when the client honours the status contract; otherwise the pass
    can only be cut short by a status without ['completed']. *)
Theorem poll_step_by_status (es_target : H) index task_id
    (task_ids : TaskIds) w status w1 checked completed :
  NoDup task_ids.*1 ->
  index ∈ task_ids.*1 ->
  check_task_status env es_target task_id w = (Ret status, w1, checked) ->
  status !! "completed" = Some completed ->
  let r := poll_job env es_target (index, task_id) task_ids w in
  match truthy completed, status !! "error" with
  | true, Some error =>
      r = (Ret (dict_remove index task_ids), w1,
           checked ++ [EvLog ERROR (MsgTaskFailed index error)])
      /\ index ∉ (dict_remove index task_ids).*1
  | true, None =>
      r = (Ret (dict_remove index task_ids), w1,
           checked ++ [EvLog INFO (MsgTaskSucceeded index)])
      /\ index ∉ (dict_remove index task_ids).*1
  | false, _ =>
      r = (Ret task_ids, w1, checked ++ [EvLog INFO (MsgInProgress index)])
  end
  /\ (forall w0 next w' t,
        poll_cycle env es_target task_ids w0 = (Ret next, w', t) ->
        status_queries t = task_ids.*2
        /\ sublist next task_ids
        /\ forall j, j ∈ task_ids.*1 ->
             (lifecycle j t = [JProgress] /\ j ∈ next.*1)
             \/ ((lifecycle j t = [JComplete] \/ lifecycle j t = [JFail])
                 /\ j ∉ next.*1))
  /\ forall w0 next w' t j task_id_j,
       poll_cycle env es_target task_ids w0 = (Ret next, w', t) ->
       (j, task_id_j) ∈ task_ids ->
       lifecycle j t = [JProgress] ->
       (j, task_id_j) ∈ next
       /\ let p := poll_cycle env es_target next w' in
          (forall fuel,
             poll_loop env (S (S fuel)) es_target task_ids w0 =
               match outcome p with
               | Ret next' =>
                   let r' := poll_loop env fuel es_target next' (world p) in
                   (outcome r', world r', t ++ trace p ++ trace r')
               | Exc e => (Exc e, world p, t ++ trace p)
               | OutOfFuel => (OutOfFuel, world p, t ++ trace p)
               end)
          /\ match outcome p with
             | Ret _ =>
                 EvTasksGet task_id_j ∈ trace p
                 /\ status_queries (trace p) = next.*2
             | Exc e => e = KeyError "completed" /\ malformed_status env es_target
             | OutOfFuel => False
             end
          /\ (status_contract env -> exists next', outcome p = Ret next').
Proof.
  intros Hnd Hin Hcheck Hcompleted r. split_and!.
  - subst r. rewrite poll_job_run, Hcheck. cbv zeta.
    unfold outcome, world, trace. cbn [fst snd]. rewrite Hcompleted.
    destruct (truthy completed) eqn:Htruthy.
    + apply dict_mem_true in Hin as ->. unfold verdict_line.
      destruct (status !! "error"); (split; [done|by apply dict_remove_keys_eq]).
    + by destruct (status !! "error").
  - intros w0 next w' t Hcycle.
    pose proof (poll_cycle_cases env es_target task_ids w0 Hnd) as Hpass.
    cbv zeta in Hpass. rewrite Hcycle in Hpass.
    unfold outcome, trace in Hpass. cbn [fst snd] in Hpass.
    by destruct Hpass as (_ & _ & _ & Hq & Hsub & Hjobs).
  - intros w0 next w' t j task_id_j Hcycle Hj Hlife.
    pose proof (poll_cycle_cases env es_target task_ids w0 Hnd) as Hpass.
    cbv zeta in Hpass. rewrite Hcycle in Hpass.
    unfold outcome, trace in Hpass. cbn [fst snd] in Hpass.
    destruct Hpass as (_ & _ & _ & _ & Hsub & Hjobs).
    assert (Hkey : j ∈ task_ids.*1) by (by apply (list_elem_of_fmap_2 fst) in Hj).
    assert (Hnext : (j, task_id_j) ∈ next).
    { destruct (Hjobs j Hkey) as [[_ Hjn]|[[Hl|Hl] _]];
        [|by rewrite Hlife in Hl..].
      apply list_elem_of_fmap in Hjn as ([j' v] & -> & Hv).
      assert (Hv' : (j', v) ∈ task_ids) by (by eapply elem_of_sublist).
      by rewrite <- (dict_key_unique j' v task_id_j task_ids Hnd Hv' Hj). }
    assert (Hnd' : NoDup next.*1).
    { apply (sublist_NoDup _ task_ids.*1); [done|by apply fmap_sublist]. }
    assert (Hne : task_ids <> []) by (intros ->; by apply elem_of_nil in Hj).
    assert (Hne' : next <> []) by (intros ->; by apply elem_of_nil in Hnext).
    split; [done|]. cbv zeta.
    pose proof (poll_cycle_cases env es_target next w' Hnd') as Hpass.
    cbv zeta in Hpass.
    split_and!.
    + intros fuel.
      rewrite (poll_loop_step _ _ _ _ _ Hne), (run_bind_ret _ _ _ _ _ _ Hcycle).
      rewrite (poll_loop_step _ _ _ _ _ Hne'), run_bind.
      destruct (poll_cycle env es_target next w') as [[[next'|e|] w2] t2];
        unfold outcome, world, trace; cbn [fst snd]; done.
    + destruct (poll_cycle env es_target next w') as [[[next'|e|] w2] t2];
        unfold outcome, world, trace in *; cbn [fst snd] in *;
        destruct Hpass as (_ & _ & _ & Hpass); [| |done].
      * destruct Hpass as (Hq & _). split; [|done].
        assert (Hqueried : task_id_j ∈ status_queries t2).
        { rewrite Hq. by apply (list_elem_of_fmap_2 snd) in Hnext. }
        apply list_elem_of_omap in Hqueried as (ev & Hev & Hquery).
        by destruct ev; simplify_eq/=.
      * by destruct Hpass as (-> & Hbad & _).
    + intros Hcontract.
      destruct (poll_cycle env es_target next w') as [[[next'|e|] w2] t2];
        unfold outcome, world, trace in *; cbn [fst snd] in *;
        destruct Hpass as (_ & _ & _ & Hpass); [by eexists| |done].
      destruct Hpass as (_ & Hbad & _).
      by apply (contract_not_malformed env) in Hbad.
Qed.

End Polling.

Section Submission.
Context {W H : Type} (env : Env W H).

Lemma submit_phase_run (es_target : H) config w :
  submit_phase env es_target config w =
    match source_indices config with
    | Some indices => submit_all env es_target config indices [] w
    | None => (Exc (KeyError "source_indices"), w, [])
    end.
Proof.
  unfold submit_phase. rewrite run_bind.
  destruct (source_indices config) as [indices|]; [|done].
  unfold config_getitem, ret, outcome, world, trace. cbn [fst snd].
  by destruct (submit_all env es_target config indices [] w) as [[o w1] t1].
Qed.

(** When every call returns a truthy identifier, distinct collections not
    yet in the active set are appended to it in order. *)
Lemma submit_all_succeeds (es_target : H) config indices target remote
    (task_ids : TaskIds) w :
  config_complete config indices target remote ->
  submit_succeeds env ->
  forall l, NoDup l -> (forall k, k ∈ l -> k ∉ task_ids.*1) ->
    exists ids' w' t,
      submit_all env es_target config l task_ids w = (Ret ids', w', t)
      /\ ids'.*1 = task_ids.*1 ++ l.
Proof.
  intros (_ & _ & Htarget & Hremote & [host Hhost] & [username Husername]
          & [password Hpassword]) Hsucc l.
  revert task_ids w. induction l as [|i rest IH]; intros task_ids w Hnd Hfresh.
  { eexists _, _, _. split; [done|]. by rewrite app_nil_r. }
  apply NoDup_cons in Hnd as [Hi Hrest].
  rewrite submit_all_cons, run_bind.
  rewrite (submit_index_complete env es_target config i target remote host
             username password task_ids w Htarget Hremote Hhost Husername
             Hpassword).
  cbv zeta.
  match goal with |- context [env_reindex env es_target ?b false reindex_params w] =>
    destruct (Hsucc es_target b w) as (response & task_id & w1 & Hcall & Htask & Htrue);
    rewrite Hcall, Htask, Htrue end.
  unfold outcome, world, trace. cbn [fst snd].
  rewrite dict_set_fresh by (apply Hfresh; left).
  destruct (IH (task_ids ++ [(i, task_id)]) w1 Hrest) as (ids' & w' & t & -> & Hkeys).
  { intros k Hk. rewrite fmap_app, elem_of_app. simpl.
    rewrite list_elem_of_singleton.
    intros [Hk' | ->]; [|done]. revert Hk'. apply Hfresh. by right. }
  cbn [fst snd]. eexists _, _, _. split; [done|].
  rewrite Hkeys, fmap_app. simpl. by rewrite <- app_assoc.
Qed.

(** C6 (amended) — with pairwise distinct source collections, when every
    submit call returns a truthy task identifier the active set at the
    start of the poll phase holds the configured collections, one job
    each: its size is their number. *)
Theorem active_set_has_one_job_per_collection (es_target : H) config indices
    target remote w :
  config_complete config indices target remote ->
  NoDup indices ->
  submit_succeeds env ->
  exists task_ids w1 t1,
    submit_phase env es_target config w = (Ret task_ids, w1, t1)
    /\ task_ids.*1 = indices
    /\ length task_ids = length indices.
Proof.
  intros Hcomplete Hnd Hsucc.
  destruct (submit_all_succeeds es_target config indices target remote [] w
              Hcomplete Hsucc indices Hnd) as (task_ids & w1 & t1 & Hrun & Hkeys).
  { intros k _. apply not_elem_of_nil. }
  destruct Hcomplete as (_ & Hindices & _).
  exists task_ids, w1, t1. rewrite submit_phase_run, Hindices.
  split_and!; [done..|]. simpl in Hkeys.
  by rewrite <- Hkeys, length_fmap.
Qed.

(** C10 — a submit call that returns a falsy task identifier: the job is
    logged as started, yet [task_ids] is left as it was, which is what a
    raising call leaves too; whether a job enters the active set is the
    truth value of the identifier.  Such a job is never queried and no
    outcome is ever logged for it. *)
Theorem falsy_job_id_is_excluded (es_target : H) config indices target
    remote index w :
  config_complete config indices target remote ->
  index ∈ indices ->
  submit_falsy env index ->
  (forall (task_ids : TaskIds) w0,
     exists task_id w1 t,
       submit_index env es_target config index task_ids w0
         = (Ret task_ids, w1, t ++ [EvLog INFO (MsgStarted index target task_id)])
       /\ truthy task_id = false)
  /\ (forall i (task_ids : TaskIds) w0,
        match outcome (start_reindex_task env es_target i target remote w0) with
        | Ret task_id =>
            outcome (submit_index env es_target config i task_ids w0)
            = Ret (if truthy task_id then dict_set i task_id task_ids
                   else task_ids)
        | _ => False
        end)
  /\ (forall i (task_ids : TaskIds) w0 host username password e w1,
        remote !! "host" = Some host ->
        remote !! "username" = Some username ->
        remote !! "password" = Some password ->
        env_reindex env es_target
          {| source_remote_host := host; source_remote_username := username;
             source_remote_password := password; source_index := i;
             dest_index := target |} false reindex_params w0 = (Raise e, w1) ->
        outcome (submit_index env es_target config i task_ids w0) = Ret task_ids)
  /\ exists task_ids w1 t1,
       submit_phase env es_target config w = (Ret task_ids, w1, t1)
       /\ NoDup task_ids.*1
       /\ (index ∉ task_ids.*1)
       /\ forall fuel start_time w',
            let r := poll_phase env fuel es_target start_time task_ids w' in
            lifecycle index (trace r) = []
            /\ (forall task_id, task_id ∈ status_queries (trace r) ->
                  task_id ∈ task_ids.*2).
Proof.
  intros Hcomplete Hin Hfalsy.
  pose proof Hcomplete as (_ & Hindices & Htarget & Hremote & Hhost & Huser & Hpass).
  destruct Hhost as [host Hhost]. destruct Huser as [username Husername].
  destruct Hpass as [password Hpassword].
  split_and!.
  - intros task_ids w0.
    rewrite (submit_index_complete env es_target config index target remote host
               username password task_ids w0 Htarget Hremote Hhost Husername
               Hpassword).
    cbv zeta.
    match goal with |- context [env_reindex env es_target ?b false reindex_params w0] =>
      destruct (Hfalsy es_target b w0 eq_refl)
        as (response & task_id & w1 & Hcall & Htask & Hfalse);
      rewrite Hcall, Htask, Hfalse end.
    by eexists _, _, _.
  - intros i task_ids w0. rewrite submit_index_run, Htarget, Hremote. cbv zeta.
    rewrite (start_reindex_task_run env es_target i target remote host
               username password w0 Hhost Husername Hpassword).
    cbv zeta.
    match goal with |- context [env_reindex env es_target ?b false reindex_params w0] =>
      destruct (env_reindex env es_target b false reindex_params w0)
        as [[response|e] w1] end; [|done].
    by destruct (response !! "task").
  - intros i task_ids w0 host' username' password' e w1 Hh Hu Hp Hraise.
    rewrite (submit_index_complete env es_target config i target remote host'
               username' password' task_ids w0 Htarget Hremote Hh Hu Hp).
    cbv zeta. by rewrite Hraise.
  - destruct (submit_all_complete env es_target config indices target remote []
                w Htarget Hremote) as (task_ids & w1 & t1 & Hrun); [by eexists..|].
    pose proof (submit_all_cases env es_target config indices [] w) as Hall.
    pose proof (submit_all_excluded env es_target config indices index [] w
                  (or_intror Hfalsy) (not_elem_of_nil _)) as Hout.
    cbv zeta in Hall. rewrite Hrun in Hall, Hout.
    unfold outcome, trace in Hall, Hout. cbn [fst snd] in Hall, Hout.
    destruct Hall as (_ & _ & _ & _ & _ & Hnd & _ & _).
    specialize (Hnd (NoDup_nil_2)). specialize (Hout _ eq_refl).
    exists task_ids, w1, t1. split_and!; try done.
    + by rewrite submit_phase_run, Hindices.
    + intros fuel start_time w' r.
      destruct (poll_phase_cases env fuel es_target start_time task_ids w' Hnd)
        as (_ & Hnone & _ & Hqs & _).
      split; [by apply Hnone|done].
Qed.
End Submission.

Section Abort.
Context {W H : Type} (env : Env W H).

Lemma poll_items_app (es_target : H) (l1 l2 task_ids : TaskIds) w :
  poll_items env es_target (l1 ++ l2) task_ids w =
    (poll_items env es_target l1 task_ids ≫= poll_items env es_target l2) w.
Proof.
  revert task_ids w. induction l1 as [|item l1 IH]; intros task_ids w.
  { simpl. rewrite run_bind. unfold mret, M_ret, ret, outcome, world, trace.
    cbn [fst snd]. by destruct (poll_items env es_target l2 task_ids w) as [[o w1] t1]. }
  change ((item :: l1) ++ l2) with (item :: (l1 ++ l2)).
  rewrite poll_items_cons, !run_bind, poll_items_cons, run_bind.
  destruct (poll_job env es_target item task_ids w) as [[[ids1|e|] w1] t1];
    unfold outcome, world, trace; cbn [fst snd]; [|done..].
  rewrite IH, run_bind.
  destruct (poll_items env es_target l1 ids1 w1) as [[[ids2|e|] w2] t2];
    unfold outcome, world, trace; cbn [fst snd]; [|done..].
  by rewrite app_assoc.
Qed.

(** Passes that returned are the first passes of the loop. *)
Lemma poll_loop_cycles (es_target : H) task_ids w n cur w1 t1 :
  cycles_to env es_target task_ids w n cur w1 t1 ->
  forall fuel,
    poll_loop env (n + fuel) es_target task_ids w =
      let r := poll_loop env fuel es_target cur w1 in
      (outcome r, world r, t1 ++ trace r).
Proof.
  induction 1 as [ids w|ids w ids1 w1 t1 n ids2 w2 t2 Hne Hcycle Hrest IH];
    intros fuel; cbv zeta.
  { change (0 + fuel)%nat with fuel.
    by destruct (poll_loop env fuel es_target ids w) as [[o w'] t']. }
  change (S n + fuel)%nat with (S (n + fuel)).
  rewrite (poll_loop_step _ _ _ _ _ Hne), (run_bind_ret _ _ _ _ _ _ Hcycle), IH.
  cbv zeta. unfold outcome, world, trace. cbn [fst snd].
  by rewrite app_assoc.
Qed.

Lemma not_final_not_summary ev : not_final ev -> is_summary ev = false.
Proof. by destruct ev as [| | | | |lvl []]. Qed.

Lemma no_summary_filter t :
  Forall (fun ev => is_summary ev = false) t -> List.filter is_summary t = [].
Proof.
  induction 1 as [|ev t Hev _ IH]; [done|]. simpl. by rewrite Hev, IH.
Qed.

(** C9 — with the client contract (every returned status has a
    ['completed'] entry) the subscript in the poll step never fails and the
    step returns.  Without it, a status lacking the entry makes the step
    raise [KeyError]; nothing in the poll loop catches it, so it leaves the
    loop from whatever pass and position it occurs at, reaches the handler
    of [migrate_indices], and the run ends on the failure line with no
    summary line. *)
Theorem missing_completed_aborts_run :
  (status_contract env ->
   forall (es_target : H) index task_id (task_ids : TaskIds) w,
     index ∈ task_ids.*1 ->
     exists ids' w' t,
       poll_job env es_target (index, task_id) task_ids w = (Ret ids', w', t))
  /\ (forall (es_target : H) index task_id (task_ids : TaskIds) w status w1,
        env_tasks_get env es_target task_id w = (Ok status, w1) ->
        status !! "completed" = None ->
        poll_job env es_target (index, task_id) task_ids w
        = (Exc (KeyError "completed"), w1,
           [EvTasksGet task_id; EvLog INFO (MsgChecked task_id false)]))
  /\ (forall (es_target : H) task_ids w n cur w1 t1 pre item post cur' w2 t2
        e w3 t3 fuel start_time,
        cycles_to env es_target task_ids w n cur w1 t1 ->
        cur = pre ++ item :: post ->
        poll_items env es_target pre cur (env_sleep env 10 w1) = (Ret cur', w2, t2) ->
        poll_job env es_target item cur' w2 = (Exc e, w3, t3) ->
        (n < fuel)%nat ->
        poll_phase env fuel es_target start_time task_ids w
        = (Exc e, w3, t1 ++ EvSleep 10 :: t2 ++ t3))
  /\ (forall fuel config_path w config w1 es_target w2 t2 task_ids w3 t3 e w4 t4,
        env_load env config_path w = (Ok config, w1) ->
        initialize_opensearch_client env config w1 = (Ret es_target, w2, t2) ->
        submit_phase env es_target config w2 = (Ret task_ids, w3, t3) ->
        poll_phase env fuel es_target (env_now env w) task_ids w3 = (Exc e, w4, t4) ->
        migrate_indices env fuel config_path w
        = (Ret tt, w4,
           [EvLoad config_path; EvLog INFO (MsgLoadedConfig config_path)]
             ++ t2 ++ t3 ++ t4 ++ [EvLog ERROR (MsgMigrationFailed e)])
        /\ List.filter is_summary (trace (migrate_indices env fuel config_path w))
           = []).
Proof.
  split_and!.
  - intros Hcontract es_target index task_id task_ids w Hin.
    pose proof (poll_job_cases env es_target index task_id task_ids w Hin) as Hjob.
    cbv zeta in Hjob.
    destruct (poll_job env es_target (index, task_id) task_ids w)
      as [[[ids'|e|] w'] t]; unfold outcome in Hjob; cbn [fst snd] in Hjob.
    + by eexists _, _, _.
    + destruct Hjob as (_ & _ & _ & _ & _ & _ & Hbad).
      by apply contract_not_malformed in Hbad.
    + by destruct Hjob as (_ & _ & _ & _ & ?).
  - intros es_target index task_id task_ids w status w1 Hget Hnone.
    rewrite poll_job_run, check_task_status_run, Hget. cbv zeta.
    unfold outcome, world, trace. cbn [fst snd]. by rewrite Hnone.
  - intros es_target task_ids w n cur w1 t1 pre item post cur' w2 t2 e w3 t3
      fuel start_time Hcycles -> Hpre Hjob Hfuel.
    rewrite poll_phase_run. cbv zeta.
    replace fuel with (n + S (fuel - S n))%nat by lia.
    rewrite (poll_loop_cycles _ _ _ _ _ _ _ Hcycles). cbv zeta.
    rewrite poll_loop_step by (by destruct pre).
    rewrite run_bind, poll_cycle_run. cbv zeta.
    rewrite poll_items_app, (run_bind_ret _ _ _ _ _ _ Hpre).
    rewrite poll_items_cons, (run_bind_exc _ _ _ _ _ _ Hjob).
    unfold outcome, world, trace. cbn [fst snd]. done.
  - intros fuel config_path w config w1 es_target w2 t2 task_ids w3 t3 e w4 t4
      Hload Hinit Hsubmit Hpoll.
    assert (Hrun : migrate_indices env fuel config_path w
              = (Ret tt, w4,
                 [EvLoad config_path; EvLog INFO (MsgLoadedConfig config_path)]
                   ++ t2 ++ t3 ++ t4 ++ [EvLog ERROR (MsgMigrationFailed e)])).
    { rewrite migrate_indices_run, load_config_run, Hload. cbv zeta.
      unfold outcome, world, trace. cbn [fst snd]. rewrite Hinit.
      cbn [fst snd]. rewrite Hsubmit. cbn [fst snd]. rewrite Hpoll.
      done. }
    split; [done|]. rewrite Hrun. unfold trace. cbn [snd].
    apply no_summary_filter.
    pose proof (initialize_opensearch_client_not_final env config w1) as Hf2.
    pose proof (submit_phase_not_final env es_target config w2) as Hf3.
    pose proof (poll_loop_not_final env fuel es_target task_ids w3) as Hf4.
    rewrite Hinit in Hf2. rewrite Hsubmit in Hf3.
    rewrite poll_phase_run in Hpoll. cbv zeta in Hpoll.
    destruct (poll_loop env fuel es_target task_ids w3) as [[[[]|e'|] w4'] t4'];
      unfold outcome, world, trace in *; cbn [fst snd] in *; simplify_eq.
    rewrite !Forall_app. split_and!;
      try (eapply Forall_impl; [eassumption|apply not_final_not_summary]);
      by repeat (apply Forall_cons; split; [done|]).
Qed.
End Abort.

Section Halting.
Context {W H : Type} (env : Env W H).

Lemma no_submit_calls_ok config indices t :
  submit_calls t = [] -> Forall (submit_call_ok config indices) t.
Proof.
  induction t as [|ev t IH]; [done|]. unfold submit_calls. simpl.
  destruct ev; simpl; intros Ht; apply Forall_cons; split; by try apply IH.
Qed.

(** The traces of a client construction: no submission, no query, no
    sleep. *)
Lemma initialize_opensearch_client_quiet config w :
  let r := initialize_opensearch_client env config w in
  submit_calls (trace r) = [] /\ status_queries (trace r) = []
  /\ cycles_of (trace r) = 0%nat
  /\ (forall j, lifecycle j (trace r) = [])
  /\ (forall e, outcome r = Exc e ->
        EvLog ERROR (MsgClientInitFailed e) ∈ trace r).
Proof.
  cbv zeta. rewrite initialize_opensearch_client_run.
  destruct (es_target_config config) as [target_config|];
    [|unfold outcome, trace; cbn [fst snd]; split_and!; try done;
      intros e [= <-]; left].
  destruct (env_init env target_config w) as [[es_target|e] w1];
    [destruct (target_config !! "hosts")|];
    unfold outcome, trace; cbn [fst snd]; split_and!; try done;
    intros e' [= <-]; right; left.
Qed.

(** A loop that ran out of fuel has spent it: one pass per unit. *)
Lemma poll_loop_fuel_spent fuel (es_target : H) (cur : TaskIds) w :
  NoDup cur.*1 ->
  let r := poll_loop env fuel es_target cur w in
  outcome r = OutOfFuel -> cycles_of (trace r) = fuel.
Proof.
  revert cur w. induction fuel as [|fuel IH]; intros cur w Hcur; cbv zeta.
  { by destruct cur. }
  destruct (decide (cur = [])) as [->|Hne].
  { by rewrite poll_loop_nil. }
  rewrite (poll_loop_step _ _ _ _ _ Hne), run_bind.
  pose proof (poll_cycle_cases env es_target cur w Hcur) as Hpass.
  cbv zeta in Hpass.
  destruct (poll_cycle env es_target cur w) as [[[cur1|e|] w1] t1];
    unfold outcome, world, trace in *; cbn [fst snd] in *;
    destruct Hpass as (_ & Hc1 & _ & Hpass); [|done..].
  destruct Hpass as (_ & Hsub & _).
  assert (Hcur1 : NoDup cur1.*1).
  { apply (sublist_NoDup _ cur.*1); [done|by apply fmap_sublist]. }
  specialize (IH cur1 w1 Hcur1). cbv zeta in IH.
  destruct (poll_loop env fuel es_target cur1 w1) as [[o2 w2] t2].
  cbn [fst snd] in *. intros Hout.
  by rewrite cycles_of_app, Hc1, (IH Hout).
Qed.

(** C7 (amended) — nothing is ever raised past [migrate_indices].  When
    loading the configuration fails, or constructing the client fails, the
    error is logged and the run ends on the failure line with no submit
    call, no status query and no pass of the poll loop.  Past these two, a
    run whose configuration has its four keys, with values of the types
    the script expects (as [Config] has them) and the three keys of the
    remote, and whose client honours the status contract is not halted:
    whatever the submit calls and the status queries raise, every
    collection is submitted, no failure of the run is logged, and the run
    ends on the summary line as soon as a pass leaves the active set
    empty; until then it is polling, one pass after the other. *)
Theorem only_setup_errors_halt_the_run fuel config_path w :
  let r := migrate_indices env fuel config_path w in
  (forall e, outcome r <> Exc e)
  /\ (forall e w1,
        env_load env config_path w = (Raise e, w1) ->
        r = (Ret tt, w1,
             [EvLoad config_path; EvLog ERROR (MsgLoadFailed config_path e);
              EvLog ERROR (MsgMigrationFailed e)]))
  /\ (forall config w1 e w2 t2,
        env_load env config_path w = (Ok config, w1) ->
        initialize_opensearch_client env config w1 = (Exc e, w2, t2) ->
        r = (Ret tt, w2,
             [EvLoad config_path; EvLog INFO (MsgLoadedConfig config_path)]
               ++ t2 ++ [EvLog ERROR (MsgMigrationFailed e)])
        /\ EvLog ERROR (MsgClientInitFailed e) ∈ t2
        /\ submit_calls (trace r) = []
        /\ status_queries (trace r) = []
        /\ cycles_of (trace r) = 0%nat)
  /\ (forall config w1 es_target w2 t2 indices target remote,
        env_load env config_path w = (Ok config, w1) ->
        initialize_opensearch_client env config w1 = (Ret es_target, w2, t2) ->
        config_complete config indices target remote ->
        status_contract env ->
        source_index <$> submit_calls (trace r) = indices
        /\ (forall e, EvLog ERROR (MsgMigrationFailed e) ∉ trace r)
        /\ ((outcome r = OutOfFuel
             /\ cycles_of (trace r) = fuel
             /\ Forall not_final (trace r))
            \/ (outcome r = Ret tt
                /\ exists t seconds,
                     trace r = t ++ [EvLog INFO (MsgMigrationCompleted seconds)]
                     /\ Forall not_final t))
        /\ exists task_ids w3 t3,
             submit_phase env es_target config w2 = (Ret task_ids, w3, t3)
             /\ forall n w4 t4,
                  cycles_to env es_target task_ids w3 n [] w4 t4 ->
                  (n <= fuel)%nat ->
                  r = (Ret tt, w4,
                       [EvLoad config_path;
                        EvLog INFO (MsgLoadedConfig config_path)]
                         ++ t2 ++ t3 ++ t4
                         ++ [EvLog INFO (MsgMigrationCompleted
                                           (env_now env w4 - env_now env w))])).
Proof.
  cbv zeta. split_and!.
  - intros e. rewrite migrate_indices_run. cbv zeta.
    repeat match goal with
           | |- context [match outcome ?x with _ => _ end] =>
               destruct (outcome x)
           end; by unfold outcome.
  - intros e w1 Hload.
    rewrite migrate_indices_run, load_config_run, Hload. done.
  - intros config w1 e w2 t2 Hload Hinit.
    pose proof (initialize_opensearch_client_quiet config w1) as Hquiet.
    cbv zeta in Hquiet. rewrite Hinit in Hquiet.
    unfold outcome, trace in Hquiet. cbn [fst snd] in Hquiet.
    destruct Hquiet as (Hs & Hq & Hc & _ & Hlog).
    rewrite migrate_indices_run, load_config_run, Hload. cbv zeta.
    unfold outcome, world, trace. cbn [fst snd]. rewrite Hinit. cbn [fst snd].
    split_and!; [done|by apply Hlog| | |].
    + by rewrite (submit_calls_app [_; _]), submit_calls_app, Hs.
    + by rewrite (status_queries_app [_; _]), status_queries_app, Hq.
    + by rewrite (cycles_of_app [_; _]), cycles_of_app, Hc.
  - intros config w1 es_target w2 t2 indices target remote Hload Hinit
      Hcomplete Hcontract.
    pose proof Hcomplete as (_ & Hindices & Htarget & Hremote & Hhost & Huser & Hpass).
    destruct (submit_all_complete env es_target config indices target remote []
                w2 Htarget Hremote Hhost Huser Hpass) as (task_ids & w3 & t3 & Hsubmit).
    pose proof (submit_all_cases env es_target config indices [] w2) as Hall.
    pose proof (submit_all_not_final env es_target config indices [] w2) as Hf3.
    cbv zeta in Hall. rewrite Hsubmit in Hall, Hf3.
    unfold outcome, trace in Hall, Hf3. cbn [fst snd] in Hall, Hf3.
    destruct Hall as (_ & Hc3 & _ & _ & Hsrc & Hnd & _ & _).
    specialize (Hnd (NoDup_nil_2)).
    pose proof (initialize_opensearch_client_quiet config w1) as Hquiet.
    pose proof (initialize_opensearch_client_not_final env config w1) as Hf2.
    cbv zeta in Hquiet. rewrite Hinit in Hquiet, Hf2.
    unfold outcome, trace in Hquiet, Hf2. cbn [fst snd] in Hquiet, Hf2.
    destruct Hquiet as (Hs2 & _ & Hc2 & _).
    assert (Hphase : submit_phase env es_target config w2
                     = (Ret task_ids, w3, t3))
      by (by rewrite submit_phase_run, Hindices).
    assert (Hrun : migrate_indices env fuel config_path w =
              let r4 := poll_loop env fuel es_target task_ids w3 in
              let setup :=
                [EvLoad config_path; EvLog INFO (MsgLoadedConfig config_path)]
                  ++ t2 ++ t3 in
              match outcome r4 with
              | Ret _ =>
                  (Ret tt, world r4,
                   setup ++ trace r4
                     ++ [EvLog INFO (MsgMigrationCompleted
                                       (env_now env (world r4) - env_now env w))])
              | Exc e =>
                  (Ret tt, world r4,
                   setup ++ trace r4 ++ [EvLog ERROR (MsgMigrationFailed e)])
              | OutOfFuel => (OutOfFuel, world r4, setup ++ trace r4)
              end).
    { rewrite migrate_indices_run, load_config_run, Hload. cbv zeta.
      unfold outcome, world, trace. cbn [fst snd]. rewrite Hinit.
      cbn [fst snd]. rewrite Hphase. cbn [fst snd].
      rewrite poll_phase_run. cbv zeta.
      destruct (poll_loop env fuel es_target task_ids w3) as [[[[]|e|] w4] t4];
        unfold outcome, world, trace; cbn [fst snd];
        by rewrite <- ?app_assoc. }
    assert (Hloaded : Forall not_final
              [EvLoad config_path; EvLog INFO (MsgLoadedConfig config_path)])
      by (by repeat (apply Forall_cons; split; [done|])).
    assert (Hfailed : forall t e,
              Forall not_final t -> EvLog ERROR (MsgMigrationFailed e) ∉ t).
    { intros t e Hall Hin. rewrite Forall_forall in Hall.
      by specialize (Hall _ Hin). }
    rewrite Hrun. cbv zeta.
    pose proof (poll_loop_cases env fuel es_target task_ids w3 Hnd) as Hloop.
    pose proof (poll_loop_not_final env fuel es_target task_ids w3) as Hf4.
    pose proof (poll_loop_fuel_spent fuel es_target task_ids w3 Hnd) as Hspent.
    cbv zeta in Hloop, Hspent.
    split_and!.
    + destruct (poll_loop env fuel es_target task_ids w3) as [[[[]|e|] w4] t4];
        unfold outcome, world, trace in *; cbn [fst snd] in *;
        destruct Hloop as (Hs4 & _);
        rewrite <- ?app_assoc, (submit_calls_app [_; _]), !submit_calls_app,
          Hs2, Hs4; simpl; by rewrite ?app_nil_r.
    + intros e'.
      destruct (poll_loop env fuel es_target task_ids w3) as [[[[]|e|] w4] t4];
        unfold outcome, world, trace in *; cbn [fst snd] in *;
        destruct Hloop as (_ & _ & _ & _ & Hexc).
      * rewrite <- !app_assoc, !elem_of_app.
        intros [Hin|[Hin|[Hin|[Hin|Hin]]]];
          try (by eapply Hfailed in Hin).
        by apply list_elem_of_singleton in Hin.
      * destruct (Hexc e eq_refl) as [_ Hbad].
        by apply contract_not_malformed in Hbad.
      * rewrite <- !app_assoc, !elem_of_app.
        intros [Hin|[Hin|[Hin|Hin]]]; by eapply Hfailed in Hin.
    + destruct (poll_loop env fuel es_target task_ids w3) as [[[[]|e|] w4] t4];
        unfold outcome, world, trace in *; cbn [fst snd] in *;
        destruct Hloop as (_ & _ & _ & _ & Hexc).
      * right. split; [done|]. eexists _, _. split.
        { rewrite !app_assoc. reflexivity. }
        rewrite !Forall_app. by split_and!.
      * destruct (Hexc e eq_refl) as [_ Hbad].
        by apply contract_not_malformed in Hbad.
      * left. split; [done|]. split.
        { rewrite <- !app_assoc, (cycles_of_app [_; _]), !cycles_of_app,
            Hc2, Hc3, (Hspent eq_refl). done. }
        rewrite !Forall_app. by split_and!.
    + exists task_ids, w3, t3. split; [done|].
      intros n w4 t4 Hcycles Hfuel.
      replace fuel with (n + (fuel - n))%nat by lia.
      rewrite (poll_loop_cycles env _ _ _ _ _ _ _ Hcycles), poll_loop_nil.
      cbv zeta. unfold outcome, world, trace. cbn [fst snd].
      by rewrite app_nil_r, <- !app_assoc.
Qed.
End Halting.

Section Calls.
Context {W H : Type} (env : Env W H).

(** The submit phase, for the list of collections the configuration gives
    (none when the key is missing). *)
Lemma submit_phase_cases (es_target : H) config w :
  let r := submit_phase env es_target config w in
  let indices := default [] (source_indices config) in
  Forall (submit_call_ok config indices) (trace r)
  /\ status_queries (trace r) = []
  /\ cycles_of (trace r) = 0%nat
  /\ (forall j, j ∉ indices -> lifecycle j (trace r) = [])
  /\ forall task_ids, outcome r = Ret task_ids ->
       NoDup task_ids.*1
       /\ source_indices config = Some indices
       /\ source_index <$> submit_calls (trace r) = indices.
Proof.
  cbv zeta. rewrite submit_phase_run.
  destruct (source_indices config) as [indices|]; [|by split_and!].
  pose proof (submit_all_cases env es_target config indices [] w) as Hall.
  cbv zeta in Hall. destruct Hall as (Hq & Hc & Hok & Hnone & Hcase).
  split_and!; try done. intros task_ids Hret. rewrite Hret in Hcase.
  destruct Hcase as (Hsrc & Hnd & _). split_and!; try done.
  apply Hnd, NoDup_nil_2.
Qed.

(** Every submit call of a run is made as the loaded configuration says. *)
Lemma migrate_indices_calls_ok fuel config_path w config w1 :
  env_load env config_path w = (Ok config, w1) ->
  Forall (submit_call_ok config (default [] (source_indices config)))
    (trace (migrate_indices env fuel config_path w)).
Proof.
  intros Hload. set (indices := default [] (source_indices config)).
  assert (Hlog : forall lvl msg, Forall (submit_call_ok config indices) [EvLog lvl msg]).
  { intros lvl msg. by apply Forall_singleton. }
  rewrite migrate_indices_run, load_config_run, Hload. cbv zeta.
  pose proof (initialize_opensearch_client_quiet env config w1) as Hquiet.
  cbv zeta in Hquiet. unfold outcome, world, trace in Hquiet |- *.
  cbn [fst snd] in Hquiet |- *.
  destruct (initialize_opensearch_client env config w1) as [[[es_target|e|] w2] t2];
    cbn [fst snd] in Hquiet |- *;
    destruct Hquiet as (Hs2%(no_submit_calls_ok config indices) & _).
  2,3: by rewrite ?Forall_app, ?Forall_cons.
  pose proof (submit_phase_cases es_target config w2) as Hsubmit.
  cbv zeta in Hsubmit. fold indices in Hsubmit.
  unfold outcome, world, trace in Hsubmit. cbn [fst snd] in Hsubmit.
  destruct (submit_phase env es_target config w2) as [[[task_ids|e|] w3] t3];
    cbn [fst snd] in Hsubmit |- *;
    destruct Hsubmit as (Hok3 & _ & _ & _ & Hret).
  2,3: by rewrite ?Forall_app, ?Forall_cons.
  destruct (Hret _ eq_refl) as (Hnd & _).
  pose proof (poll_phase_cases env fuel es_target (env_now env w) task_ids w3 Hnd)
    as Hpoll.
  cbv zeta in Hpoll. unfold outcome, world, trace in Hpoll.
  cbn [fst snd] in Hpoll.
  destruct (poll_phase env fuel es_target (env_now env w) task_ids w3)
    as [[[[]|e|] w4] t4];
    cbn [fst snd] in Hpoll |- *;
    destruct Hpoll as (Hs4%(no_submit_calls_ok config indices) & _);
    by rewrite ?Forall_app, ?Forall_cons.
Qed.

(** C8 — every submit call the orchestrator issues carries the remote
    host, username and password of the configuration, the source
    collection of its job (one of the configured ones, each in its turn),
    the shared destination, requests_per_second "-1" (no throttling) and
    wait_for_completion false; what the submission returns is the
    ['task'] entry of the response. *)
Theorem submit_calls_follow_configuration fuel config_path w :
  let r := migrate_indices env fuel config_path w in
  (forall body wait_for_completion params,
     EvReindex body wait_for_completion params ∈ trace r ->
     exists config w1 indices,
       env_load env config_path w = (Ok config, w1)
       /\ source_indices config = Some indices
       /\ submit_call_ok config indices
            (EvReindex body wait_for_completion params))
  /\ (forall (es_target : H) config w0 task_ids w1 t1,
        submit_phase env es_target config w0 = (Ret task_ids, w1, t1) ->
        exists indices,
          source_indices config = Some indices
          /\ source_index <$> submit_calls t1 = indices)
  /\ (forall (es_target : H) source target remote host username password w0
        response w1 task_id,
        remote !! "host" = Some host ->
        remote !! "username" = Some username ->
        remote !! "password" = Some password ->
        let body :=
          {| source_remote_host := host; source_remote_username := username;
             source_remote_password := password; source_index := source;
             dest_index := target |} in
        env_reindex env es_target body false reindex_params w0
          = (Ok response, w1) ->
        response !! "task" = Some task_id ->
        start_reindex_task env es_target source target remote w0
        = (Ret task_id, w1,
           [EvLog INFO (MsgAttempt source host target);
            EvReindex body false reindex_params;
            EvLog INFO (MsgStarted source target task_id)])).
Proof.
  cbv zeta. split_and!.
  - intros body wait_for_completion params Hin.
    destruct (env_load env config_path w) as [[config|e] w1] eqn:Hload.
    + pose proof (migrate_indices_calls_ok fuel config_path w config w1 Hload)
        as Hok.
      rewrite Forall_forall in Hok. specialize (Hok _ Hin).
      exists config, w1, (default [] (source_indices config)).
      split; [done|]. split; [|done].
      destruct (source_indices config) as [indices|]; [done|].
      simpl in Hok. destruct Hok as (_ & _ & _ & _ & Hnil & _).
      by apply elem_of_nil in Hnil.
    + rewrite migrate_indices_run, load_config_run, Hload in Hin.
      unfold trace in Hin. cbn in Hin.
      by repeat (apply elem_of_cons in Hin as [?|Hin]; [done|]);
        apply elem_of_nil in Hin.
  - intros es_target config w0 task_ids w1 t1 Hrun.
    pose proof (submit_phase_cases es_target config w0) as Hsubmit.
    cbv zeta in Hsubmit. rewrite Hrun in Hsubmit.
    unfold outcome, trace in Hsubmit. cbn [fst snd] in Hsubmit.
    destruct Hsubmit as (_ & _ & _ & _ & Hret).
    destruct (Hret _ eq_refl) as (_ & Hsome & Hsrc). eauto.
  - intros es_target source target remote host username password w0 response
      w1 task_id Hhost Husername Hpassword Hcall Htask.
    rewrite (start_reindex_task_run env es_target source target remote host
               username password w0 Hhost Husername Hpassword).
    cbv zeta. by rewrite Hcall, Htask.
Qed.
End Calls.

Section Lifecycle.
Context {W H : Type} (env : Env W H).

Lemma active_state_in index (task_ids : TaskIds) idle :
  index ∈ task_ids.*1 -> active_state index task_ids idle = Submitted.
Proof. intros Hin%dict_mem_true. unfold active_state. by rewrite Hin. Qed.

Lemma active_state_out index (task_ids : TaskIds) idle :
  index ∉ task_ids.*1 -> active_state index task_ids idle = idle.
Proof. intros Hin%dict_mem_false. unfold active_state. by rewrite Hin. Qed.

(** After the submit phase over distinct collections, a job is Submitted
    exactly when it is in the active set, and Pending otherwise. *)
Lemma submit_phase_lifecycle (es_target : H) config indices w :
  source_indices config = Some indices ->
  NoDup indices ->
  let r := submit_phase env es_target config w in
  forall index,
    match outcome r with
    | Ret task_ids =>
        job_run Pending (lifecycle index (trace r))
        = Some (active_state index task_ids Pending)
    | _ => is_Some (job_run Pending (lifecycle index (trace r)))
    end.
Proof.
  intros Hindices Hnd. cbv zeta. rewrite submit_phase_run, Hindices.
  intros index.
  pose proof (submit_all_cases env es_target config indices [] w) as Hall.
  pose proof (submit_all_lifecycle env es_target config indices [] w Hnd
                (fun k _ => not_elem_of_nil k) index) as Hlife.
  cbv zeta in Hall, Hlife.
  destruct (submit_all env es_target config indices [] w) as [[o w1] t1].
  unfold outcome, world, trace in *. cbn [fst snd] in *.
  destruct Hall as (_ & _ & _ & Hnone & Hcase).
  destruct (decide (index ∈ indices)) as [Hin|Hout].
  - specialize (Hlife Hin). destruct o as [task_ids|e|].
    + destruct Hlife as [[-> Hset]|[-> Hset]]; simpl.
      * by rewrite active_state_in.
      * by rewrite active_state_out.
    + destruct Hlife as [-> | ->]; by eexists.
    + destruct Hlife as [-> | ->]; by eexists.
  - rewrite (Hnone index Hout). destruct o as [task_ids|e|]; [|by eexists..].
    destruct Hcase as (_ & _ & _ & Hkeys). simpl.
    rewrite active_state_out; [done|].
    intros [Hin|Hin]%Hkeys; [by apply elem_of_nil in Hin|done].
Qed.

(** C5 (amended) — with pairwise distinct source collections, the events
    the log holds for a job follow Pending -> Submitted -> Completed or
    Failed over the whole run: at most one submission with a task
    identifier, progress lines only while Submitted, at most one outcome,
    and nothing after it.  The active set shows the same: after the submit
    phase it has one task identifier per collection and holds exactly the
    Submitted jobs; a pass of the poll loop only removes jobs, those whose
    outcome it logged, and a job outside the set gets no line and never
    comes back. *)
Theorem job_states_only_advance fuel config_path w :
  (forall config w1 indices,
     env_load env config_path w = (Ok config, w1) ->
     source_indices config = Some indices -> NoDup indices) ->
  (forall index,
     is_Some (job_run Pending
                (lifecycle index (trace (migrate_indices env fuel config_path w)))))
  /\ (forall (es_target : H) config indices w0 task_ids w1 t1,
        source_indices config = Some indices -> NoDup indices ->
        submit_phase env es_target config w0 = (Ret task_ids, w1, t1) ->
        NoDup task_ids.*1
        /\ (forall index, index ∈ task_ids.*1 -> index ∈ indices)
        /\ forall index,
             job_run Pending (lifecycle index t1)
             = Some (active_state index task_ids Pending))
  /\ (forall (es_target : H) (cur : TaskIds) w0 next w1 t1,
        NoDup cur.*1 ->
        poll_cycle env es_target cur w0 = (Ret next, w1, t1) ->
        sublist next cur
        /\ NoDup next.*1
        /\ (forall index, index ∉ cur.*1 ->
              lifecycle index t1 = [] /\ index ∉ next.*1)
        /\ (forall index, index ∈ cur.*1 ->
              (job_run Submitted (lifecycle index t1) = Some Submitted
               /\ index ∈ next.*1)
              \/ ((job_run Submitted (lifecycle index t1) = Some Completed
                   \/ job_run Submitted (lifecycle index t1) = Some Failed)
                  /\ index ∉ next.*1))).
Proof.
  intros Hdistinct. split_and!.
  - intros index. rewrite migrate_indices_run, load_config_run. cbv zeta.
    destruct (env_load env config_path w) as [[config|e] w1] eqn:Hload;
      [|by eexists].
    pose proof (initialize_opensearch_client_quiet env config w1) as Hquiet.
    cbv zeta in Hquiet. unfold outcome, world, trace in Hquiet |- *.
    cbn [fst snd] in Hquiet |- *.
    destruct (initialize_opensearch_client env config w1) as [[[es_target|e|] w2] t2];
      cbn [fst snd] in Hquiet |- *;
      destruct Hquiet as (_ & _ & _ & Hl2 & _).
    2,3: rewrite !lifecycle_app, Hl2; by eexists.
    destruct (source_indices config) as [indices|] eqn:Hindices.
    2:{ rewrite submit_phase_run, Hindices. cbn [fst snd].
        rewrite !lifecycle_app, Hl2. by eexists. }
    pose proof (submit_phase_lifecycle es_target config indices w2 Hindices
                  (Hdistinct _ _ _ eq_refl Hindices) index) as Hlife.
    pose proof (submit_phase_cases env es_target config w2) as Hsubmit.
    cbv zeta in Hlife, Hsubmit. unfold outcome, world, trace in Hlife, Hsubmit.
    cbn [fst snd] in Hlife, Hsubmit.
    destruct (submit_phase env es_target config w2) as [[[task_ids|e|] w3] t3];
      cbn [fst snd] in Hlife, Hsubmit |- *;
      destruct Hsubmit as (_ & _ & _ & _ & Hret).
    2,3: rewrite !lifecycle_app, Hl2; simpl; rewrite ?app_nil_r; done.
    destruct (Hret _ eq_refl) as (Hnd & _).
    pose proof (poll_phase_cases env fuel es_target (env_now env w) task_ids w3 Hnd)
      as Hpoll.
    cbv zeta in Hpoll. unfold outcome, world, trace in Hpoll.
    cbn [fst snd] in Hpoll.
    assert (Hgoal : is_Some (job_run Pending
              (lifecycle index (t3 ++ (poll_phase env fuel es_target
                 (env_now env w) task_ids w3).2)))).
    { rewrite lifecycle_app, job_run_app, Hlife.
      destruct Hpoll as (_ & Hnone & Hin & _).
      destruct (decide (index ∈ task_ids.*1)) as [Hmem|Hmem].
      - rewrite active_state_in by done.
        destruct (Hin index Hmem) as (s & -> & _). by eexists.
      - rewrite active_state_out, Hnone by done. by eexists. }
    destruct (poll_phase env fuel es_target (env_now env w) task_ids w3)
      as [[[[]|e|] w4] t4]; cbn [fst snd] in Hgoal |- *;
      rewrite !lifecycle_app, Hl2 in *; simpl; rewrite ?app_nil_r; done.
  - intros es_target config indices w0 task_ids w1 t1 Hindices Hnd Hrun.
    pose proof (submit_phase_lifecycle es_target config indices w0 Hindices Hnd)
      as Hlife.
    pose proof (submit_phase_cases env es_target config w0) as Hsubmit.
    pose proof (submit_all_cases env es_target config indices [] w0) as Hall.
    pose proof Hrun as Hrun'. rewrite submit_phase_run, Hindices in Hrun'.
    cbv zeta in Hlife, Hsubmit, Hall. rewrite Hrun in Hlife, Hsubmit.
    rewrite Hrun' in Hall.
    unfold outcome, trace in Hlife, Hsubmit, Hall.
    cbn [fst snd] in Hlife, Hsubmit, Hall.
    destruct Hsubmit as (_ & _ & _ & _ & Hret).
    destruct (Hret _ eq_refl) as (Hnd' & _).
    destruct Hall as (_ & _ & _ & _ & _ & _ & _ & Hkeys).
    split_and!; [done| |done].
    intros index [Hin|Hin]%Hkeys; [by apply elem_of_nil in Hin|done].
  - intros es_target cur w0 next w1 t1 Hnd Hrun.
    pose proof (poll_cycle_cases env es_target cur w0 Hnd) as Hpass.
    cbv zeta in Hpass. rewrite Hrun in Hpass.
    unfold outcome, trace in Hpass. cbn [fst snd] in Hpass.
    destruct Hpass as (_ & _ & Hnone & _ & Hsub & Hjobs).
    assert (Hkeys : forall j, j ∈ next.*1 -> j ∈ cur.*1).
    { intros j Hj. eapply elem_of_sublist; [done|by apply fmap_sublist]. }
    split_and!; [done| | |].
    + apply (sublist_NoDup _ cur.*1); [done|by apply fmap_sublist].
    + intros index Hout. split; [by apply Hnone|]. intros Hin. by apply Hout, Hkeys.
    + intros index Hin.
      destruct (Hjobs index Hin) as [[-> Hkeep]|[[-> | ->] Hgone]]; eauto.
Qed.
End Lifecycle.

Section Timing.
Context (s : Script) (Hlatency : sc_latency s = 0).

Lemma sim_advance_0 w : sim_advance 0 w = w.
Proof. destruct w as [clock n]. unfold sim_advance. simpl. f_equal. lia. Qed.

Lemma sim_advance_add a b w :
  sim_advance a (sim_advance b w) = sim_advance (b + a) w.
Proof. unfold sim_advance. simpl. f_equal. lia. Qed.

Lemma ceil_div_spec a b :
  0 < b -> b * (ceil_div a b - 1) < a <= b * ceil_div a b.
Proof.
  intros Hb. unfold ceil_div.
  pose proof (Z.div_mod (- a) b ltac:(lia)) as Hdiv.
  pose proof (Z.mod_pos_bound (- a) b Hb) as Hmod. lia.
Qed.

Lemma ceil_div_mul k b : 0 < b -> ceil_div (b * k) b = k.
Proof.
  intros Hb. unfold ceil_div.
  replace (- (b * k)) with ((- k) * b) by lia.
  rewrite Z.div_mul by lia. lia.
Qed.

Lemma dict_remove_filter k (d : TaskIds) :
  NoDup d.*1 -> dict_remove k d = filter (fun it => it.1 <> k) d.
Proof.
  induction d as [|[k' v] d IH]; simpl; [done|].
  rewrite NoDup_cons. intros [Hk' Hd]. rewrite filter_cons. simpl.
  destruct (decide (k' = k)) as [->|Hne].
  - rewrite decide_False by naive_solver.
    clear IH. induction d as [|[k'' v''] d IH]; [done|]. simpl in *.
    apply not_elem_of_cons in Hk' as [Hne Hk'].
    apply NoDup_cons in Hd as [_ Hd].
    rewrite filter_cons_True by (simpl; congruence). f_equal. by apply IH.
  - rewrite decide_True by done. f_equal. by apply IH.
Qed.

Lemma filter_all {A} (P : A -> Prop) `{!forall x, Decision (P x)} (l : list A) :
  (forall x, x ∈ l -> P x) -> filter P l = l.
Proof.
  induction l as [|x l IH]; intros Hall; [done|].
  rewrite filter_cons_True by (apply Hall; left).
  f_equal. apply IH. intros y Hy. apply Hall. by right.
Qed.

Lemma filter_on {A} (P Q : A -> Prop) `{!forall x, Decision (P x)}
    `{!forall x, Decision (Q x)} (l : list A) :
  (forall x, x ∈ l -> P x <-> Q x) -> filter P l = filter Q l.
Proof.
  induction l as [|x l IH]; intros Hall; [done|].
  rewrite !filter_cons.
  rewrite IH by (intros y Hy; apply Hall; by right).
  apply decide_ext, Hall. left.
Qed.

(** With no latency, a query leaves the simulated world as it is. *)
Lemma scripted_poll_job index task_id (cur : TaskIds) w status completed :
  sc_status s task_id (sim_clock w) = Ok status ->
  status !! "completed" = Some completed ->
  index ∈ cur.*1 ->
  exists t,
    poll_job (scripted s) tt (index, task_id) cur w
    = (Ret (if truthy completed then dict_remove index cur else cur), w, t).
Proof.
  intros Hstatus Hcompleted Hin%dict_mem_true.
  rewrite poll_job_run, check_task_status_run. cbv zeta.
  cbn [scripted env_tasks_get]. rewrite Hlatency, sim_advance_0, Hstatus.
  unfold outcome, world, trace. cbn [fst snd]. rewrite Hcompleted.
  destruct (truthy completed); [rewrite Hin|]; by eexists.
Qed.

Lemma scripted_poll_items (stays : string -> Prop)
    `{!forall i, Decision (stays i)} (items cur : TaskIds) w :
  NoDup cur.*1 -> NoDup items.*1 ->
  (forall k, k ∈ items.*1 -> k ∈ cur.*1) ->
  (forall i task_id, (i, task_id) ∈ items ->
     exists status completed,
       sc_status s task_id (sim_clock w) = Ok status
       /\ status !! "completed" = Some completed
       /\ truthy completed = negb (bool_decide (stays i))) ->
  exists t,
    poll_items (scripted s) tt items cur w
    = (Ret (filter (fun it => it.1 ∈ items.*1 -> stays it.1) cur), w, t).
Proof.
  revert cur. induction items as [|[i task_id] rest IH];
    intros cur Hcur Hitems Hsub Hstatus.
  { exists []. simpl. rewrite filter_all; [done|].
    intros x _ Hx. by apply elem_of_nil in Hx. }
  simpl in Hitems. apply NoDup_cons in Hitems as [Hfresh Hrest].
  destruct (Hstatus i task_id) as (status & completed & Hget & Hcompleted & Htruthy);
    [left|].
  destruct (scripted_poll_job i task_id cur w status completed Hget Hcompleted)
    as [t1 Hjob]; [apply Hsub; left|].
  rewrite poll_items_cons, (run_bind_ret _ _ _ _ _ _ Hjob).
  set (cur1 := if truthy completed then dict_remove i cur else cur) in *.
  assert (Hcur1 : NoDup cur1.*1).
  { subst cur1. destruct (truthy completed); [by apply dict_remove_NoDup|done]. }
  destruct (IH cur1 Hcur1 Hrest) as [t2 Hrun].
  { intros k Hk. assert (k <> i) by (by intros ->).
    assert (k ∈ cur.*1) by (apply Hsub; by right).
    subst cur1. destruct (truthy completed); [by apply dict_remove_keys_ne|done]. }
  { intros j tid Hj. apply Hstatus. by right. }
  rewrite Hrun. unfold outcome, world, trace. cbn [fst snd].
  exists (t1 ++ t2).
  enough (Heq : filter (fun it => it.1 ∈ rest.*1 -> stays it.1) cur1
                = filter (fun it => it.1 ∈ ((i, task_id) :: rest).*1 -> stays it.1) cur)
    by (by rewrite Heq).
  subst cur1.
  destruct (decide (stays i)) as [Hstay|Hgo].
  - rewrite bool_decide_eq_true_2 in Htruthy by done. rewrite Htruthy.
    cbn [negb]. apply list_filter_iff. intros [k v]. simpl. rewrite elem_of_cons.
    split; [|naive_solver]. intros Hk [->|Hin]; [done|by apply Hk].
  - rewrite bool_decide_eq_false_2 in Htruthy by done. rewrite Htruthy.
    cbn [negb]. rewrite dict_remove_filter by done. rewrite list_filter_filter.
    apply list_filter_iff. intros [k v]. simpl. rewrite elem_of_cons.
    split.
    + intros [Hk Hne] [->|Hin]; [done|by apply Hk].
    + intros Hk. split; [naive_solver|]. intros ->. apply Hgo, Hk. by left.
Qed.

Lemma scripted_poll_cycle (stays : string -> Prop)
    `{!forall i, Decision (stays i)} (cur : TaskIds) w :
  NoDup cur.*1 ->
  (forall i task_id, (i, task_id) ∈ cur ->
     exists status completed,
       sc_status s task_id (sim_clock w + 10) = Ok status
       /\ status !! "completed" = Some completed
       /\ truthy completed = negb (bool_decide (stays i))) ->
  exists t,
    poll_cycle (scripted s) tt cur w
    = (Ret (filter (fun it => stays it.1) cur), sim_advance 10 w, t)
    /\ cycles_of t = 1%nat.
Proof.
  intros Hcur Hstatus.
  destruct (scripted_poll_items stays cur cur (sim_advance 10 w) Hcur Hcur
              (fun k Hk => Hk) Hstatus) as [t Hrun].
  pose proof (poll_cycle_cases (scripted s) tt cur w Hcur) as (_ & Hc & _).
  rewrite poll_cycle_run in Hc |- *. cbv zeta in Hc |- *.
  cbn [scripted env_sleep] in Hc |- *. rewrite Hrun in Hc |- *.
  unfold outcome, world, trace in Hc |- *. cbn [fst snd] in Hc |- *.
  eexists. split; [|exact Hc].
  enough (Heq : filter (fun it => it.1 ∈ cur.*1 -> stays it.1) cur
                = filter (fun it => stays it.1) cur) by (by rewrite Heq).
  apply filter_on. intros [k v] Hin. simpl. split; [|done].
  intros Hk. apply Hk. by apply (list_elem_of_fmap_2 fst) in Hin.
Qed.

Lemma max_list_with_pred (d : string -> nat) (l : TaskIds) :
  (forall it, it ∈ l -> (1 <= d it.1)%nat) ->
  max_list_with (fun it => pred (d it.1)) (filter (fun it => (1 < d it.1)%nat) l)
  = pred (max_list_with (fun it => d it.1) l).
Proof.
  induction l as [|it l IH]; intros Hpos; [done|].
  assert (Hit : (1 <= d it.1)%nat) by (apply Hpos; left).
  assert (IH' := IH (fun x Hx => Hpos x (list_elem_of_further _ _ _ Hx))).
  assert (Hmax : l <> [] -> (1 <= max_list_with (fun it => d it.1) l)%nat).
  { destruct l as [|x l']; [done|]. intros _. simpl.
    assert (1 <= d x.1)%nat by (apply Hpos; right; left). lia. }
  rewrite filter_cons. simpl. case_decide; simpl; rewrite IH'.
  - lia.
  - destruct l as [|x l']; [simpl; lia|]. specialize (Hmax ltac:(done)). lia.
Qed.

(** On a client without latency, the loop runs as many passes as the
    slowest job needs queries. *)
Lemma scripted_poll_loop cycles :
  forall (cur : TaskIds) w (d : string -> nat),
    NoDup cur.*1 ->
    (forall i task_id, (i, task_id) ∈ cur ->
       completes_at s (sim_clock w) task_id (d i)) ->
    max_list_with (fun it => d it.1) cur = cycles ->
    forall fuel, (cycles <= fuel)%nat ->
      exists t,
        poll_loop (scripted s) fuel tt cur w
        = (Ret tt, sim_advance (10 * Z.of_nat cycles) w, t)
        /\ cycles_of t = cycles.
Proof.
  induction cycles as [|cycles IH]; intros cur w d Hcur Hdone Hmax fuel Hfuel.
  { assert (cur = []) as ->.
    { destruct cur as [|[i task_id] cur]; [done|].
      destruct (Hdone i task_id) as (Hpos & _); [left|]. simpl in Hmax. lia. }
    exists []. by rewrite poll_loop_nil, sim_advance_0. }
  assert (Hne : cur <> []) by (by intros ->).
  destruct fuel as [|fuel]; [lia|].
  destruct (scripted_poll_cycle (fun i => (1 < d i)%nat) cur w Hcur) as (t1 & Hcycle & Hc1).
  { intros i task_id Hin. destruct (Hdone i task_id Hin) as (Hpos & Hlast & Hbefore).
    destruct (decide (1 < d i)%nat) as [Hlt|Hge].
    - rewrite bool_decide_eq_true_2 by done.
      destruct (Hbefore 1%nat ltac:(lia)) as (status & completed & Hget & ? & ?).
      exists status, completed. by rewrite Z.mul_1_r in Hget.
    - rewrite bool_decide_eq_false_2 by done.
      destruct Hlast as (status & completed & Hget & ? & ?).
      exists status, completed.
      replace (d i) with 1%nat in Hget by lia. by rewrite Z.mul_1_r in Hget. }
  set (next := filter (fun it => (1 < d it.1)%nat) cur) in *.
  assert (Hsub : sublist next cur) by apply sublist_filter.
  destruct (IH next (sim_advance 10 w) (fun i => pred (d i))) with (fuel := fuel)
    as (t2 & Hloop & Hc2); [| | |lia|].
  { apply (sublist_NoDup _ cur.*1); [done|by apply fmap_sublist]. }
  { intros i task_id [Hlt Hin]%list_elem_of_filter. simpl in Hlt.
    destruct (Hdone i task_id Hin) as (Hpos & Hlast & Hbefore).
    cbn [sim_advance sim_clock].
    split; [lia|]. split.
    - destruct Hlast as (status & completed & Hget & ? & ?).
      exists status, completed. split; [|done].
      rewrite <- Hget. f_equal. lia.
    - intros m Hm.
      destruct (Hbefore (S m) ltac:(lia)) as (status & completed & Hget & ? & ?).
      exists status, completed. split; [|done].
      rewrite <- Hget. f_equal. lia. }
  { subst next. rewrite max_list_with_pred, Hmax; [done|].
    intros [i task_id] Hin. by destruct (Hdone i task_id Hin) as (Hpos & _). }
  exists (t1 ++ t2).
  rewrite (poll_loop_step _ _ _ _ _ Hne), (run_bind_ret _ _ _ _ _ _ Hcycle), Hloop.
  unfold outcome, world, trace. cbn [fst snd].
  rewrite sim_advance_add, cycles_of_app, Hc1, Hc2.
  split; [|done]. do 3 f_equal. lia.
Qed.

(** C4 (amended) — on a client whose calls take no time, so that time
    passes only in the 10-unit sleeps: when every status query returns
    (no poll error) and every job of the active set reports completion at
    some query, the poll loop ends after exactly as many passes as the
    slowest job needs queries.  The time T from the start of the loop to
    the query that observes the last completion is then 10 times that
    number, so the number of passes is ceil (T / 10).  The loop over, the
    summary line is logged with the time elapsed since the start of the
    run, and the run returns. *)
Theorem poll_loop_cycle_count (task_ids : TaskIds) (done_at : string -> nat)
    w start_time :
  NoDup task_ids.*1 ->
  (forall index task_id, (index, task_id) ∈ task_ids ->
     completes_at s (sim_clock w) task_id (done_at index)) ->
  let cycles := max_list_with (fun it => done_at it.1) task_ids in
  forall fuel, (cycles <= fuel)%nat ->
    exists t w',
      poll_phase (scripted s) fuel tt start_time task_ids w
      = (Ret tt, w',
         t ++ [EvLog INFO (MsgMigrationCompleted (sim_clock w' - start_time))])
      /\ cycles_of t = cycles
      /\ sim_clock w' - sim_clock w = 10 * Z.of_nat cycles
      /\ Z.of_nat cycles = ceil_div (sim_clock w' - sim_clock w) 10.
Proof.
  intros Hnd Hdone cycles fuel Hfuel.
  destruct (scripted_poll_loop cycles task_ids w done_at Hnd Hdone eq_refl
              fuel Hfuel) as (t & Hloop & Hc).
  exists t, (sim_advance (10 * Z.of_nat cycles) w).
  rewrite poll_phase_run. cbv zeta. rewrite Hloop.
  unfold outcome, world, trace. cbn [fst snd scripted env_now sim_advance sim_clock].
  split_and!; [done|done|lia|].
  replace (sim_clock w + 10 * Z.of_nat cycles - sim_clock w)
    with (10 * Z.of_nat cycles) by lia.
  by rewrite ceil_div_mul.
Qed.
End Timing.

Section Clock.
Context {W H : Type} (env : Env W H).

(** Sleeping takes the time asked for, and a status query takes none. *)
Hypothesis sleep_elapses :
  forall seconds w, env_now env (env_sleep env seconds w) = env_now env w + seconds.
Hypothesis query_is_instant :
  forall es_target task_id w,
    env_now env (env_tasks_get env es_target task_id w).2 = env_now env w.

Lemma poll_items_instant (es_target : H) (items task_ids : TaskIds) w :
  env_now env (world (poll_items env es_target items task_ids w)) = env_now env w.
Proof.
  revert task_ids w. induction items as [|[index task_id] rest IH];
    intros task_ids w; [done|].
  rewrite poll_items_cons, run_bind, poll_job_run, check_task_status_run.
  cbv zeta. pose proof (query_is_instant es_target task_id w) as Hnow.
  destruct (env_tasks_get env es_target task_id w) as [[status|e] w1];
    unfold outcome, world, trace in *; cbn [fst snd] in *.
  - destruct (status !! "completed") as [completed|]; cbn [fst snd]; [|done].
    destruct (truthy completed); cbn [fst snd];
      [destruct (dict_mem index task_ids); cbn [fst snd]|];
      rewrite <- ?Hnow; try done; apply IH.
  - rewrite failed_status_completed. cbn [truthy fst snd].
    destruct (dict_mem index task_ids); cbn [fst snd];
      rewrite <- ?Hnow; try done; apply IH.
Qed.

Lemma poll_items_no_sleep (es_target : H) (items task_ids : TaskIds) :
  emits (fun ev => is_sleep ev = false) (poll_items env es_target items task_ids).
Proof.
  revert task_ids. induction items as [|[index task_id] rest IH];
    intros task_ids; simpl; [emits|].
  apply emits_bind; [|done]. emits.
Qed.

Lemma no_sleep_cycles t :
  Forall (fun ev => is_sleep ev = false) t -> cycles_of t = 0%nat.
Proof.
  unfold cycles_of. induction 1 as [|ev t Hev _ IH]; [done|].
  simpl. by rewrite Hev.
Qed.

(** On such a client [n] passes of the loop take [10 * n] time units, on
    whatever statuses they end. *)
Lemma cycles_to_elapsed (es_target : H) task_ids w n cur w1 t1 :
  cycles_to env es_target task_ids w n cur w1 t1 ->
  env_now env w1 = env_now env w + 10 * Z.of_nat n /\ cycles_of t1 = n.
Proof.
  induction 1 as [ids w|ids w ids1 w1 t1 n ids2 w2 t2 Hne Hcycle Hrest IH].
  { split; [lia|done]. }
  destruct IH as [Hnow Hcount].
  pose proof (poll_items_instant es_target ids ids (env_sleep env 10 w)) as Hpass.
  pose proof (no_sleep_cycles _ (poll_items_no_sleep es_target ids ids
                                   (env_sleep env 10 w))) as Hquiet.
  rewrite poll_cycle_run in Hcycle. cbv zeta in Hcycle.
  destruct (poll_items env es_target ids ids (env_sleep env 10 w)) as [[o w'] t'].
  unfold outcome, world, trace in *. cbn [fst snd] in *.
  injection Hcycle as -> -> <-.
  rewrite Hnow, Hpass, sleep_elapses.
  change ((EvSleep 10 :: t') ++ t2) with ([EvSleep 10] ++ t' ++ t2).
  rewrite !cycles_of_app, Hquiet, Hcount.
  split; [lia|done].
Qed.

(** On such a client, a loop that empties the active set in [n] passes
    returns for any larger bound, after [ceil (T / 10)] passes for the time
    [T] it took, and the summary line follows. *)
Lemma poll_phase_elapsed (es_target : H) task_ids w n w1 t1 start_time :
  cycles_to env es_target task_ids w n [] w1 t1 ->
  forall fuel, (n <= fuel)%nat ->
    poll_phase env fuel es_target start_time task_ids w
    = (Ret tt, w1,
       t1 ++ [EvLog INFO (MsgMigrationCompleted (env_now env w1 - start_time))])
    /\ cycles_of t1 = n
    /\ Z.of_nat n = ceil_div (env_now env w1 - env_now env w) 10.
Proof.
  intros Hcycles fuel Hfuel.
  destruct (cycles_to_elapsed _ _ _ _ _ _ _ Hcycles) as [Hnow Hcount].
  rewrite poll_phase_run. cbv zeta.
  replace fuel with (n + (fuel - n))%nat by lia.
  rewrite (poll_loop_cycles _ _ _ _ _ _ _ _ Hcycles), poll_loop_nil.
  unfold outcome, world, trace. cbn [fst snd]. rewrite app_nil_r.
  split_and!; [done..|].
  replace (env_now env w1 - env_now env w) with (10 * Z.of_nat n) by lia.
  by rewrite ceil_div_mul.
Qed.
End Clock.

(** ** Further properties *)

Section Setup.
Context {W H : Type} (env : Env W H).

(** X1 — [load_config] makes one load call, for the path it is given, and
    logs one line.  It returns what the loader returned, after an INFO
    line; what the loader raised it logs at ERROR and raises again,
    unchanged. *)
Theorem load_config_reraises file_path w :
  let r := load_config env file_path w in
  world r = (env_load env file_path w).2
  /\ (forall config,
        outcome r = Ret config <-> (env_load env file_path w).1 = Ok config)
  /\ (forall e, outcome r = Exc e <-> (env_load env file_path w).1 = Raise e)
  /\ trace r = EvLoad file_path ::
       match outcome r with
       | Ret _ => [EvLog INFO (MsgLoadedConfig file_path)]
       | Exc e => [EvLog ERROR (MsgLoadFailed file_path e)]
       | OutOfFuel => []
       end.
Proof.
  cbv zeta. rewrite load_config_run.
  destruct (env_load env file_path w) as [[config|e] w1];
    unfold outcome, world, trace; cbn [fst snd];
    split_and!; try done; intros ?; split; congruence.
Qed.

(** X2 — [initialize_opensearch_client] returns a client only when the
    configuration has ['es_target_config'], the constructor returned and
    the target configuration has ['hosts'].  The ['hosts'] entry is read
    after the constructor ran: without it the client that was built is
    dropped and [KeyError] is raised.  Without ['es_target_config'] the
    constructor is not called.  Whatever is raised is logged at ERROR on
    the last line. *)
Theorem client_needs_hosts_entry config w :
  let r := initialize_opensearch_client env config w in
  (forall es_target,
     outcome r = Ret es_target ->
     exists target_config hosts,
       es_target_config config = Some target_config
       /\ env_init env target_config w = (Ok es_target, world r)
       /\ target_config !! "hosts" = Some hosts
       /\ trace r = [EvInit target_config; EvLog INFO (MsgClientInitialized hosts)])
  /\ (forall target_config es_target w1,
        es_target_config config = Some target_config ->
        env_init env target_config w = (Ok es_target, w1) ->
        target_config !! "hosts" = None ->
        r = (Exc (KeyError "hosts"), w1,
             [EvInit target_config;
              EvLog ERROR (MsgClientInitFailed (KeyError "hosts"))]))
  /\ (es_target_config config = None ->
        r = (Exc (KeyError "es_target_config"), w,
             [EvLog ERROR (MsgClientInitFailed (KeyError "es_target_config"))]))
  /\ (forall e,
        outcome r = Exc e ->
        last (trace r) = Some (EvLog ERROR (MsgClientInitFailed e)))
  /\ outcome r <> OutOfFuel.
Proof.
  cbv zeta. rewrite initialize_opensearch_client_run. split_and!.
  - intros es_target.
    destruct (es_target_config config) as [target_config|]; [|done].
    destruct (env_init env target_config w) as [[es' |e] w1] eqn:Hinit; [|done].
    destruct (target_config !! "hosts") as [hosts|] eqn:Hhosts; [|done].
    unfold outcome, world, trace. cbn [fst snd]. intros [= ->].
    by exists target_config, hosts.
  - intros target_config es_target w1 -> -> ->. done.
  - by intros ->.
  - intros e.
    destruct (es_target_config config) as [target_config|];
      [|by intros [= <-]].
    destruct (env_init env target_config w) as [[es' |e'] w1];
      [destruct (target_config !! "hosts")|]; by intros [= <-].
  - destruct (es_target_config config) as [target_config|]; [|done].
    destruct (env_init env target_config w) as [[es' |e'] w1];
      [destruct (target_config !! "hosts")|]; done.
Qed.

(** The subscripts of [start_reindex_task] are evaluated in the order
    ['host'], ['username'], ['password'], the first one for the log line
    of the attempt. *)
Lemma start_reindex_task_keyless (es_target : H) source target remote w :
  let r := start_reindex_task env es_target source target remote w in
  (remote !! "host" = None -> r = (Exc (KeyError "host"), w, []))
  /\ (forall host,
        remote !! "host" = Some host -> remote !! "username" = None ->
        r = (Exc (KeyError "username"), w,
             [EvLog INFO (MsgAttempt source host target)]))
  /\ (forall host username,
        remote !! "host" = Some host -> remote !! "username" = Some username ->
        remote !! "password" = None ->
        r = (Exc (KeyError "password"), w,
             [EvLog INFO (MsgAttempt source host target)])).
Proof.
  cbv zeta. unfold start_reindex_task. run.
  split_and!; [intros ->|intros host -> ->|intros host username -> -> ->]; done.
Qed.

(** X3 — [start_reindex_task] raises only for a missing key of the remote,
    and then before any call: [KeyError 'host'] with nothing logged, or
    [KeyError 'username'] or [KeyError 'password'] after the line of the
    attempt.  With the three keys present it makes exactly one submit call
    and returns, whatever the call does. *)
Theorem start_reindex_task_raises_only_for_remote_keys (es_target : H)
    source target remote w :
  let r := start_reindex_task env es_target source target remote w in
  match remote !! "host", remote !! "username", remote !! "password" with
  | None, _, _ => r = (Exc (KeyError "host"), w, [])
  | Some host, None, _ =>
      r = (Exc (KeyError "username"), w,
           [EvLog INFO (MsgAttempt source host target)])
  | Some host, Some _, None =>
      r = (Exc (KeyError "password"), w,
           [EvLog INFO (MsgAttempt source host target)])
  | Some host, Some username, Some password =>
      let body :=
        {| source_remote_host := host; source_remote_username := username;
           source_remote_password := password; source_index := source;
           dest_index := target |} in
      exists task_id lvl msg,
        r = (Ret task_id,
             (env_reindex env es_target body false reindex_params w).2,
             [EvLog INFO (MsgAttempt source host target);
              EvReindex body false reindex_params;
              EvLog lvl msg])
  end.
Proof.
  cbv zeta.
  destruct (start_reindex_task_keyless es_target source target remote w)
    as (Hhost & Husername & Hpassword).
  destruct (remote !! "host") as [host|] eqn:Hh; [|by apply Hhost].
  destruct (remote !! "username") as [username|] eqn:Hu; [|by apply Husername].
  destruct (remote !! "password") as [password|] eqn:Hp;
    [|by eapply Hpassword].
  rewrite (start_reindex_task_run env es_target source target remote host
             username password w Hh Hu Hp).
  cbv zeta.
  match goal with |- context [env_reindex env es_target ?b false reindex_params w] =>
    destruct (env_reindex env es_target b false reindex_params w)
      as [[response|e] w1] end;
    [destruct (response !! "task") as [task_id|]|]; cbn [snd];
    by eexists _, _, _.
Qed.

(** X4 — a submit call that returns a response without a ['task'] entry
    is handled as a failed submission: [start_reindex_task] logs the
    [KeyError] at ERROR and returns [None], and the submit loop leaves the
    active set as it was, although the call was made and returned. *)
Theorem response_without_task_is_a_failed_submission (es_target : H) config
    index target remote host username password (task_ids : TaskIds) w
    response w1 :
  target_index config = Some target ->
  es_source_remote config = Some remote ->
  remote !! "host" = Some host ->
  remote !! "username" = Some username ->
  remote !! "password" = Some password ->
  let body :=
    {| source_remote_host := host; source_remote_username := username;
       source_remote_password := password; source_index := index;
       dest_index := target |} in
  let t :=
    [EvLog INFO (MsgAttempt index host target);
     EvReindex body false reindex_params;
     EvLog ERROR (MsgStartFailed index (KeyError "task"))] in
  env_reindex env es_target body false reindex_params w = (Ok response, w1) ->
  response !! "task" = None ->
  start_reindex_task env es_target index target remote w = (Ret PyNone, w1, t)
  /\ submit_index env es_target config index task_ids w = (Ret task_ids, w1, t).
Proof.
  intros Htarget Hremote Hhost Husername Hpassword body t Hcall Htask. split.
  - rewrite (start_reindex_task_run env es_target index target remote host
               username password w Hhost Husername Hpassword).
    cbv zeta. fold body. by rewrite Hcall, Htask.
  - rewrite (submit_index_complete env es_target config index target remote
               host username password task_ids w Htarget Hremote Hhost
               Husername Hpassword).
    cbv zeta. fold body. by rewrite Hcall, Htask.
Qed.

End Setup.

Section Runs.
Context {W H : Type} (env : Env W H).

(** A run whose configuration loaded and whose client was built. *)
Lemma migrate_indices_past_setup fuel config_path w config w1 es_target w2 t2 :
  env_load env config_path w = (Ok config, w1) ->
  initialize_opensearch_client env config w1 = (Ret es_target, w2, t2) ->
  migrate_indices env fuel config_path w =
    let loaded :=
      [EvLoad config_path; EvLog INFO (MsgLoadedConfig config_path)] in
    let r3 := submit_phase env es_target config w2 in
    match outcome r3 with
    | Ret task_ids =>
        let r4 := poll_loop env fuel es_target task_ids (world r3) in
        match outcome r4 with
        | Ret _ =>
            (Ret tt, world r4,
             loaded ++ t2 ++ trace r3 ++ trace r4
               ++ [EvLog INFO (MsgMigrationCompleted
                                 (env_now env (world r4) - env_now env w))])
        | Exc e =>
            (Ret tt, world r4,
             loaded ++ t2 ++ trace r3 ++ trace r4
               ++ [EvLog ERROR (MsgMigrationFailed e)])
        | OutOfFuel =>
            (OutOfFuel, world r4, loaded ++ t2 ++ trace r3 ++ trace r4)
        end
    | Exc e =>
        (Ret tt, world r3,
         loaded ++ t2 ++ trace r3 ++ [EvLog ERROR (MsgMigrationFailed e)])
    | OutOfFuel => (OutOfFuel, world r3, loaded ++ t2 ++ trace r3)
    end.
Proof.
  intros Hload Hinit.
  rewrite migrate_indices_run, load_config_run, Hload. cbv zeta.
  unfold outcome, world, trace. cbn [fst snd]. rewrite Hinit. cbn [fst snd].
  destruct (submit_phase env es_target config w2) as [[[task_ids|e|] w3] t3];
    cbn [fst snd]; [|done..].
  rewrite poll_phase_run. cbv zeta.
  destruct (poll_loop env fuel es_target task_ids w3) as [[[[]|e|] w4] t4];
    unfold outcome, world, trace; cbn [fst snd]; done.
Qed.

(** X5 — the keys of the configuration are read where the script needs
    them.  With the configuration loaded and the client built, a missing
    ['source_indices'] halts the run at once; with a first collection to
    submit, a missing ['target_index'], then a missing
    ['es_source_remote'], then a missing ['host'], ['username'] or
    ['password'] of the remote halts it in the first iteration of the
    submit loop.  In each case the run ends on the failure line with that
    [KeyError], and no submit call was made. *)
Theorem missing_key_halts_before_any_submission fuel config_path w config w1
    es_target w2 t2 :
  env_load env config_path w = (Ok config, w1) ->
  initialize_opensearch_client env config w1 = (Ret es_target, w2, t2) ->
  let r := migrate_indices env fuel config_path w in
  let halted attempt key :=
    r = (Ret tt, w2,
         [EvLoad config_path; EvLog INFO (MsgLoadedConfig config_path)]
           ++ t2 ++ attempt ++ [EvLog ERROR (MsgMigrationFailed (KeyError key))])
    /\ submit_calls (trace r) = [] in
  match source_indices config with
  | None => halted [] "source_indices"
  | Some [] => True
  | Some (index :: _) =>
      match target_index config, es_source_remote config with
      | None, _ => halted [] "target_index"
      | Some _, None => halted [] "es_source_remote"
      | Some target, Some remote =>
          let attempt host := [EvLog INFO (MsgAttempt index host target)] in
          match remote !! "host", remote !! "username", remote !! "password" with
          | None, _, _ => halted [] "host"
          | Some host, None, _ => halted (attempt host) "username"
          | Some host, Some _, None => halted (attempt host) "password"
          | Some _, Some _, Some _ => True
          end
      end
  end.
Proof.
  intros Hload Hinit. cbv zeta.
  pose proof (initialize_opensearch_client_quiet env config w1) as Hquiet.
  cbv zeta in Hquiet. rewrite Hinit in Hquiet.
  unfold outcome, trace in Hquiet. cbn [fst snd] in Hquiet.
  destruct Hquiet as (Hs2 & _).
  assert (Hcalls : forall attempt e,
            submit_calls attempt = [] ->
            submit_calls
              ([EvLoad config_path; EvLog INFO (MsgLoadedConfig config_path)]
                 ++ t2 ++ attempt ++ [EvLog ERROR (MsgMigrationFailed e)]) = []).
  { intros attempt e Ha.
    by rewrite (submit_calls_app [_; _]), !submit_calls_app, Hs2, Ha. }
  rewrite (migrate_indices_past_setup fuel config_path w config w1 es_target
             w2 t2 Hload Hinit).
  cbv zeta. rewrite submit_phase_run.
  destruct (source_indices config) as [[|index rest]|]; [done| |].
  2:{ unfold outcome, world, trace. cbn [fst snd]. split; [done|].
      by apply (Hcalls []). }
  rewrite submit_all_cons, run_bind, submit_index_run.
  destruct (target_index config) as [target|].
  2:{ unfold outcome, world, trace. cbn [fst snd]. split; [done|].
      by apply (Hcalls []). }
  destruct (es_source_remote config) as [remote|].
  2:{ unfold outcome, world, trace. cbn [fst snd]. split; [done|].
      by apply (Hcalls []). }
  cbv zeta.
  destruct (start_reindex_task_keyless env es_target index target remote w2)
    as (Hhost & Husername & Hpassword).
  destruct (remote !! "host") as [host|].
  2:{ rewrite (Hhost eq_refl). unfold outcome, world, trace. cbn [fst snd].
      split; [done|]. by apply (Hcalls []). }
  destruct (remote !! "username") as [username|].
  2:{ rewrite (Husername host eq_refl eq_refl).
      unfold outcome, world, trace. cbn [fst snd].
      split; [done|]. by apply (Hcalls [_]). }
  destruct (remote !! "password") as [password|]; [done|].
  rewrite (Hpassword host username eq_refl eq_refl eq_refl).
  unfold outcome, world, trace. cbn [fst snd].
  split; [done|]. by apply (Hcalls [_]).
Qed.

(** X6 — with an empty list of source collections the run does nothing
    past the construction of the client: no submit call, no sleep, no
    status query, and the summary line at once, for any bound on the
    passes.  The destination and the remote are not read, so their keys
    may be missing. *)
Theorem empty_source_list_completes_at_once fuel config_path w config w1
    es_target w2 t2 :
  env_load env config_path w = (Ok config, w1) ->
  initialize_opensearch_client env config w1 = (Ret es_target, w2, t2) ->
  source_indices config = Some [] ->
  let r := migrate_indices env fuel config_path w in
  r = (Ret tt, w2,
       [EvLoad config_path; EvLog INFO (MsgLoadedConfig config_path)]
         ++ t2
         ++ [EvLog INFO (MsgMigrationCompleted (env_now env w2 - env_now env w))])
  /\ submit_calls (trace r) = []
  /\ status_queries (trace r) = []
  /\ cycles_of (trace r) = 0%nat.
Proof.
  intros Hload Hinit Hnone. cbv zeta.
  pose proof (initialize_opensearch_client_quiet env config w1) as Hquiet.
  cbv zeta in Hquiet. rewrite Hinit in Hquiet.
  unfold outcome, trace in Hquiet. cbn [fst snd] in Hquiet.
  destruct Hquiet as (Hs2 & Hq2 & Hc2 & _).
  rewrite (migrate_indices_past_setup fuel config_path w config w1 es_target
             w2 t2 Hload Hinit).
  cbv zeta. rewrite submit_phase_run, Hnone.
  unfold submit_all, mret, M_ret, ret, outcome, world, trace. cbn [fst snd].
  rewrite poll_loop_nil. cbn [fst snd].
  split_and!; [done| | |].
  - by rewrite (submit_calls_app [_; _]), submit_calls_app, Hs2.
  - by rewrite (status_queries_app [_; _]), status_queries_app, Hq2.
  - by rewrite (cycles_of_app [_; _]), cycles_of_app, Hc2.
Qed.

(** When every submission raises or returns a falsy identifier, the
    submit loop over a complete configuration returns the active set it
    started from. *)
Lemma submit_all_none (es_target : H) config indices target remote
    (task_ids : TaskIds) w :
  config_complete config indices target remote ->
  forall l,
    (forall index, index ∈ l -> submit_fails env index \/ submit_falsy env index) ->
    exists w' t,
      submit_all env es_target config l task_ids w = (Ret task_ids, w', t)
      /\ source_index <$> submit_calls t = l.
Proof.
  intros (_ & _ & Htarget & Hremote & [host Hhost] & [username Husername]
          & [password Hpassword]) l.
  revert w. induction l as [|index rest IH]; intros w Hbad.
  { by eexists _, _. }
  assert (Hrest : forall i, i ∈ rest ->
            submit_fails env i \/ submit_falsy env i).
  { intros i Hi. apply Hbad. by right. }
  rewrite submit_all_cons, run_bind.
  rewrite (submit_index_complete env es_target config index target remote host
             username password task_ids w Htarget Hremote Hhost Husername
             Hpassword).
  cbv zeta.
  match goal with |- context [env_reindex env es_target ?b false reindex_params w] =>
    set (body := b) end.
  destruct (Hbad index) as [Hfails|Hfalsy]; [by left| |].
  - destruct (Hfails es_target body w eq_refl) as (e & w1 & ->).
    unfold outcome, world, trace. cbn [fst snd].
    destruct (IH w1 Hrest) as (w' & t & -> & Hsrc). cbn [fst snd].
    eexists _, _. split; [done|].
    rewrite submit_calls_app, fmap_app, Hsrc. done.
  - destruct (Hfalsy es_target body w eq_refl)
      as (response & task_id & w1 & -> & -> & ->).
    unfold outcome, world, trace. cbn [fst snd].
    destruct (IH w1 Hrest) as (w' & t & -> & Hsrc). cbn [fst snd].
    eexists _, _. split; [done|].
    rewrite submit_calls_app, fmap_app, Hsrc. done.
Qed.

(** X7 — a run in which no submission yields a job (every call raises or
    returns a falsy identifier) still ends on the summary line: every
    collection was submitted once, the poll loop is not entered, so there
    is no sleep and no status query, and no failure of the run is
    logged. *)
Theorem run_without_jobs_still_completes fuel config_path w config w1
    es_target w2 t2 indices target remote :
  env_load env config_path w = (Ok config, w1) ->
  initialize_opensearch_client env config w1 = (Ret es_target, w2, t2) ->
  config_complete config indices target remote ->
  (forall index, index ∈ indices ->
     submit_fails env index \/ submit_falsy env index) ->
  let r := migrate_indices env fuel config_path w in
  exists w3 t3,
    r = (Ret tt, w3,
         [EvLoad config_path; EvLog INFO (MsgLoadedConfig config_path)]
           ++ t2 ++ t3
           ++ [EvLog INFO (MsgMigrationCompleted (env_now env w3 - env_now env w))])
    /\ source_index <$> submit_calls t3 = indices
    /\ status_queries (trace r) = []
    /\ cycles_of (trace r) = 0%nat.
Proof.
  intros Hload Hinit Hcomplete Hbad. cbv zeta.
  pose proof (initialize_opensearch_client_quiet env config w1) as Hquiet.
  cbv zeta in Hquiet. rewrite Hinit in Hquiet.
  unfold outcome, trace in Hquiet. cbn [fst snd] in Hquiet.
  destruct Hquiet as (_ & Hq2 & Hc2 & _).
  destruct (submit_all_none es_target config indices target remote [] w2
              Hcomplete indices Hbad) as (w3 & t3 & Hsubmit & Hsrc).
  pose proof (submit_all_cases env es_target config indices [] w2) as Hall.
  cbv zeta in Hall. rewrite Hsubmit in Hall.
  unfold outcome, trace in Hall. cbn [fst snd] in Hall.
  destruct Hall as (Hq3 & Hc3 & _).
  destruct Hcomplete as (_ & Hindices & _).
  rewrite (migrate_indices_past_setup fuel config_path w config w1 es_target
             w2 t2 Hload Hinit).
  cbv zeta. rewrite submit_phase_run, Hindices, Hsubmit.
  unfold outcome, world, trace. cbn [fst snd].
  rewrite poll_loop_nil. cbn [fst snd].
  exists w3, t3. split_and!; [done|done| |].
  - by rewrite (status_queries_app [_; _]), !status_queries_app, Hq2, Hq3.
  - by rewrite (cycles_of_app [_; _]), !cycles_of_app, Hc2, Hc3.
Qed.

End Runs.

Section Phases.
Context {W H : Type} (env : Env W H).

(** X8 — the two loops of a run do not interleave: its events split into
    a first part, with every submit call and neither a sleep nor a status
    query, and a second part with no submit call.  No submission is made
    once polling has begun. *)
Theorem submissions_precede_polling fuel config_path w :
  exists t_submit t_poll,
    trace (migrate_indices env fuel config_path w) = t_submit ++ t_poll
    /\ status_queries t_submit = []
    /\ cycles_of t_submit = 0%nat
    /\ submit_calls t_poll = [].
Proof.
  rewrite migrate_indices_run, load_config_run. cbv zeta.
  assert (Hquiet1 : forall t,
            (exists lvl msg, t = [EvLoad config_path; EvLog lvl msg]) ->
            status_queries t = [] /\ cycles_of t = 0%nat).
  { by intros t (lvl & msg & ->). }
  destruct (env_load env config_path w) as [[config|e] w1];
    unfold outcome, world, trace; cbn [fst snd].
  2:{ eexists _, []. rewrite app_nil_r. by split_and!. }
  pose proof (initialize_opensearch_client_quiet env config w1) as Hquiet.
  cbv zeta in Hquiet. unfold outcome, trace in Hquiet. cbn [fst snd] in Hquiet.
  destruct (initialize_opensearch_client env config w1)
    as [[[es_target|e|] w2] t2]; cbn [fst snd] in Hquiet |- *;
    destruct Hquiet as (_ & Hq2 & Hc2 & _).
  2:{ eexists _, []. rewrite app_nil_r. split; [reflexivity|].
      rewrite (status_queries_app [_; _]), status_queries_app, Hq2.
      rewrite (cycles_of_app [_; _]), cycles_of_app, Hc2. by split_and!. }
  2:{ eexists _, []. rewrite app_nil_r. split; [reflexivity|].
      rewrite (status_queries_app [_; _]), Hq2.
      rewrite (cycles_of_app [_; _]), Hc2. by split_and!. }
  pose proof (submit_phase_cases env es_target config w2) as Hsubmit.
  cbv zeta in Hsubmit. unfold outcome, trace in Hsubmit.
  cbn [fst snd] in Hsubmit.
  destruct (submit_phase env es_target config w2) as [[[task_ids|e|] w3] t3];
    cbn [fst snd] in Hsubmit |- *;
    destruct Hsubmit as (_ & Hq3 & Hc3 & _ & Hret).
  2:{ eexists _, []. rewrite app_nil_r. split; [reflexivity|].
      rewrite (status_queries_app [_; _]), !status_queries_app, Hq2, Hq3.
      rewrite (cycles_of_app [_; _]), !cycles_of_app, Hc2, Hc3. by split_and!. }
  2:{ eexists _, []. rewrite app_nil_r. split; [reflexivity|].
      rewrite (status_queries_app [_; _]), !status_queries_app, Hq2, Hq3.
      rewrite (cycles_of_app [_; _]), !cycles_of_app, Hc2, Hc3. by split_and!. }
  destruct (Hret _ eq_refl) as (Hnd & _).
  pose proof (poll_phase_cases env fuel es_target (env_now env w) task_ids w3 Hnd)
    as Hpoll.
  cbv zeta in Hpoll. destruct Hpoll as (Hs4 & _).
  set (t_submit :=
         [EvLoad config_path; EvLog INFO (MsgLoadedConfig config_path)]
           ++ t2 ++ t3).
  assert (Hsub : status_queries t_submit = [] /\ cycles_of t_submit = 0%nat).
  { unfold t_submit.
    rewrite (status_queries_app [_; _]), !status_queries_app, Hq2, Hq3.
    by rewrite (cycles_of_app [_; _]), !cycles_of_app, Hc2, Hc3. }
  destruct Hsub as [Hq Hc].
  destruct (poll_phase env fuel es_target (env_now env w) task_ids w3)
    as [[[[]|e|] w4] t4]; unfold trace in Hs4; cbn [fst snd] in Hs4 |- *.
  - exists t_submit, t4. unfold t_submit. by rewrite <- !app_assoc.
  - exists t_submit, (t4 ++ [EvLog ERROR (MsgMigrationFailed e)]).
    unfold t_submit. rewrite <- !app_assoc. split_and!; try done.
    by rewrite submit_calls_app, Hs4.
  - exists t_submit, t4. unfold t_submit. by rewrite <- !app_assoc.
Qed.

Lemma dict_set_length k v (d : TaskIds) :
  (length (dict_set k v d) <= S (length d))%nat.
Proof.
  induction d as [|[k' v'] d IH]; simpl; [lia|].
  case_decide; simpl; lia.
Qed.

(** The active set gains at most one job per submit call. *)
Lemma submit_all_length (es_target : H) config indices (task_ids : TaskIds) w :
  let r := submit_all env es_target config indices task_ids w in
  forall ids',
    outcome r = Ret ids' ->
    (length ids' <= length task_ids + length (submit_calls (trace r)))%nat.
Proof.
  revert task_ids w. induction indices as [|index rest IH];
    intros task_ids w; cbv zeta.
  { unfold outcome, trace; simpl. intros ids' [= <-]. lia. }
  rewrite submit_all_cons, run_bind.
  pose proof (submit_index_cases env es_target config index task_ids w) as Hstep.
  cbv zeta in Hstep.
  destruct (submit_index env es_target config index task_ids w)
    as [[[ids1|e|] w1] t1];
    unfold outcome, world, trace in Hstep |- *;
    cbn [fst snd] in Hstep |- *; [|done..].
  destruct Hstep as (_ & _ & _ & _ & Hlen & Hcase).
  specialize (IH ids1 w1). cbv zeta in IH.
  destruct (submit_all env es_target config rest ids1 w1) as [[o2 w2] t2].
  unfold outcome, world, trace in *. cbn [fst snd] in *.
  intros ids' Hret. specialize (IH ids' Hret).
  rewrite submit_calls_app, length_app, Hlen.
  assert (length ids1 <= S (length task_ids))%nat; [|lia].
  destruct Hcase as [[-> _]|(task_id & -> & _)]; [lia|].
  apply dict_set_length.
Qed.

Lemma poll_job_queries (es_target : H) index task_id (task_ids : TaskIds) w :
  status_queries (trace (poll_job env es_target (index, task_id) task_ids w))
  = [task_id].
Proof.
  rewrite poll_job_run, check_task_status_run. cbv zeta.
  destruct (env_tasks_get env es_target task_id w) as [[status|e] w1];
    unfold outcome, world, trace; cbn [fst snd].
  - destruct (status !! "completed") as [completed|]; [|done].
    destruct (truthy completed); [|done]. unfold verdict_line.
    by destruct (status !! "error").
  - rewrite failed_status_completed. cbn [truthy].
    unfold verdict_line. by rewrite failed_status_error.
Qed.

(** A pass queries at most the jobs of its snapshot, however it ends. *)
Lemma poll_items_queries_le (es_target : H) (items task_ids : TaskIds) w :
  (length (status_queries (trace (poll_items env es_target items task_ids w)))
   <= length items)%nat.
Proof.
  revert task_ids w. induction items as [|[index task_id] rest IH];
    intros task_ids w; [done|].
  rewrite poll_items_cons, run_bind.
  pose proof (poll_job_queries es_target index task_id task_ids w) as Hq.
  destruct (poll_job env es_target (index, task_id) task_ids w)
    as [[[ids1|e|] w1] t1]; unfold outcome, world, trace in *;
    cbn [fst snd] in *; rewrite ?status_queries_app, ?length_app, Hq;
    simpl; [|lia..].
  specialize (IH ids1 w1). lia.
Qed.

Lemma poll_loop_queries_le fuel (es_target : H) (cur : TaskIds) w :
  NoDup cur.*1 ->
  let r := poll_loop env fuel es_target cur w in
  (length (status_queries (trace r)) <= cycles_of (trace r) * length cur)%nat
  /\ (cycles_of (trace r) <= fuel)%nat.
Proof.
  revert cur w. induction fuel as [|fuel IH]; intros cur w Hcur; cbv zeta.
  { by destruct cur. }
  destruct (decide (cur = [])) as [->|Hne].
  { rewrite poll_loop_nil. unfold trace; simpl. unfold cycles_of; simpl. lia. }
  rewrite (poll_loop_step _ _ _ _ _ Hne), run_bind.
  pose proof (poll_cycle_cases env es_target cur w Hcur) as Hpass.
  pose proof (poll_items_queries_le es_target cur cur (env_sleep env 10 w))
    as Hle.
  cbv zeta in Hpass. rewrite poll_cycle_run in Hpass |- *. cbv zeta in Hpass |- *.
  destruct (poll_items env es_target cur cur (env_sleep env 10 w))
    as [[[cur1|e|] w1] t1];
    unfold outcome, world, trace in *; cbn [fst snd] in *;
    destruct Hpass as (_ & Hc1 & _ & Hpass).
  - destruct Hpass as (_ & Hsub & _).
    assert (Hcur1 : NoDup cur1.*1).
    { apply (sublist_NoDup _ cur.*1); [done|by apply fmap_sublist]. }
    apply sublist_length in Hsub.
    specialize (IH cur1 w1 Hcur1). cbv zeta in IH.
    destruct (poll_loop env fuel es_target cur1 w1) as [[o2 w2] t2].
    unfold trace in *. cbn [fst snd] in *.
    change (EvSleep 10 :: t1) with ([EvSleep 10] ++ t1) in Hc1 |- *.
    rewrite <- app_assoc, (status_queries_app [_]), status_queries_app.
    rewrite (cycles_of_app [_]), cycles_of_app, !length_app.
    rewrite (cycles_of_app [_]) in Hc1.
    change (status_queries [EvSleep 10]) with (@nil PyVal).
    change (cycles_of [EvSleep 10]) with 1%nat in Hc1 |- *.
    simpl length. nia.
  - change (EvSleep 10 :: t1) with ([EvSleep 10] ++ t1) in Hc1 |- *.
    rewrite (status_queries_app [_]).
    change (status_queries [EvSleep 10]) with (@nil PyVal).
    rewrite Hc1. simpl length at 1. simpl. lia.
  - done.
Qed.

(** X9 — polling is paced by the sleeps: over a whole run, the number of
    status queries is at most the number of passes of the poll loop (one
    sleep of 10 each) times the number of submit calls made, and the
    number of passes is at most the bound on the loop. *)
Theorem status_queries_are_paced fuel config_path w :
  let r := migrate_indices env fuel config_path w in
  (length (status_queries (trace r))
   <= cycles_of (trace r) * length (submit_calls (trace r)))%nat
  /\ (cycles_of (trace r) <= fuel)%nat.
Proof.
  cbv zeta.
  destruct (env_load env config_path w) as [[config|e] w1] eqn:Hload.
  2:{ rewrite migrate_indices_run, load_config_run, Hload. cbv zeta.
      unfold outcome, world, trace, cycles_of; simpl. lia. }
  pose proof (initialize_opensearch_client_quiet env config w1) as Hquiet.
  cbv zeta in Hquiet.
  destruct (initialize_opensearch_client env config w1)
    as [[[es_target|e|] w2] t2] eqn:Hinit;
    unfold outcome, trace in Hquiet; cbn [fst snd] in Hquiet;
    destruct Hquiet as (Hs2 & Hq2 & Hc2 & _).
  2,3: rewrite migrate_indices_run, load_config_run, Hload; cbv zeta;
       unfold outcome, world, trace; cbn [fst snd]; rewrite Hinit;
       cbn [fst snd];
       rewrite (status_queries_app [_; _]), ?status_queries_app, Hq2,
         (cycles_of_app [_; _]), ?cycles_of_app, Hc2;
       unfold cycles_of; simpl; lia.
  rewrite (migrate_indices_past_setup env fuel config_path w config w1
             es_target w2 t2 Hload Hinit).
  cbv zeta.
  pose proof (submit_phase_cases env es_target config w2) as Hsubmit.
  cbv zeta in Hsubmit.
  assert (Hlen : forall ids',
            outcome (submit_phase env es_target config w2) = Ret ids' ->
            (length ids'
             <= length (submit_calls
                          (trace (submit_phase env es_target config w2))))%nat).
  { rewrite submit_phase_run.
    destruct (source_indices config) as [indices|]; [|done].
    intros ids' Hret.
    by apply (submit_all_length es_target config indices [] w2). }
  destruct (submit_phase env es_target config w2) as [[[task_ids|e|] w3] t3];
    unfold outcome, world, trace in *; cbn [fst snd] in *;
    destruct Hsubmit as (_ & Hq3 & Hc3 & _ & Hret).
  2,3: rewrite (status_queries_app [_; _]), !status_queries_app, Hq2, Hq3,
         (cycles_of_app [_; _]), !cycles_of_app, Hc2, Hc3;
       unfold cycles_of; simpl; lia.
  destruct (Hret _ eq_refl) as (Hnd & _). specialize (Hlen _ eq_refl).
  pose proof (poll_loop_queries_le fuel es_target task_ids w3 Hnd) as Hloop.
  cbv zeta in Hloop.
  destruct (poll_loop env fuel es_target task_ids w3) as [[[[]|e|] w4] t4];
    unfold outcome, world, trace in *; cbn [fst snd] in *;
    destruct Hloop as [Hq4 Hc4];
    rewrite (status_queries_app [_; _]), !status_queries_app, Hq2, Hq3,
      (cycles_of_app [_; _]), !cycles_of_app, Hc2, Hc3,
      (submit_calls_app [_; _]), !submit_calls_app, !length_app;
    rewrite ?app_nil_r; simpl; split; try nia.
  all: change (cycles_of [_]) with 0%nat; nia.
Qed.

End Phases.

Section Failures.
Context {W H : Type} (env : Env W H).

Lemma start_reindex_task_exc (es_target : H) source target remote w e :
  outcome (start_reindex_task env es_target source target remote w) = Exc e ->
  e = KeyError "host" \/ e = KeyError "username" \/ e = KeyError "password".
Proof.
  destruct (start_reindex_task_keyless env es_target source target remote w)
    as (Hhost & Husername & Hpassword).
  destruct (remote !! "host") as [host|] eqn:Hh.
  2:{ rewrite (Hhost eq_refl). intros [= <-]. by left. }
  destruct (remote !! "username") as [username|] eqn:Hu.
  2:{ rewrite (Husername host eq_refl eq_refl). intros [= <-]. right; by left. }
  destruct (remote !! "password") as [password|] eqn:Hp.
  2:{ rewrite (Hpassword host username eq_refl eq_refl eq_refl).
      intros [= <-]. right; by right. }
  rewrite (start_reindex_task_run env es_target source target remote host
             username password w Hh Hu Hp).
  cbv zeta.
  match goal with |- context [env_reindex env es_target ?b false reindex_params w] =>
    destruct (env_reindex env es_target b false reindex_params w)
      as [[response|e'] w1] end;
    [destruct (response !! "task")|]; done.
Qed.

(** What the submit loop can raise. *)
Lemma submit_all_exc (es_target : H) config indices (task_ids : TaskIds) w e :
  outcome (submit_all env es_target config indices task_ids w) = Exc e ->
  exists key,
    e = KeyError key
    /\ key ∈ ["target_index"; "es_source_remote"; "host"; "username"; "password"].
Proof.
  revert task_ids w. induction indices as [|index rest IH]; intros task_ids w.
  { done. }
  rewrite submit_all_cons, run_bind, submit_index_run.
  destruct (target_index config) as [target|].
  2:{ intros [= <-]. eexists. split; [done|]. set_solver. }
  destruct (es_source_remote config) as [remote|].
  2:{ intros [= <-]. eexists. split; [done|]. set_solver. }
  cbv zeta.
  pose proof (start_reindex_task_exc es_target index target remote w) as Hexc.
  destruct (start_reindex_task env es_target index target remote w)
    as [[[task_id|e'|] w1] t1]; unfold outcome, world, trace in *;
    cbn [fst snd] in *.
  - intros Hrest. eapply IH. exact Hrest.
  - intros [= <-].
    destruct (Hexc e' eq_refl) as [-> |[-> | ->]];
      (eexists; split; [done|set_solver]).
  - done.
Qed.

Lemma not_final_failed t e :
  Forall not_final t -> EvLog ERROR (MsgMigrationFailed e) ∉ t.
Proof.
  rewrite Forall_forall. intros Hall Hin. by specialize (Hall _ Hin).
Qed.

(** X10 — past the setup, only a missing key halts a run.  With the
    configuration loaded and the client built (and values of the shapes
    the script expects, as [Config] and [Dict] have them), a failure line
    of the run carries a [KeyError], for one of seven keys: ['source_indices'],
    ['target_index'], ['es_source_remote'], ['host'], ['username'],
    ['password'], or the ['completed'] of a status.  It is the last line
    of the run; and once the poll loop has made a pass, it can only be the
    missing ['completed'] of a status response.  No error raised by a
    submit call or a status query halts a run. *)
Theorem only_missing_keys_halt_a_run_past_setup fuel config_path w config w1
    es_target w2 t2 :
  env_load env config_path w = (Ok config, w1) ->
  initialize_opensearch_client env config w1 = (Ret es_target, w2, t2) ->
  let r := migrate_indices env fuel config_path w in
  forall e,
    EvLog ERROR (MsgMigrationFailed e) ∈ trace r ->
    (exists key, e = KeyError key /\ key ∈ halting_keys)
    /\ last (trace r) = Some (EvLog ERROR (MsgMigrationFailed e))
    /\ (cycles_of (trace r) <> 0%nat ->
        e = KeyError "completed" /\ malformed_status env es_target).
Proof.
  intros Hload Hinit. cbv zeta.
  pose proof (initialize_opensearch_client_quiet env config w1) as Hquiet.
  pose proof (initialize_opensearch_client_not_final env config w1) as Hf2.
  cbv zeta in Hquiet. rewrite Hinit in Hquiet, Hf2.
  unfold outcome, trace in Hquiet, Hf2. cbn [fst snd] in Hquiet, Hf2.
  destruct Hquiet as (_ & _ & Hc2 & _).
  rewrite (migrate_indices_past_setup env fuel config_path w config w1
             es_target w2 t2 Hload Hinit).
  cbv zeta.
  pose proof (submit_phase_cases env es_target config w2) as Hsubmit.
  pose proof (submit_phase_not_final env es_target config w2) as Hf3.
  assert (Hkey3 : forall e,
            outcome (submit_phase env es_target config w2) = Exc e ->
            exists key, e = KeyError key /\ key ∈ halting_keys).
  { intros e. rewrite submit_phase_run.
    destruct (source_indices config) as [indices|].
    - intros (key & -> & Hkey)%submit_all_exc. exists key. split; [done|].
      unfold halting_keys. set_solver.
    - intros [= <-]. eexists. split; [done|]. unfold halting_keys. set_solver. }
  cbv zeta in Hsubmit.
  destruct (submit_phase env es_target config w2) as [[[task_ids|e3|] w3] t3];
    unfold outcome, world, trace in *; cbn [fst snd] in *;
    destruct Hsubmit as (_ & _ & Hc3 & _ & Hret).
  - destruct (Hret _ eq_refl) as (Hnd & _).
    pose proof (poll_loop_cases env fuel es_target task_ids w3 Hnd) as Hloop.
    pose proof (poll_loop_not_final env fuel es_target task_ids w3) as Hf4.
    cbv zeta in Hloop.
    destruct (poll_loop env fuel es_target task_ids w3) as [[[[]|e4|] w4] t4];
      unfold outcome, world, trace in *; cbn [fst snd] in *;
      destruct Hloop as (_ & _ & _ & _ & Hexc); intros e Hin;
      rewrite !elem_of_app, !elem_of_cons, elem_of_nil in Hin.
    + destruct Hin as [[Hin|[Hin|Hin]]|[Hin|[Hin|[Hin|[Hin|Hin]]]]]; try done;
        by eapply not_final_failed in Hin.
    + destruct (Hexc e4 eq_refl) as [-> Hbad].
      destruct Hin as [[Hin|[Hin|Hin]]|[Hin|[Hin|[Hin|[Hin|Hin]]]]]; try done;
        try (by eapply not_final_failed in Hin).
      simplify_eq. split_and!.
      * eexists. split; [done|]. unfold halting_keys. set_solver.
      * by rewrite !app_assoc, last_snoc.
      * done.
    + destruct Hin as [[Hin|[Hin|Hin]]|[Hin|[Hin|Hin]]]; try done;
        by eapply not_final_failed in Hin.
  - intros e Hin.
    rewrite !elem_of_app, !elem_of_cons, elem_of_nil in Hin.
    destruct Hin as [[Hin|[Hin|Hin]]|[Hin|[Hin|[Hin|Hin]]]]; try done;
      try (by eapply not_final_failed in Hin).
    simplify_eq. split_and!.
    + by apply Hkey3.
    + by rewrite !app_assoc, last_snoc.
    + rewrite (cycles_of_app [_; _]), !cycles_of_app, Hc2, Hc3. done.
  - intros e Hin.
    rewrite !elem_of_app, !elem_of_cons, elem_of_nil in Hin.
    destruct Hin as [[Hin|[Hin|Hin]]|[Hin|Hin]]; try done;
      by eapply not_final_failed in Hin.
Qed.

End Failures.

Section Waiting.
Context {W H : Type} (env : Env W H).

Lemma dict_remove_elem k j v (d : TaskIds) :
  j <> k -> (j, v) ∈ d -> (j, v) ∈ dict_remove k d.
Proof.
  intros Hne. induction d as [|[k' v'] d IH]; simpl; [done|].
  rewrite elem_of_cons. case_decide; subst.
  - intros [[= -> ->]|Hin]; [done|done].
  - rewrite elem_of_cons. naive_solver.
Qed.

(** A job whose status stays in progress survives a pass. *)
Lemma poll_items_keeps (es_target : H) index task_id :
  always_in_progress env task_id ->
  forall (items cur : TaskIds) w,
    (index, task_id) ∈ cur ->
    (forall v, (index, v) ∈ items -> v = task_id) ->
    forall cur',
      outcome (poll_items env es_target items cur w) = Ret cur' ->
      (index, task_id) ∈ cur'.
Proof.
  intros Hstuck items. induction items as [|[j v] rest IH];
    intros cur w Hin Hval cur'.
  { unfold outcome; simpl. by intros [= <-]. }
  assert (Hrest : forall v', (index, v') ∈ rest -> v' = task_id).
  { intros v' Hv'. apply Hval. by right. }
  rewrite poll_items_cons, run_bind, poll_job_run, check_task_status_run.
  cbv zeta. destruct (decide (j = index)) as [->|Hne].
  - rewrite (Hval v) by left.
    destruct (Hstuck es_target w) as (status & completed & w1 & -> & Hc & Hfalsy).
    unfold outcome, world, trace. cbn [fst snd]. rewrite Hc, Hfalsy.
    cbn [fst snd]. by apply IH.
  - destruct (env_tasks_get env es_target v w) as [[status|e] w1];
      unfold outcome, world, trace; cbn [fst snd].
    + destruct (status !! "completed") as [completed|]; cbn [fst snd]; [|done].
      destruct (truthy completed); cbn [fst snd]; [|by apply IH].
      destruct (dict_mem j cur); cbn [fst snd]; [|done].
      apply IH; [|done]. by apply dict_remove_elem.
    + rewrite failed_status_completed. cbn [truthy fst snd].
      destruct (dict_mem j cur); cbn [fst snd]; [|done].
      apply IH; [|done]. by apply dict_remove_elem.
Qed.

Lemma poll_loop_waits (es_target : H) index task_id :
  always_in_progress env task_id ->
  forall fuel (cur : TaskIds) w,
    NoDup cur.*1 ->
    (index, task_id) ∈ cur ->
    let r := poll_loop env fuel es_target cur w in
    outcome r <> Ret tt
    /\ (status_contract env ->
        outcome r = OutOfFuel /\ cycles_of (trace r) = fuel).
Proof.
  intros Hstuck fuel. induction fuel as [|fuel IH]; intros cur w Hcur Hin;
    cbv zeta.
  { destruct cur as [|item cur]; [by apply elem_of_nil in Hin|done]. }
  assert (Hne : cur <> []) by (intros ->; by apply elem_of_nil in Hin).
  rewrite (poll_loop_step _ _ _ _ _ Hne), run_bind.
  pose proof (poll_cycle_cases env es_target cur w Hcur) as Hpass.
  pose proof (poll_items_keeps es_target index task_id Hstuck cur cur
                (env_sleep env 10 w) Hin) as Hkeep.
  cbv zeta in Hpass. rewrite poll_cycle_run in Hpass |- *.
  cbv zeta in Hpass |- *.
  destruct (poll_items env es_target cur cur (env_sleep env 10 w))
    as [[[cur1|e|] w1] t1];
    unfold outcome, world, trace in *; cbn [fst snd] in *;
    destruct Hpass as (_ & Hc1 & _ & Hpass); [| |done].
  - destruct Hpass as (_ & Hsub & _).
    assert (Hcur1 : NoDup cur1.*1).
    { apply (sublist_NoDup _ cur.*1); [done|by apply fmap_sublist]. }
    assert (Hin1 : (index, task_id) ∈ cur1).
    { apply Hkeep; [|done]. intros v Hv.
      by apply (dict_key_unique index v task_id cur). }
    specialize (IH cur1 w1 Hcur1 Hin1). cbv zeta in IH.
    destruct (poll_loop env fuel es_target cur1 w1) as [[o2 w2] t2].
    cbn [fst snd] in *. destruct IH as [Hret Hfuel]. split; [done|].
    intros Hcontract. destruct (Hfuel Hcontract) as [-> Hc2].
    split; [done|].
    change (EvSleep 10 :: t1 ++ t2) with ((EvSleep 10 :: t1) ++ t2).
    by rewrite cycles_of_app, Hc1, Hc2.
  - split; [done|]. intros Hcontract.
    destruct Hpass as (_ & Hbad & _).
    by apply (contract_not_malformed env) in Hbad.
Qed.

(** X11 — the poll loop has no way out while a job stays in progress.
    If every status query of one job of the active set returns, with
    ['completed'] falsy, the loop does not return, however many passes it
    is given, and the summary line is never logged; when the client
    honours the status contract, the loop is still polling after any
    number of passes, one sleep each. *)
Theorem poll_loop_waits_for_a_job_in_progress (es_target : H) index task_id
    (task_ids : TaskIds) :
  NoDup task_ids.*1 ->
  (index, task_id) ∈ task_ids ->
  always_in_progress env task_id ->
  (forall fuel w, outcome (poll_loop env fuel es_target task_ids w) <> Ret tt)
  /\ (forall fuel start_time w,
        let r := poll_phase env fuel es_target start_time task_ids w in
        outcome r <> Ret tt /\ List.filter is_summary (trace r) = [])
  /\ (status_contract env ->
      forall fuel w,
        let r := poll_loop env fuel es_target task_ids w in
        outcome r = OutOfFuel /\ cycles_of (trace r) = fuel).
Proof.
  intros Hnd Hin Hstuck. split_and!.
  - intros fuel w.
    apply (poll_loop_waits es_target index task_id Hstuck fuel task_ids w Hnd Hin).
  - intros fuel start_time w. cbv zeta. rewrite poll_phase_run. cbv zeta.
    pose proof (poll_loop_waits es_target index task_id Hstuck fuel task_ids w
                  Hnd Hin) as [Hret _].
    pose proof (poll_loop_not_final env fuel es_target task_ids w) as Hf.
    destruct (poll_loop env fuel es_target task_ids w) as [[[[]|e|] w1] t1];
      unfold outcome, world, trace in *; cbn [fst snd] in *; [done| |].
    all: split; [done|]; apply no_summary_filter;
      eapply Forall_impl; [exact Hf|apply not_final_not_summary].
  - intros Hcontract fuel w.
    by apply (poll_loop_waits es_target index task_id Hstuck fuel task_ids w
                Hnd Hin).
Qed.

(** A loop that returned has reported every job of the active set. *)
Lemma poll_loop_verdicts fuel (es_target : H) (cur : TaskIds) w :
  NoDup cur.*1 ->
  let r := poll_loop env fuel es_target cur w in
  outcome r = Ret tt ->
  forall j, j ∈ cur.*1 ->
    exists n,
      (n < cycles_of (trace r))%nat
      /\ (lifecycle j (trace r) = replicate n JProgress ++ [JComplete]
          \/ lifecycle j (trace r) = replicate n JProgress ++ [JFail]).
Proof.
  revert cur w. induction fuel as [|fuel IH]; intros cur w Hcur; cbv zeta.
  { destruct cur as [|item cur]; [|done]. by intros _ j Hj%elem_of_nil. }
  destruct (decide (cur = [])) as [->|Hne].
  { by intros _ j Hj%elem_of_nil. }
  rewrite (poll_loop_step _ _ _ _ _ Hne), run_bind.
  pose proof (poll_cycle_cases env es_target cur w Hcur) as Hpass.
  cbv zeta in Hpass.
  destruct (poll_cycle env es_target cur w) as [[[cur1|e|] w1] t1];
    unfold outcome, world, trace in *; cbn [fst snd] in *;
    destruct Hpass as (_ & Hc1 & _ & Hpass); [|done..].
  destruct Hpass as (_ & Hsub & Hjobs).
  assert (Hcur1 : NoDup cur1.*1).
  { apply (sublist_NoDup _ cur.*1); [done|by apply fmap_sublist]. }
  specialize (IH cur1 w1 Hcur1). cbv zeta in IH.
  pose proof (poll_loop_cases env fuel es_target cur1 w1 Hcur1) as Hloop.
  cbv zeta in Hloop.
  destruct (poll_loop env fuel es_target cur1 w1) as [[o2 w2] t2].
  unfold outcome, world, trace in *. cbn [fst snd] in *.
  destruct Hloop as (_ & Hnone & _).
  intros Hret j Hj. rewrite lifecycle_app, cycles_of_app, Hc1.
  destruct (Hjobs j Hj) as [[-> Hj1]|[Hl Hj1]].
  - destruct (IH Hret j Hj1) as (n & Hn & Hcase). exists (S n).
    split; [lia|]. simpl. destruct Hcase as [-> | ->]; [by left|by right].
  - exists 0%nat. split; [lia|]. rewrite (Hnone j Hj1), app_nil_r. simpl.
    destruct Hl as [-> | ->]; [by left|by right].
Qed.

(** X12 — the summary line means that every job of the active set has
    been reported.  When the poll phase returns, its last line is the
    summary, and the lines it logged for each job of the (duplicate-free)
    active set are some progress lines, fewer than the passes made,
    followed by exactly one verdict, success or failure. *)
Theorem summary_follows_a_verdict_for_every_job fuel (es_target : H)
    start_time (task_ids : TaskIds) w :
  NoDup task_ids.*1 ->
  let r := poll_phase env fuel es_target start_time task_ids w in
  outcome r = Ret tt ->
  (exists seconds,
     last (trace r) = Some (EvLog INFO (MsgMigrationCompleted seconds)))
  /\ forall index, index ∈ task_ids.*1 ->
       exists n,
         (n < cycles_of (trace r))%nat
         /\ (lifecycle index (trace r) = replicate n JProgress ++ [JComplete]
             \/ lifecycle index (trace r) = replicate n JProgress ++ [JFail]).
Proof.
  intros Hnd. cbv zeta. rewrite poll_phase_run. cbv zeta.
  pose proof (poll_loop_verdicts fuel es_target task_ids w Hnd) as Hloop.
  cbv zeta in Hloop.
  destruct (poll_loop env fuel es_target task_ids w) as [[[[]|e|] w1] t1];
    unfold outcome, world, trace in *; cbn [fst snd] in *; [|done..].
  intros _. split; [eexists; by rewrite last_snoc|].
  intros index Hin. destruct (Hloop eq_refl index Hin) as (n & Hn & Hcase).
  exists n. rewrite lifecycle_app, cycles_of_app.
  change (lifecycle index [_]) with (@nil JobEvent).
  change (cycles_of [_]) with 0%nat. rewrite app_nil_r.
  split; [lia|done].
Qed.

End Waiting.

Section Elapses.
Context {W H : Type} (env : Env W H).

Lemma elapses_mret {A} (a : A) : elapses env (mret a : M W A).
Proof. intros w. unfold trace, world, cycles_of. simpl. lia. Qed.

Lemma elapses_raise {A} e : elapses env (raise e : M W A).
Proof. intros w. unfold trace, world, cycles_of. simpl. lia. Qed.

Lemma elapses_out_of_fuel {A} : elapses env (out_of_fuel : M W A).
Proof. intros w. unfold trace, world, cycles_of. simpl. lia. Qed.

Lemma elapses_now : elapses env (now env).
Proof. intros w. unfold trace, world, cycles_of. simpl. lia. Qed.

Lemma elapses_log lvl msg : elapses env (log lvl msg : M W unit).
Proof. intros w. unfold trace, world, cycles_of. simpl. lia. Qed.

Lemma elapses_getitem {V} (d : gmap string V) key :
  elapses env (getitem d key : M W V).
Proof.
  intros w. unfold getitem.
  destruct (d !! key); unfold trace, world, cycles_of; simpl; lia.
Qed.

Lemma elapses_config_getitem {V} (field : option V) key :
  elapses env (config_getitem field key : M W V).
Proof.
  intros w. destruct field; unfold trace, world, cycles_of; simpl; lia.
Qed.

Lemma elapses_dict_pop key d : elapses env (dict_pop key d : M W TaskIds).
Proof.
  intros w. unfold dict_pop.
  destruct (dict_mem key d); unfold trace, world, cycles_of; simpl; lia.
Qed.

Lemma elapses_call {A} ev (f : W -> Result A * W) :
  is_sleep ev = false ->
  (forall w, env_now env w <= env_now env (f w).2) ->
  elapses env (call ev f).
Proof.
  intros Hev Hf w. specialize (Hf w). unfold call.
  destruct (f w) as [[a|e] w1]; unfold trace, world, cycles_of; simpl;
    rewrite Hev; simpl in *; lia.
Qed.

Lemma elapses_sleep : steady_clock env -> elapses env (sleep env 10).
Proof.
  intros (Hsleep & _) w. specialize (Hsleep 10 w).
  unfold sleep, trace, world, cycles_of. simpl. lia.
Qed.

Lemma elapses_bind {A B} (m : M W A) (k : A -> M W B) :
  elapses env m -> (forall a, elapses env (k a)) -> elapses env (m ≫= k).
Proof.
  intros Hm Hk w. rewrite run_bind. specialize (Hm w).
  destruct (m w) as [[[a|e|] w1] t1]; unfold outcome, world, trace in *;
    cbn [fst snd] in *; [|done..].
  specialize (Hk a w1). unfold world, trace in Hk.
  rewrite cycles_of_app. lia.
Qed.

Lemma elapses_try_except {A} (m : M W A) (h : Exn -> M W A) :
  elapses env m -> (forall e, elapses env (h e)) -> elapses env (try_except m h).
Proof.
  intros Hm Hh w. rewrite run_try_except. specialize (Hm w).
  destruct (m w) as [[[a|e|] w1] t1]; unfold outcome, world, trace in *;
    cbn [fst snd] in *; [done| |done].
  specialize (Hh e w1). unfold world, trace in Hh.
  rewrite cycles_of_app. lia.
Qed.

End Elapses.

Create HintDb elapses.
#[export] Hint Resolve elapses_mret elapses_raise elapses_out_of_fuel
  elapses_now elapses_log elapses_getitem elapses_config_getitem
  elapses_dict_pop : elapses.

(** Decompose a computation along its binds, handlers and case analyses. *)
Ltac elapses_step :=
  first
    [ apply elapses_bind; [|intros ?]
    | apply elapses_try_except; [|intros ?]
    | apply elapses_call; [done|]
    | match goal with
      | |- elapses _ (match ?x with _ => _ end) => destruct x
      | |- elapses _ (if ?x then _ else _) => destruct x
      end ].
Ltac elapses := repeat elapses_step; auto with elapses.

Section Duration.
Context {W H : Type} (env : Env W H).
Hypothesis Hclock : steady_clock env.

Lemma load_config_elapses file_path : elapses env (load_config env file_path).
Proof.
  destruct Hclock as (_ & Hload & _). unfold load_config. elapses.
Qed.

Lemma initialize_opensearch_client_elapses config :
  elapses env (initialize_opensearch_client env config).
Proof.
  destruct Hclock as (_ & _ & Hinit & _).
  unfold initialize_opensearch_client. elapses.
Qed.

Lemma submit_phase_elapses (es_target : H) config :
  elapses env (submit_phase env es_target config).
Proof.
  destruct Hclock as (_ & _ & _ & Hreindex & _).
  unfold submit_phase. apply elapses_bind; [elapses|]. intros indices.
  generalize (@nil (string * PyVal)).
  induction indices as [|index rest IH]; intros task_ids; simpl; [elapses|].
  apply elapses_bind; [|done].
  unfold submit_index. elapses.
Qed.

Lemma poll_items_elapses (es_target : H) items task_ids :
  elapses env (poll_items env es_target items task_ids).
Proof.
  destruct Hclock as (_ & _ & _ & _ & Hget).
  revert task_ids. induction items as [|[index task_id] rest IH];
    intros task_ids; simpl; [elapses|].
  apply elapses_bind; [|done].
  elapses.
Qed.

Lemma poll_loop_elapses fuel (es_target : H) task_ids :
  elapses env (poll_loop env fuel es_target task_ids).
Proof.
  revert task_ids. induction fuel as [|fuel IH]; intros [|item task_ids];
    cbn [poll_loop]; [elapses..|].
  apply elapses_bind; [|apply IH].
  unfold poll_cycle. apply elapses_bind; [by apply elapses_sleep|].
  intros _. apply poll_items_elapses.
Qed.

Lemma not_final_summary t seconds :
  Forall not_final t -> EvLog INFO (MsgMigrationCompleted seconds) ∉ t.
Proof.
  rewrite Forall_forall. intros Hall Hin. by specialize (Hall _ Hin).
Qed.

End Duration.

Section Summary.
Context {W H : Type} (env : Env W H).

(** X13 — the duration in the summary line is measured from the start of
    the run, before the configuration is loaded, to the end of the poll
    loop.  On a clock that does not run backwards across the calls and on
    which a sleep takes at least the time asked for, it is at least 10
    time units per pass of the poll loop. *)
Theorem summary_duration_covers_the_sleeps fuel config_path w :
  steady_clock env ->
  let r := migrate_indices env fuel config_path w in
  forall seconds,
    EvLog INFO (MsgMigrationCompleted seconds) ∈ trace r ->
    seconds = env_now env (world r) - env_now env w
    /\ 10 * Z.of_nat (cycles_of (trace r)) <= seconds
    /\ last (trace r) = Some (EvLog INFO (MsgMigrationCompleted seconds)).
Proof.
  intros Hclock. cbv zeta. rewrite migrate_indices_run. cbv zeta.
  pose proof (load_config_elapses env Hclock config_path w) as He1.
  pose proof (load_config_not_final env config_path w) as Hf1.
  destruct (load_config env config_path w) as [[[config|e1|] w1] t1];
    unfold outcome, world, trace in *; cbn [fst snd] in *.
  2:{ intros seconds [Hin|Hin]%elem_of_app;
        [by eapply not_final_summary in Hin|].
      by apply list_elem_of_singleton in Hin. }
  2:{ intros seconds Hin. by eapply not_final_summary in Hin. }
  pose proof (initialize_opensearch_client_elapses env Hclock config w1) as He2.
  pose proof (initialize_opensearch_client_not_final env config w1) as Hf2.
  destruct (initialize_opensearch_client env config w1)
    as [[[es_target|e2|] w2] t2];
    unfold outcome, world, trace in *; cbn [fst snd] in *.
  2:{ intros seconds Hin. rewrite !elem_of_app in Hin.
      destruct Hin as [Hin|[Hin|Hin]];
        [by eapply not_final_summary in Hin..|].
      by apply list_elem_of_singleton in Hin. }
  2:{ intros seconds Hin. rewrite !elem_of_app in Hin.
      destruct Hin as [Hin|Hin]; by eapply not_final_summary in Hin. }
  pose proof (submit_phase_elapses env Hclock es_target config w2) as He3.
  pose proof (submit_phase_not_final env es_target config w2) as Hf3.
  destruct (submit_phase env es_target config w2) as [[[task_ids|e3|] w3] t3];
    unfold outcome, world, trace in *; cbn [fst snd] in *.
  2:{ intros seconds Hin. rewrite !elem_of_app in Hin.
      destruct Hin as [Hin|[Hin|[Hin|Hin]]];
        [by eapply not_final_summary in Hin..|].
      by apply list_elem_of_singleton in Hin. }
  2:{ intros seconds Hin. rewrite !elem_of_app in Hin.
      destruct Hin as [Hin|[Hin|Hin]]; by eapply not_final_summary in Hin. }
  rewrite poll_phase_run. cbv zeta.
  pose proof (poll_loop_elapses env Hclock fuel es_target task_ids w3) as He4.
  pose proof (poll_loop_not_final env fuel es_target task_ids w3) as Hf4.
  destruct (poll_loop env fuel es_target task_ids w3) as [[[[]|e4|] w4] t4];
    unfold outcome, world, trace in *; cbn [fst snd] in *.
  - intros seconds Hin. rewrite !elem_of_app in Hin.
    destruct Hin as [Hin|[Hin|[Hin|[Hin|Hin]]]];
      try (by eapply not_final_summary in Hin).
    apply list_elem_of_singleton in Hin. injection Hin as ->.
    split; [done|]. split.
    + rewrite !cycles_of_app. change (cycles_of [_]) with 0%nat. lia.
    + by rewrite !app_assoc, last_snoc.
  - intros seconds Hin. rewrite !elem_of_app in Hin.
    destruct Hin as [Hin|[Hin|[Hin|[Hin|Hin]]]];
      try (by eapply not_final_summary in Hin).
    by apply list_elem_of_singleton in Hin.
  - intros seconds Hin. rewrite !elem_of_app in Hin.
    destruct Hin as [Hin|[Hin|[Hin|Hin]]];
      by eapply not_final_summary in Hin.
Qed.

End Summary.

Section Tracking.
Context {W H : Type} (env : Env W H).

Lemma dict_get_set j k v (d : TaskIds) :
  dict_get j (dict_set k v d) = if decide (k = j) then Some v else dict_get j d.
Proof.
  induction d as [|[k' v'] d IH]; simpl.
  - by case_decide.
  - repeat (case_decide; simpl; subst); try done; congruence.
Qed.

Lemma dict_get_elem j v (d : TaskIds) : (j, v) ∈ d -> NoDup d.*1 -> dict_get j d = Some v.
Proof.
  induction d as [|[k' v'] d IH]; simpl; [by intros ?%elem_of_nil|].
  rewrite elem_of_cons, NoDup_cons. intros [[= <- <-]|Hin] [Hk' Hd].
  - by case_decide.
  - case_decide; subst; [|by apply IH].
    destruct Hk'. by apply (list_elem_of_fmap_2 fst) in Hin.
Qed.

Lemma last_started_app index t1 t2 :
  last_started index (t1 ++ t2) =
    match last_started index t2 with
    | Some v => Some v
    | None => last_started index t1
    end.
Proof.
  unfold last_started. rewrite omap_app.
  destruct (omap (started index) t2) as [|v l] using rev_ind.
  - by rewrite app_nil_r.
  - by rewrite app_assoc, !last_snoc.
Qed.

Lemma no_started index t :
  Forall (fun ev => is_started ev = false) t -> last_started index t = None.
Proof.
  unfold last_started. induction 1 as [|ev t Hev _ IH]; [done|].
  simpl. by destruct ev as [| | | | |lvl []].
Qed.

(** What one submission leaves in [task_ids] and in the log. *)
Lemma submit_index_tracks (es_target : H) config index (task_ids : TaskIds) w :
  let r := submit_index env es_target config index task_ids w in
  forall ids',
    outcome r = Ret ids' ->
    forall j,
      dict_get j ids' =
        match last_started j (trace r) with
        | Some v => Some v
        | None => dict_get j task_ids
        end.
Proof.
  cbv zeta. rewrite submit_index_run.
  destruct (target_index config) as [target|]; [|done].
  destruct (es_source_remote config) as [remote|]; [|done].
  cbv zeta.
  destruct (start_reindex_task_keyless env es_target index target remote w)
    as (Hhost & Husername & Hpassword).
  destruct (remote !! "host") as [host|] eqn:Hh;
    [|by rewrite (Hhost eq_refl)].
  destruct (remote !! "username") as [username|] eqn:Hu;
    [|by rewrite (Husername host eq_refl eq_refl)].
  destruct (remote !! "password") as [password|] eqn:Hp;
    [|by rewrite (Hpassword host username eq_refl eq_refl eq_refl)].
  rewrite (start_reindex_task_run env es_target index target remote host
             username password w Hh Hu Hp).
  cbv zeta.
  match goal with |- context [env_reindex env es_target ?b false reindex_params w] =>
    destruct (env_reindex env es_target b false reindex_params w)
      as [[response|e] w1] end;
    [destruct (response !! "task") as [task_id|]|];
    unfold outcome, world, trace, last_started; cbn [fst snd];
    intros ids' [= <-] j; simpl; [|done..].
  destruct (truthy task_id); simpl.
  - rewrite dict_get_set, andb_true_r.
    case_decide; [by rewrite bool_decide_eq_true_2|].
    by rewrite bool_decide_eq_false_2.
  - by rewrite andb_false_r.
Qed.

(** After the submit loop, [task_ids] holds for each collection the last
    task started for it with a truthy identifier. *)
Lemma submit_all_tracks (es_target : H) config indices (task_ids : TaskIds) w :
  let r := submit_all env es_target config indices task_ids w in
  forall ids',
    outcome r = Ret ids' ->
    forall j,
      dict_get j ids' =
        match last_started j (trace r) with
        | Some v => Some v
        | None => dict_get j task_ids
        end.
Proof.
  revert task_ids w. induction indices as [|index rest IH];
    intros task_ids w; cbv zeta.
  { unfold outcome, trace; simpl. by intros ids' [= <-] j. }
  rewrite submit_all_cons, run_bind.
  pose proof (submit_index_tracks es_target config index task_ids w) as Hstep.
  cbv zeta in Hstep.
  destruct (submit_index env es_target config index task_ids w)
    as [[[ids1|e|] w1] t1];
    unfold outcome, world, trace in Hstep |- *;
    cbn [fst snd] in Hstep |- *; [|done..].
  specialize (IH ids1 w1). cbv zeta in IH.
  destruct (submit_all env es_target config rest ids1 w1) as [[o2 w2] t2].
  unfold outcome, world, trace in *. cbn [fst snd] in *.
  intros ids' Hret j.
  rewrite (IH ids' Hret j), last_started_app, (Hstep ids1 eq_refl j).
  by destruct (last_started j t2).
Qed.

Lemma initialize_opensearch_client_not_started config :
  emits (fun ev => is_started ev = false)
    (initialize_opensearch_client env config).
Proof. unfold initialize_opensearch_client. emits. Qed.

Lemma poll_items_not_started (es_target : H) items task_ids :
  emits (fun ev => is_started ev = false)
    (poll_items env es_target items task_ids).
Proof.
  revert task_ids. induction items as [|[index task_id] rest IH];
    intros task_ids; simpl; [emits|].
  apply emits_bind; [|done].
  emits.
Qed.

Lemma poll_loop_not_started fuel (es_target : H) task_ids :
  emits (fun ev => is_started ev = false)
    (poll_loop env fuel es_target task_ids).
Proof.
  revert task_ids. induction fuel as [|fuel IH]; intros [|item task_ids];
    cbn [poll_loop]; [emits..|].
  apply emits_bind; [|apply IH].
  unfold poll_cycle, sleep. apply emits_bind; [|intros _; apply poll_items_not_started].
  intros w. by apply Forall_singleton.
Qed.

(** X14 — the run polls, for each collection, only the last task it
    started for it: every status query of a run is for the task
    identifier of the last started line (with a truthy identifier) of
    some collection.  A task started earlier for a collection listed
    again is never polled under that collection. *)
Theorem only_the_last_started_task_is_polled fuel config_path w :
  let r := migrate_indices env fuel config_path w in
  forall task_id,
    task_id ∈ status_queries (trace r) ->
    exists index, last_started index (trace r) = Some task_id.
Proof.
  cbv zeta. rewrite migrate_indices_run, load_config_run. cbv zeta.
  destruct (env_load env config_path w) as [[config|e] w1];
    unfold outcome, world, trace; cbn [fst snd];
    [|by intros task_id Hin%elem_of_nil].
  pose proof (initialize_opensearch_client_quiet env config w1) as Hquiet.
  pose proof (initialize_opensearch_client_not_started config w1) as Hn2.
  cbv zeta in Hquiet. unfold outcome, trace in Hquiet, Hn2.
  cbn [fst snd] in Hquiet.
  destruct (initialize_opensearch_client env config w1)
    as [[[es_target|e|] w2] t2]; cbn [fst snd] in Hquiet, Hn2 |- *;
    destruct Hquiet as (_ & Hq2 & _).
  2,3: intros task_id;
       rewrite (status_queries_app [_; _]), ?status_queries_app, Hq2;
       by intros Hin%elem_of_nil.
  pose proof (submit_phase_cases env es_target config w2) as Hsubmit.
  assert (Htracks : forall ids',
            outcome (submit_phase env es_target config w2) = Ret ids' ->
            forall j,
              dict_get j ids'
              = last_started j (trace (submit_phase env es_target config w2))).
  { rewrite submit_phase_run.
    destruct (source_indices config) as [indices|]; [|done].
    intros ids' Hret j.
    rewrite (submit_all_tracks es_target config indices [] w2 ids' Hret j).
    by destruct (last_started j _). }
  cbv zeta in Hsubmit. unfold outcome, trace in Hsubmit, Htracks.
  cbn [fst snd] in Hsubmit.
  destruct (submit_phase env es_target config w2) as [[[task_ids|e|] w3] t3];
    cbn [fst snd] in Hsubmit, Htracks |- *;
    destruct Hsubmit as (_ & Hq3 & _ & _ & Hret).
  2,3: intros task_id;
       rewrite (status_queries_app [_; _]), ?status_queries_app, Hq2, Hq3;
       by intros Hin%elem_of_nil.
  destruct (Hret _ eq_refl) as (Hnd & _).
  rewrite poll_phase_run. cbv zeta.
  pose proof (poll_loop_cases env fuel es_target task_ids w3 Hnd) as Hloop.
  pose proof (poll_loop_not_started fuel es_target task_ids w3) as Hn4.
  cbv zeta in Hloop.
  assert (Hlast : forall j tail,
            Forall (fun ev => is_started ev = false) tail ->
            last_started j
              ([EvLoad config_path; EvLog INFO (MsgLoadedConfig config_path)]
                 ++ t2 ++ t3 ++ tail)
            = dict_get j task_ids).
  { intros j tail Htail. rewrite !last_started_app.
    rewrite (no_started j tail Htail), (no_started j t2 Hn2).
    rewrite (Htracks task_ids eq_refl j). by destruct (last_started j t3). }
  assert (Hpolled : forall task_id,
            task_id ∈ task_ids.*2 ->
            exists j, dict_get j task_ids = Some task_id).
  { intros task_id ([j v] & -> & Hin)%list_elem_of_fmap. exists j.
    by apply dict_get_elem. }
  assert (Hnone : forall lvl msg task_id,
            task_id ∉ status_queries [EvLog lvl msg]).
  { intros lvl msg task_id. apply not_elem_of_nil. }
  destruct (poll_loop env fuel es_target task_ids w3) as [[[[]|e|] w4] t4];
    unfold outcome, world, trace in *; cbn [fst snd] in *;
    destruct Hloop as (_ & _ & _ & Hq4 & _); intros task_id;
    rewrite (status_queries_app [_; _]), !status_queries_app, Hq2, Hq3;
    rewrite ?elem_of_app; intros Hin.
  - destruct Hin as [Hin|[Hin|[Hin|[Hin|Hin]]]];
      try (by apply elem_of_nil in Hin); try (by apply Hnone in Hin).
    destruct (Hpolled task_id (Hq4 _ Hin)) as [j Hj].
    exists j. rewrite <- Hj. apply Hlast.
    apply Forall_app. split; [done|]. by apply Forall_singleton.
  - destruct Hin as [Hin|[Hin|[Hin|[Hin|Hin]]]];
      try (by apply elem_of_nil in Hin); try (by apply Hnone in Hin).
    destruct (Hpolled task_id (Hq4 _ Hin)) as [j Hj].
    exists j. rewrite <- Hj. apply Hlast.
    apply Forall_app. split; [done|]. by apply Forall_singleton.
  - destruct Hin as [Hin|[Hin|[Hin|Hin]]];
      try (by apply elem_of_nil in Hin).
    destruct (Hpolled task_id (Hq4 _ Hin)) as [j Hj].
    exists j. rewrite <- Hj. by apply Hlast.
Qed.

End Tracking.

Section Isolation.
Context {W H : Type} (env : Env W H).

Lemma submit_all_app (es_target : H) config l1 l2 (task_ids : TaskIds) w :
  submit_all env es_target config (l1 ++ l2) task_ids w =
    (submit_all env es_target config l1 task_ids
       ≫= submit_all env es_target config l2) w.
Proof.
  revert task_ids w. induction l1 as [|index l1 IH]; intros task_ids w.
  { simpl. rewrite run_bind. unfold mret, M_ret, ret, outcome, world, trace.
    cbn [fst snd].
    by destruct (submit_all env es_target config l2 task_ids w) as [[o w1] t1]. }
  change ((index :: l1) ++ l2) with (index :: (l1 ++ l2)).
  rewrite submit_all_cons, !run_bind, submit_all_cons, run_bind.
  destruct (submit_index env es_target config index task_ids w)
    as [[[ids1|e|] w1] t1]; unfold outcome, world, trace; cbn [fst snd];
    [|done..].
  rewrite IH, run_bind.
  destruct (submit_all env es_target config l1 ids1 w1) as [[[ids2|e|] w2] t2];
    unfold outcome, world, trace; cbn [fst snd]; [|done..].
  by rewrite app_assoc.
Qed.

(** C2 — a submit call that raises, at whatever place of the submit loop:
    the failure is logged and the iteration leaves the active set as it
    was; the loop goes on and issues one call for each of the remaining
    collections; the active set the poll loop starts from holds exactly
    the collections with a started task, each with the task started last
    for it, so the failed collection is not in it unless it is listed
    again; the poll phase does not report it and queries only tasks of
    the active set; with a job in it, the poll loop makes its first
    pass, which queries every job of the set; and the run goes from the
    submissions to the poll phase without a failure line of its own. *)
Theorem submit_failure_is_isolated (es_target : H) config indices target
    remote host username password pre index post w ids_pre w_pre t_pre e
    w_fail :
  config_complete config indices target remote ->
  remote !! "host" = Some host ->
  remote !! "username" = Some username ->
  remote !! "password" = Some password ->
  indices = pre ++ index :: post ->
  submit_all env es_target config pre [] w = (Ret ids_pre, w_pre, t_pre) ->
  let body :=
    {| source_remote_host := host; source_remote_username := username;
       source_remote_password := password; source_index := index;
       dest_index := target |} in
  env_reindex env es_target body false reindex_params w_pre = (Raise e, w_fail) ->
  let failed :=
    [EvLog INFO (MsgAttempt index host target);
     EvReindex body false reindex_params;
     EvLog ERROR (MsgStartFailed index e)] in
  submit_index env es_target config index ids_pre w_pre
  = (Ret ids_pre, w_fail, failed)
  /\ exists task_ids w1 t_post,
       submit_all env es_target config post ids_pre w_fail
       = (Ret task_ids, w1, t_post)
       /\ submit_phase env es_target config w
          = (Ret task_ids, w1, t_pre ++ failed ++ t_post)
       /\ source_index <$> submit_calls t_post = post
       /\ status_queries (t_pre ++ failed ++ t_post) = []
       /\ NoDup task_ids.*1
       /\ (forall j,
             dict_get j task_ids = last_started j (t_pre ++ failed ++ t_post))
       /\ (forall j task_id,
             last_started j (t_pre ++ failed ++ t_post) = Some task_id ->
             (j, task_id) ∈ task_ids)
       /\ (index ∉ pre -> index ∉ post -> index ∉ task_ids.*1)
       /\ (forall fuel start_time w',
             let r := poll_phase env fuel es_target start_time task_ids w' in
             (index ∉ task_ids.*1 -> lifecycle index (trace r) = [])
             /\ (forall task_id, task_id ∈ status_queries (trace r) ->
                   task_id ∈ task_ids.*2)
             /\ (forall e', outcome r = Exc e' -> e' = KeyError "completed"))
       /\ (task_ids <> [] ->
           let p := poll_cycle env es_target task_ids w1 in
           (forall fuel start_time,
              poll_phase env (S fuel) es_target start_time task_ids w1 =
                match outcome p with
                | Ret next =>
                    let r := poll_phase env fuel es_target start_time next
                               (world p) in
                    (outcome r, world r, trace p ++ trace r)
                | Exc e' => (Exc e', world p, trace p)
                | OutOfFuel => (OutOfFuel, world p, trace p)
                end)
           /\ (exists t, trace p = EvSleep 10 :: t)
           /\ (forall next, outcome p = Ret next ->
                 status_queries (trace p) = task_ids.*2)
           /\ (status_contract env -> exists next, outcome p = Ret next))
       /\ forall fuel config_path w0 w0' t_init,
            env_load env config_path w0 = (Ok config, w0') ->
            initialize_opensearch_client env config w0'
            = (Ret es_target, w, t_init) ->
            migrate_indices env fuel config_path w0 =
              let r := poll_phase env fuel es_target (env_now env w0)
                         task_ids w1 in
              let submitted :=
                [EvLoad config_path; EvLog INFO (MsgLoadedConfig config_path)]
                  ++ t_init ++ t_pre ++ failed ++ t_post in
              match outcome r with
              | Ret _ => (Ret tt, world r, submitted ++ trace r)
              | Exc e' =>
                  (Ret tt, world r,
                   submitted ++ trace r ++ [EvLog ERROR (MsgMigrationFailed e')])
              | OutOfFuel => (OutOfFuel, world r, submitted ++ trace r)
              end.
Proof.
  intros Hcomplete Hhost Husername Hpassword -> Hpre body Hcall failed.
  pose proof Hcomplete as (_ & Hindices & Htarget & Hremote & Hh & Hu & Hp).
  assert (Hstep : submit_index env es_target config index ids_pre w_pre
                  = (Ret ids_pre, w_fail, failed)).
  { rewrite (submit_index_complete env es_target config index target remote
               host username password ids_pre w_pre Htarget Hremote Hhost
               Husername Hpassword).
    cbv zeta. fold body. by rewrite Hcall. }
  split; [done|].
  destruct (submit_all_complete env es_target config post target remote
              ids_pre w_fail Htarget Hremote Hh Hu Hp)
    as (task_ids & w1 & t_post & Hpost).
  assert (Hphase : submit_phase env es_target config w
                   = (Ret task_ids, w1, t_pre ++ failed ++ t_post)).
  { rewrite submit_phase_run, Hindices, submit_all_app.
    rewrite (run_bind_ret _ _ _ _ _ _ Hpre), submit_all_cons.
    rewrite (run_bind_ret _ _ _ _ _ _ Hstep), Hpost.
    unfold outcome, world, trace. cbn [fst snd]. done. }
  pose proof (submit_phase_cases env es_target config w) as Hcases.
  pose proof (submit_all_tracks env es_target config (pre ++ index :: post)
                [] w) as Htracks.
  cbv zeta in Hcases, Htracks.
  rewrite submit_phase_run, Hindices in Hphase.
  rewrite Hphase in Htracks.
  rewrite submit_phase_run, Hindices, Hphase in Hcases.
  unfold outcome, trace in Hcases, Htracks. cbn [fst snd] in Hcases, Htracks.
  destruct Hcases as (_ & Hq & _ & _ & Hret).
  destruct (Hret _ eq_refl) as (Hnd & _ & _).
  specialize (Htracks _ eq_refl).
  assert (Hget : forall j,
            dict_get j task_ids = last_started j (t_pre ++ failed ++ t_post)).
  { intros j. rewrite Htracks. by destruct (last_started j _). }
  pose proof (submit_all_cases env es_target config pre [] w) as Hkeys_pre.
  pose proof (submit_all_cases env es_target config post ids_pre w_fail)
    as Hkeys_post.
  cbv zeta in Hkeys_pre, Hkeys_post. rewrite Hpre in Hkeys_pre.
  rewrite Hpost in Hkeys_post.
  unfold outcome, trace in Hkeys_pre, Hkeys_post.
  cbn [fst snd] in Hkeys_pre, Hkeys_post.
  destruct Hkeys_pre as (_ & _ & _ & _ & _ & _ & _ & Hkeys_pre).
  destruct Hkeys_post as (_ & _ & _ & _ & Hsrc & _ & _ & Hkeys_post).
  exists task_ids, w1, t_post. split_and!; try done.
  - by rewrite submit_phase_run, Hindices.
  - intros j task_id Hlast. rewrite <- Hget in Hlast.
    clear -Hlast. induction task_ids as [|[k v] d IH]; simpl in *; [done|].
    case_decide; simplify_eq; [left|right; by apply IH].
  - intros Hout_pre Hout_post [Hin|Hin]%Hkeys_post; [|done].
    apply Hkeys_pre in Hin as [Hin%elem_of_nil|Hin]; done.
  - intros fuel start_time w' r.
    destruct (poll_phase_cases env fuel es_target start_time task_ids w' Hnd)
      as (_ & Hnone & _ & Hqs & Hexc).
    split_and!; [by apply Hnone|done|by intros e' [-> _]%Hexc].
  - intros Hne p.
    pose proof (poll_cycle_cases env es_target task_ids w1 Hnd) as Hpass.
    cbv zeta in Hpass. fold p in Hpass. split_and!.
    + intros fuel start_time. rewrite !poll_phase_run. cbv zeta.
      rewrite (poll_loop_step _ _ _ _ _ Hne), run_bind. fold p.
      destruct p as [[[next|e'|] w2] t2]; unfold outcome, world, trace;
        cbn [fst snd]; [|done..].
      rewrite poll_phase_run. cbv zeta.
      destruct (poll_loop env fuel es_target next w2) as [[[[]|e'|] w3] t3];
        unfold outcome, world, trace; cbn [fst snd]; [|done..].
      by rewrite app_assoc.
    + subst p. rewrite poll_cycle_run. cbv zeta. unfold trace. cbn [snd].
      by eexists.
    + intros next Hret'. rewrite Hret' in Hpass. by destruct Hpass as (_ & _ & _ & ? & _).
    + intros Hcontract.
      destruct (outcome p) as [next|e'|]; [by eexists| |by destruct Hpass as (_ & _ & _ & ?)].
      destruct Hpass as (_ & _ & _ & _ & Hbad & _).
      by apply (contract_not_malformed env) in Hbad.
  - intros fuel config_path w0 w0' t_init Hload Hinit.
    rewrite migrate_indices_run, load_config_run, Hload. cbv zeta.
    unfold outcome, world, trace. cbn [fst snd]. rewrite Hinit.
    cbn [fst snd]. rewrite submit_phase_run, Hindices, Hphase. cbn [fst snd].
    destruct (poll_phase env fuel es_target (env_now env w0) task_ids w1)
      as [[[[]|e'|] w4] t4]; cbn [fst snd]; by rewrite <- ?app_assoc.
Qed.
End Isolation.

Section Clean.
Context {W H : Type} (env : Env W H).

Lemma dict_get_key j v (d : TaskIds) : dict_get j d = Some v -> j ∈ d.*1.
Proof.
  induction d as [|[k' v'] d IH]; simpl; [done|].
  case_decide; subst; [intros _; left|]. intros Hget. right. by apply IH.
Qed.

Lemma poll_items_verdict_level (es_target : H) items task_ids :
  emits (fun ev => verdict_level ev = true)
    (poll_items env es_target items task_ids).
Proof.
  revert task_ids. induction items as [|[index task_id] rest IH];
    intros task_ids; simpl; [emits|].
  apply emits_bind; [|done].
  emits.
Qed.

Lemma poll_loop_verdict_level fuel (es_target : H) task_ids :
  emits (fun ev => verdict_level ev = true)
    (poll_loop env fuel es_target task_ids).
Proof.
  revert task_ids. induction fuel as [|fuel IH]; intros [|item task_ids];
    cbn [poll_loop]; [emits..|].
  apply emits_bind; [|apply IH].
  unfold poll_cycle, sleep.
  apply emits_bind; [|intros _; apply poll_items_verdict_level].
  intros w. by apply Forall_singleton.
Qed.

(** The line behind a verdict in the life of a job. *)
Lemma lifecycle_verdict index t :
  (JComplete ∈ lifecycle index t ->
   exists lvl, EvLog lvl (MsgTaskSucceeded index) ∈ t)
  /\ (JFail ∈ lifecycle index t ->
      exists lvl error, EvLog lvl (MsgTaskFailed index error) ∈ t).
Proof.
  unfold lifecycle. split; intros (ev & Hev & Hjob)%list_elem_of_omap.
  - destruct ev as [| | | | |lvl []]; simpl in Hjob; try done;
      try (by destruct (_ && _)); case_bool_decide; simplify_eq.
    by exists lvl.
  - destruct ev as [| | | | |lvl []]; simpl in Hjob; try done;
      try (by destruct (_ && _)); case_bool_decide; simplify_eq.
    by eexists lvl, _.
Qed.

(** X15 — a log without an ERROR line can be trusted for the jobs the run
    tracked.  If the run returned and logged nothing at ERROR, then the
    configuration loaded, every configured collection was submitted once,
    in order, the run ended on the summary line, and every collection
    with a started task (a truthy identifier) has its success line.  A
    collection whose submission returned a falsy identifier has no job,
    and no line says so. *)
Theorem clean_log_means_every_tracked_job_succeeded fuel config_path w :
  let r := migrate_indices env fuel config_path w in
  outcome r = Ret tt ->
  Forall (fun ev => is_error ev = false) (trace r) ->
  (exists config w1 indices,
     env_load env config_path w = (Ok config, w1)
     /\ source_indices config = Some indices
     /\ source_index <$> submit_calls (trace r) = indices)
  /\ (exists seconds,
        last (trace r) = Some (EvLog INFO (MsgMigrationCompleted seconds)))
  /\ (forall index task_id,
        last_started index (trace r) = Some task_id ->
        EvLog INFO (MsgTaskSucceeded index) ∈ trace r).
Proof.
  cbv zeta.
  destruct (env_load env config_path w) as [[config|e] w1] eqn:Hload.
  2:{ rewrite migrate_indices_run, load_config_run, Hload. cbv zeta.
      unfold outcome, world, trace. cbn [fst snd]. intros _ Hclean.
      rewrite Forall_forall in Hclean.
      by specialize (Hclean (EvLog ERROR (MsgMigrationFailed e))
                       ltac:(set_solver)). }
  pose proof (initialize_opensearch_client_quiet env config w1) as Hquiet.
  pose proof (initialize_opensearch_client_not_started env config w1) as Hn2.
  cbv zeta in Hquiet.
  destruct (initialize_opensearch_client env config w1)
    as [[[es_target|e|] w2] t2] eqn:Hinit;
    unfold outcome, trace in Hquiet, Hn2; cbn [fst snd] in Hquiet, Hn2;
    destruct Hquiet as (Hs2 & _).
  2:{ rewrite migrate_indices_run, load_config_run, Hload. cbv zeta.
      unfold outcome, world, trace. cbn [fst snd]. rewrite Hinit.
      cbn [fst snd]. intros _ Hclean.
      rewrite Forall_forall in Hclean.
      by specialize (Hclean (EvLog ERROR (MsgMigrationFailed e))
                       ltac:(set_solver)). }
  2:{ rewrite migrate_indices_run, load_config_run, Hload. cbv zeta.
      unfold outcome, world, trace. cbn [fst snd]. by rewrite Hinit. }
  rewrite (migrate_indices_past_setup env fuel config_path w config w1
             es_target w2 t2 Hload Hinit).
  cbv zeta.
  pose proof (submit_phase_cases env es_target config w2) as Hsubmit.
  assert (Htracks : forall ids',
            outcome (submit_phase env es_target config w2) = Ret ids' ->
            forall j,
              dict_get j ids'
              = last_started j (trace (submit_phase env es_target config w2))).
  { rewrite submit_phase_run.
    destruct (source_indices config) as [indices|]; [|done].
    intros ids' Hret j.
    rewrite (submit_all_tracks env es_target config indices [] w2 ids' Hret j).
    by destruct (last_started j _). }
  cbv zeta in Hsubmit. unfold outcome, trace in Hsubmit, Htracks.
  cbn [fst snd] in Hsubmit.
  destruct (submit_phase env es_target config w2) as [[[task_ids|e|] w3] t3];
    unfold outcome, world, trace; cbn [fst snd] in Hsubmit, Htracks |- *;
    destruct Hsubmit as (_ & _ & _ & _ & Hret).
  2:{ intros _ Hclean. rewrite Forall_forall in Hclean.
      by specialize (Hclean (EvLog ERROR (MsgMigrationFailed e))
                       ltac:(set_solver)). }
  2:{ done. }
  destruct (Hret _ eq_refl) as (Hnd & Hindices & Hsrc).
  pose proof (poll_loop_cases env fuel es_target task_ids w3 Hnd) as Hloop.
  pose proof (poll_loop_verdicts env fuel es_target task_ids w3 Hnd) as Hverdicts.
  pose proof (poll_loop_not_started env fuel es_target task_ids w3) as Hn4.
  pose proof (poll_loop_verdict_level fuel es_target task_ids w3) as Hl4.
  cbv zeta in Hloop, Hverdicts.
  destruct (poll_loop env fuel es_target task_ids w3) as [[[[]|e|] w4] t4];
    unfold outcome, world, trace in *; cbn [fst snd] in *;
    destruct Hloop as (Hs4 & _).
  2:{ intros _ Hclean. rewrite Forall_forall in Hclean.
      by specialize (Hclean (EvLog ERROR (MsgMigrationFailed e))
                       ltac:(set_solver)). }
  2:{ done. }
  intros _ Hclean. split_and!.
  - exists config, w1, (default [] (source_indices config)).
    split; [done|]. split; [done|].
    rewrite (submit_calls_app [_; _]), !submit_calls_app, Hs2, Hs4.
    cbn [app]. by rewrite app_nil_r.
  - eexists. by rewrite !app_assoc, last_snoc.
  - intros index task_id. rewrite !last_started_app.
    rewrite (no_started index [_]) by (by apply Forall_singleton).
    rewrite (no_started index t4 Hn4), (no_started index t2 Hn2).
    intros Hlast.
    assert (Hkey : index ∈ task_ids.*1).
    { apply (dict_get_key index task_id). rewrite (Htracks _ eq_refl).
      by destruct (last_started index t3). }
    destruct (Hverdicts eq_refl index Hkey) as (n & _ & Hcase).
    rewrite !Forall_app in Hclean. destruct Hclean as (_ & _ & _ & Hc4 & _).
    rewrite Forall_forall in Hc4, Hl4.
    destruct Hcase as [Hlife|Hlife].
    + destruct (proj1 (lifecycle_verdict index t4)) as [lvl Hline].
      { rewrite Hlife. set_solver. }
      specialize (Hl4 _ Hline). destruct lvl; [|done].
      rewrite !elem_of_app. right; right; right; by left.
    + destruct (proj2 (lifecycle_verdict index t4)) as (lvl & error & Hline).
      { rewrite Hlife. set_solver. }
      specialize (Hl4 _ Hline). specialize (Hc4 _ Hline).
      by destruct lvl.
Qed.

End Clean.

Section Credentials.
Context {W H : Type} (env : Env W H).

(** X16 — what a submission logs: the line of the attempt, with the
    source, the host of the remote and the destination, and one line for
    the answer of the client, with the task identifier it returned or the
    exception it raised.  The script interpolates neither the username nor
    the password: they go into the body of the call, and the log depends
    on them only through the answer of the client.  Two submissions that
    differ only in these credentials, and to which the client gives the
    same answer, log the same lines. *)
Theorem credentials_reach_the_log_only_through_the_answer (es_target : H)
    source target remote remote' host username password username' password'
    w :
  remote !! "host" = Some host ->
  remote !! "username" = Some username ->
  remote !! "password" = Some password ->
  remote' !! "host" = Some host ->
  remote' !! "username" = Some username' ->
  remote' !! "password" = Some password' ->
  let body u p :=
    {| source_remote_host := host; source_remote_username := u;
       source_remote_password := p; source_index := source;
       dest_index := target |} in
  let answer u p :=
    (env_reindex env es_target (body u p) false reindex_params w).1 in
  log_lines (trace (start_reindex_task env es_target source target remote w))
  = [(INFO, MsgAttempt source host target);
     match answer username password with
     | Ok response =>
         match response !! "task" with
         | Some task_id => (INFO, MsgStarted source target task_id)
         | None => (ERROR, MsgStartFailed source (KeyError "task"))
         end
     | Raise e => (ERROR, MsgStartFailed source e)
     end]
  /\ (answer username password = answer username' password' ->
      log_lines (trace (start_reindex_task env es_target source target
                          remote w))
      = log_lines (trace (start_reindex_task env es_target source target
                            remote' w))).
Proof.
  intros Hh Hu Hp Hh' Hu' Hp' body answer. subst answer. cbv beta.
  rewrite (start_reindex_task_run env es_target source target remote host
             username password w Hh Hu Hp).
  rewrite (start_reindex_task_run env es_target source target remote' host
             username' password' w Hh' Hu' Hp').
  cbv zeta. fold (body username password) (body username' password').
  destruct (env_reindex env es_target (body username password) false
              reindex_params w) as [[response|e] w1];
    destruct (env_reindex env es_target (body username' password') false
                reindex_params w) as [[response'|e'] w1'];
    cbn [fst]; (split; [by try destruct (response !! "task")|]);
    intros [= <-]; [|done].
  by destruct (response !! "task").
Qed.

End Credentials.

(** ** The claims on the scenarios *)


Lemma poll_step_by_status_witness :
  poll_job (scripted archive_script) tt ("logs-2023", PyStr "task-1")
    archive_jobs {| sim_clock := 10; sim_submitted := 2 |}
  = (Ret archive_jobs, {| sim_clock := 10; sim_submitted := 2 |},
     [EvTasksGet (PyStr "task-1");
      EvLog INFO (MsgChecked (PyStr "task-1") false)]
     ++ [EvLog INFO (MsgInProgress "logs-2023")]).
Proof.
  assert (Hnd : NoDup archive_jobs.*1) by (by apply (bool_decide_unpack _)).
  assert (Hin : "logs-2023" ∈ archive_jobs.*1) by (by apply (bool_decide_unpack _)).
  assert (Hcheck : check_task_status (scripted archive_script) tt (PyStr "task-1")
                     {| sim_clock := 10; sim_submitted := 2 |}
                   = (Ret in_progress, {| sim_clock := 10; sim_submitted := 2 |},
                      [EvTasksGet (PyStr "task-1");
                       EvLog INFO (MsgChecked (PyStr "task-1") false)]))
    by (by vm_compute).
  exact (proj1 (poll_step_by_status (scripted archive_script) tt "logs-2023"
                  (PyStr "task-1") archive_jobs
                  {| sim_clock := 10; sim_submitted := 2 |}
                  in_progress {| sim_clock := 10; sim_submitted := 2 |}
                  _ (PyBool false) Hnd Hin Hcheck eq_refl)).
Defined.


Lemma submit_failure_is_isolated_witness :
  let t_pre :=
    [EvLog INFO (MsgAttempt "logs-2022" "https://source:9200" "logs-archive");
     EvReindex
       {| source_remote_host := "https://source:9200";
          source_remote_username := "elastic";
          source_remote_password := "secret";
          source_index := "logs-2022";
          dest_index := "logs-archive" |} false reindex_params;
     EvLog INFO (MsgStarted "logs-2022" "logs-archive" (PyStr "task-1"))] in
  let failed :=
    [EvLog INFO (MsgAttempt "logs-2023" "https://source:9200" "logs-archive");
     EvReindex
       {| source_remote_host := "https://source:9200";
          source_remote_username := "elastic";
          source_remote_password := "secret";
          source_index := "logs-2023";
          dest_index := "logs-archive" |} false reindex_params;
     EvLog ERROR (MsgStartFailed "logs-2023" (ClientError "connection reset"))] in
  exists task_ids w1 t_post,
    submit_phase (scripted transport_error_script) tt three_config sim_start
    = (Ret task_ids, w1, t_pre ++ failed ++ t_post)
    /\ source_index <$> submit_calls t_post = ["logs-2024"]
    /\ ("logs-2023" ∉ task_ids.*1)
    /\ (task_ids <> [] ->
        exists t, trace (poll_cycle (scripted transport_error_script) tt
                           task_ids w1) = EvSleep 10 :: t).
Proof.
  intros t_pre failed.
  assert (Hcomplete : config_complete three_config
                        ["logs-2022"; "logs-2023"; "logs-2024"]
                        "logs-archive" archive_remote)
    by (repeat split; by eexists).
  assert (Hpre : submit_all (scripted transport_error_script) tt three_config
                   ["logs-2022"] [] sim_start
                 = (Ret [("logs-2022", PyStr "task-1")],
                    {| sim_clock := 0; sim_submitted := 1 |}, t_pre))
    by (by vm_compute).
  assert (Hout_pre : "logs-2023" ∉ ["logs-2022"])
    by (by apply (bool_decide_unpack _)).
  assert (Hout_post : "logs-2023" ∉ ["logs-2024"])
    by (by apply (bool_decide_unpack _)).
  destruct (submit_failure_is_isolated (scripted transport_error_script) tt
              three_config ["logs-2022"; "logs-2023"; "logs-2024"]
              "logs-archive" archive_remote "https://source:9200" "elastic"
              "secret" ["logs-2022"] "logs-2023" ["logs-2024"] sim_start
              [("logs-2022", PyStr "task-1")]
              {| sim_clock := 0; sim_submitted := 1 |} t_pre
              (ClientError "connection reset")
              {| sim_clock := 0; sim_submitted := 2 |}
              Hcomplete eq_refl eq_refl eq_refl eq_refl Hpre eq_refl)
    as (_ & task_ids & w1 & t_post & _ & Hphase & Hcalls & _ & _ & _ & _
        & Hout & _ & Hpoll & _).
  exists task_ids, w1, t_post. split_and!; [done|done|by apply Hout|].
  intros Hne. by destruct (Hpoll Hne) as (_ & Hsleep & _).
Defined.

Lemma active_set_has_one_job_per_collection_witness :
  exists task_ids w1 t1,
    submit_phase (scripted archive_script) tt archive_config sim_start
      = (Ret task_ids, w1, t1)
    /\ task_ids.*1 = ["logs-2023"; "logs-2024"]
    /\ length task_ids = 2%nat.
Proof.
  assert (Hnd : NoDup ["logs-2023"; "logs-2024"])
    by (by apply (bool_decide_unpack _)).
  assert (Hcomplete : config_complete archive_config ["logs-2023"; "logs-2024"]
                        "logs-archive" archive_remote)
    by (repeat split; by eexists).
  assert (Hsucceeds : submit_succeeds (scripted archive_script)).
  { intros [] body w. simpl.
    destruct (sim_submitted w) as [|[|n]]; by eexists _, _, _. }
  exact (active_set_has_one_job_per_collection (scripted archive_script) tt
           archive_config _ _ _ sim_start Hcomplete Hnd Hsucceeds).
Defined.

(** C6, as stated, fails twice over: a collection listed twice is submitted
    twice, and both calls return, yet the active set holds one job; a call
    that returns an empty identifier succeeds, yet leaves no job. *)
Lemma active_set_size_counterexample :
  (source_indices twice_config = Some ["logs-2023"; "logs-2023"]
   /\ log_lines (trace (submit_phase (scripted twice_script) tt twice_config sim_start))
      = [(INFO, MsgAttempt "logs-2023" "https://source:9200" "logs-archive");
         (INFO, MsgStarted "logs-2023" "logs-archive" (PyStr "task-1"));
         (INFO, MsgAttempt "logs-2023" "https://source:9200" "logs-archive");
         (INFO, MsgStarted "logs-2023" "logs-archive" (PyStr "task-2"))]
   /\ outcome (submit_phase (scripted twice_script) tt twice_config sim_start)
      = Ret [("logs-2023", PyStr "task-2")])
  /\ (source_indices three_config = Some ["logs-2022"; "logs-2023"; "logs-2024"]
      /\ log_lines (trace (submit_phase (scripted empty_task_script) tt three_config sim_start))
         = [(INFO, MsgAttempt "logs-2022" "https://source:9200" "logs-archive");
            (INFO, MsgStarted "logs-2022" "logs-archive" (PyStr "task-1"));
            (INFO, MsgAttempt "logs-2023" "https://source:9200" "logs-archive");
            (INFO, MsgStarted "logs-2023" "logs-archive" (PyStr EmptyString));
            (INFO, MsgAttempt "logs-2024" "https://source:9200" "logs-archive");
            (INFO, MsgStarted "logs-2024" "logs-archive" (PyStr "task-3"))]
      /\ outcome (submit_phase (scripted empty_task_script) tt three_config sim_start)
         = Ret [("logs-2022", PyStr "task-1"); ("logs-2024", PyStr "task-3")])
  /\ length [("logs-2023", PyStr "task-2")]
     <> length ["logs-2023"; "logs-2023"]
  /\ length [("logs-2022", PyStr "task-1"); ("logs-2024", PyStr "task-3")]
     <> length ["logs-2022"; "logs-2023"; "logs-2024"].
Proof. by vm_compute. Qed.

Lemma falsy_job_id_is_excluded_witness :
  exists task_ids w1 t1,
    submit_phase (scripted empty_task_script) tt three_config sim_start
      = (Ret task_ids, w1, t1)
    /\ ("logs-2023" ∉ task_ids.*1).
Proof.
  assert (Hin : "logs-2023" ∈ ["logs-2022"; "logs-2023"; "logs-2024"])
    by (by apply (bool_decide_unpack _)).
  assert (Hcomplete : config_complete three_config
                        ["logs-2022"; "logs-2023"; "logs-2024"]
                        "logs-archive" archive_remote)
    by (repeat split; by eexists).
  assert (Hfalsy : submit_falsy (scripted empty_task_script) "logs-2023").
  { intros [] body w Hsource. simpl. rewrite Hsource. by eexists _, _, _. }
  destruct (falsy_job_id_is_excluded (scripted empty_task_script) tt
              three_config _ _ _ "logs-2023" sim_start Hcomplete Hin Hfalsy)
    as (_ & _ & _ & task_ids & w1 & t1 & Hrun & _ & Hout & _).
  by exists task_ids, w1, t1.
Defined.

Lemma poll_loop_cycle_count_witness :
  exists t w',
    poll_phase (scripted archive_script) 2 tt 0 archive_jobs
      {| sim_clock := 0; sim_submitted := 2 |}
    = (Ret tt, w', t ++ [EvLog INFO (MsgMigrationCompleted (sim_clock w' - 0))])
    /\ cycles_of t = 2%nat
    /\ sim_clock w' - 0 = 20
    /\ 2 = ceil_div (sim_clock w' - 0) 10.
Proof.
  assert (Hnd : NoDup archive_jobs.*1) by (by apply (bool_decide_unpack _)).
  assert (Hdone : forall index task_id, (index, task_id) ∈ archive_jobs ->
                    completes_at archive_script 0 task_id 2).
  { intros index task_id Hin. split; [lia|]. split.
    - apply elem_of_cons in Hin as [[= -> ->]|Hin];
        [by exists completed_ok, (PyBool true)|].
      apply list_elem_of_singleton in Hin as [= -> ->].
      by exists (completed_with "mapping conflict"), (PyBool true).
    - intros m Hm. assert (m = 1%nat) as -> by lia.
      by exists in_progress, (PyBool false). }
  exact (poll_loop_cycle_count archive_script eq_refl archive_jobs (fun _ => 2%nat)
           {| sim_clock := 0; sim_submitted := 2 |} 0 Hnd Hdone 2%nat (le_n 2)).
Defined.

(** C4, as stated, fails as soon as the client takes time: here every
    query returns, the job is seen completed by the second query, issued at
    time 21 and answered at time 22; the loop ran 2 passes, and
    ceil (21 / 10) = ceil (22 / 10) = 3. *)
Lemma poll_loop_cycle_count_counterexample :
  let r := poll_phase (scripted slow_script) 5 tt 0
             [("logs-2023", PyStr "task-1")] sim_start in
  outcome r = Ret tt
  /\ log_lines (trace r)
     = [(INFO, MsgChecked (PyStr "task-1") false);
        (INFO, MsgInProgress "logs-2023");
        (INFO, MsgChecked (PyStr "task-1") true);
        (INFO, MsgTaskSucceeded "logs-2023");
        (INFO, MsgMigrationCompleted 22)]
  /\ cycles_of (trace r) = 2%nat
  /\ sim_clock (world r) = 22
  /\ ceil_div 21 10 = 3 /\ ceil_div 22 10 = 3
  /\ Z.of_nat (cycles_of (trace r)) <> ceil_div (sim_clock (world r) - 0) 10.
Proof. by vm_compute. Qed.

Lemma job_states_only_advance_witness :
  is_Some (job_run Pending
    (lifecycle "logs-2024"
       (trace (migrate_indices (scripted archive_script) 5 "config.yaml" sim_start)))).
Proof.
  assert (Hdistinct : forall config w1 indices,
            env_load (scripted archive_script) "config.yaml" sim_start
              = (Ok config, w1) ->
            source_indices config = Some indices -> NoDup indices).
  { intros config w1 indices [= <- <-] [= <-].
    by apply (bool_decide_unpack _). }
  exact (proj1 (job_states_only_advance (scripted archive_script) 5 "config.yaml"
                  sim_start Hdistinct) "logs-2024").
Defined.

(** C5, as stated, fails when a source collection is listed twice: both
    submissions are recorded under the one key, so two task identifiers are
    recorded for the collection, the second over the first; the first
    task is never queried and no outcome is ever logged for it. *)
Lemma job_states_only_advance_counterexample :
  let r := migrate_indices (scripted twice_script) 5 "config.yaml" sim_start in
  outcome r = Ret tt
  /\ log_lines (trace r)
     = [(INFO, MsgLoadedConfig "config.yaml");
        (INFO, MsgClientInitialized (PyStr "https://target:9200"));
        (INFO, MsgAttempt "logs-2023" "https://source:9200" "logs-archive");
        (INFO, MsgStarted "logs-2023" "logs-archive" (PyStr "task-1"));
        (INFO, MsgAttempt "logs-2023" "https://source:9200" "logs-archive");
        (INFO, MsgStarted "logs-2023" "logs-archive" (PyStr "task-2"));
        (INFO, MsgChecked (PyStr "task-2") true);
        (INFO, MsgTaskSucceeded "logs-2023");
        (INFO, MsgMigrationCompleted 10)]
  /\ status_queries (trace r) = [PyStr "task-2"]
  /\ lifecycle "logs-2023" (trace r) = [JSubmit; JSubmit; JComplete]
  /\ job_run Pending (lifecycle "logs-2023" (trace r)) = None.
Proof. by vm_compute. Qed.

Lemma only_setup_errors_halt_the_run_witness :
  migrate_indices (scripted missing_file_script) 5 "missing.yaml" sim_start
  = (Ret tt, sim_start,
     [EvLoad "missing.yaml";
      EvLog ERROR (MsgLoadFailed "missing.yaml"
                     (ClientError "No such file or directory"));
      EvLog ERROR (MsgMigrationFailed (ClientError "No such file or directory"))]).
Proof.
  exact (proj1 (proj2 (only_setup_errors_halt_the_run (scripted missing_file_script)
                         5 "missing.yaml" sim_start))
           (ClientError "No such file or directory") sim_start eq_refl).
Defined.

(** C7, as stated, fails on a status response without a ['completed']
    entry: the configuration loaded and the client was built, both jobs
    were submitted and polled, and the run still ends on the failure line,
    halted by the [KeyError] of the second pass.  It fails as well on a
    configuration that loads but lacks a key: the run is halted by the
    [KeyError] of the first iteration of the submit loop. *)
Lemma only_setup_errors_halt_the_run_counterexample :
  let r := migrate_indices (scripted malformed_script) 5 "config.yaml" sim_start in
  let r' := migrate_indices (scripted keyless_script) 5 "config.yaml" sim_start in
  (env_load (scripted malformed_script) "config.yaml" sim_start
     = (Ok archive_config, sim_start)
   /\ outcome (initialize_opensearch_client (scripted malformed_script)
                archive_config sim_start) = Ret tt
   /\ outcome r = Ret tt
   /\ log_lines (trace r)
      = [(INFO, MsgLoadedConfig "config.yaml");
         (INFO, MsgClientInitialized (PyStr "https://target:9200"));
         (INFO, MsgAttempt "logs-2023" "https://source:9200" "logs-archive");
         (INFO, MsgStarted "logs-2023" "logs-archive" (PyStr "task-1"));
         (INFO, MsgAttempt "logs-2024" "https://source:9200" "logs-archive");
         (INFO, MsgStarted "logs-2024" "logs-archive" (PyStr "task-2"));
         (INFO, MsgChecked (PyStr "task-1") false);
         (INFO, MsgInProgress "logs-2023");
         (INFO, MsgChecked (PyStr "task-2") false);
         (INFO, MsgInProgress "logs-2024");
         (INFO, MsgChecked (PyStr "task-1") true);
         (INFO, MsgTaskSucceeded "logs-2023");
         (INFO, MsgChecked (PyStr "task-2") false);
         (ERROR, MsgMigrationFailed (KeyError "completed"))]
   /\ List.filter is_summary (trace r) = [])
  /\ (env_load (scripted keyless_script) "config.yaml" sim_start
        = (Ok keyless_config, sim_start)
      /\ outcome (initialize_opensearch_client (scripted keyless_script)
                   keyless_config sim_start) = Ret tt
      /\ outcome r' = Ret tt
      /\ log_lines (trace r')
         = [(INFO, MsgLoadedConfig "config.yaml");
            (INFO, MsgClientInitialized (PyStr "https://target:9200"));
            (ERROR, MsgMigrationFailed (KeyError "target_index"))]
      /\ List.filter is_summary (trace r') = []).
Proof. by vm_compute. Qed.

Lemma submit_calls_follow_configuration_witness :
  start_reindex_task (scripted archive_script) tt "logs-2023" "logs-archive"
    archive_remote sim_start
  = (Ret (PyStr "task-1"), {| sim_clock := 0; sim_submitted := 1 |},
     [EvLog INFO (MsgAttempt "logs-2023" "https://source:9200" "logs-archive");
      EvReindex
        {| source_remote_host := "https://source:9200";
           source_remote_username := "elastic";
           source_remote_password := "secret";
           source_index := "logs-2023";
           dest_index := "logs-archive" |} false reindex_params;
      EvLog INFO (MsgStarted "logs-2023" "logs-archive" (PyStr "task-1"))]).
Proof.
  exact (proj2 (proj2 (submit_calls_follow_configuration (scripted archive_script)
                         5 "config.yaml" sim_start))
           tt "logs-2023" "logs-archive" archive_remote "https://source:9200"
           "elastic" "secret" sim_start (nth_task 0)
           {| sim_clock := 0; sim_submitted := 1 |} (PyStr "task-1")
           eq_refl eq_refl eq_refl eq_refl eq_refl).
Defined.

Lemma missing_completed_aborts_run_witness :
  poll_job (scripted malformed_script) tt ("logs-2024", PyStr "task-2")
    [("logs-2024", PyStr "task-2")] {| sim_clock := 20; sim_submitted := 2 |}
  = (Exc (KeyError "completed"), {| sim_clock := 20; sim_submitted := 2 |},
     [EvTasksGet (PyStr "task-2"); EvLog INFO (MsgChecked (PyStr "task-2") false)]).
Proof.
  exact (proj1 (proj2 (missing_completed_aborts_run (scripted malformed_script)))
           tt "logs-2024" (PyStr "task-2") [("logs-2024", PyStr "task-2")]
           {| sim_clock := 20; sim_submitted := 2 |}
           {[ "error" := PyStr "mapping conflict" ]}
           {| sim_clock := 20; sim_submitted := 2 |} eq_refl eq_refl).
Defined.

(** The run of the malformed scenario, end to end: the exception of the
    second pass reaches the handler of [migrate_indices]. *)
Example missing_completed_run :
  let r := migrate_indices (scripted malformed_script) 5 "config.yaml" sim_start in
  outcome r = Ret tt
  /\ last (trace r) = Some (EvLog ERROR (MsgMigrationFailed (KeyError "completed")))
  /\ List.filter is_summary (trace r) = []
  /\ cycles_of (trace r) = 2%nat.
Proof. by vm_compute. Qed.

(** The two-collection scenario, end to end: active set empty after the
    second pass, one success, one failure, and the summary line after two
    intervals. *)
Example archive_run :
  let r := migrate_indices (scripted archive_script) 5 "config.yaml" sim_start in
  outcome r = Ret tt
  /\ log_lines (trace r)
     = [(INFO, MsgLoadedConfig "config.yaml");
        (INFO, MsgClientInitialized (PyStr "https://target:9200"));
        (INFO, MsgAttempt "logs-2023" "https://source:9200" "logs-archive");
        (INFO, MsgStarted "logs-2023" "logs-archive" (PyStr "task-1"));
        (INFO, MsgAttempt "logs-2024" "https://source:9200" "logs-archive");
        (INFO, MsgStarted "logs-2024" "logs-archive" (PyStr "task-2"));
        (INFO, MsgChecked (PyStr "task-1") false);
        (INFO, MsgInProgress "logs-2023");
        (INFO, MsgChecked (PyStr "task-2") false);
        (INFO, MsgInProgress "logs-2024");
        (INFO, MsgChecked (PyStr "task-1") true);
        (INFO, MsgTaskSucceeded "logs-2023");
        (INFO, MsgChecked (PyStr "task-2") true);
        (ERROR, MsgTaskFailed "logs-2024" (PyStr "mapping conflict"));
        (INFO, MsgMigrationCompleted 20)]
  /\ cycles_of (trace r) = 2%nat.
Proof. by vm_compute. Qed.

(** ** The further properties on the scenarios *)

Lemma load_config_reraises_witness :
  outcome (load_config (scripted missing_file_script) "missing.yaml" sim_start)
  = Exc (ClientError "No such file or directory").
Proof.
  exact (proj2 (proj1 (proj2 (proj2 (load_config_reraises
                                       (scripted missing_file_script)
                                       "missing.yaml" sim_start)))
                  (ClientError "No such file or directory"))
           eq_refl).
Defined.

Lemma client_needs_hosts_entry_witness :
  initialize_opensearch_client (scripted archive_script) hostless_config sim_start
  = (Exc (KeyError "hosts"), sim_start,
     [EvInit {[ "timeout" := PyInt 30 ]};
      EvLog ERROR (MsgClientInitFailed (KeyError "hosts"))]).
Proof.
  assert (Hhosts : ({[ "timeout" := PyInt 30 ]} : Dict) !! "hosts" = None)
    by (by vm_compute).
  exact (proj1 (proj2 (client_needs_hosts_entry (scripted archive_script)
                         hostless_config sim_start))
           {[ "timeout" := PyInt 30 ]} tt sim_start eq_refl eq_refl Hhosts).
Defined.

Lemma response_without_task_is_a_failed_submission_witness :
  submit_index (scripted taskless_script) tt archive_config "logs-2023"
    archive_jobs sim_start
  = (Ret archive_jobs, {| sim_clock := 0; sim_submitted := 1 |},
     [EvLog INFO (MsgAttempt "logs-2023" "https://source:9200" "logs-archive");
      EvReindex
        {| source_remote_host := "https://source:9200";
           source_remote_username := "elastic";
           source_remote_password := "secret";
           source_index := "logs-2023";
           dest_index := "logs-archive" |} false reindex_params;
      EvLog ERROR (MsgStartFailed "logs-2023" (KeyError "task"))]).
Proof.
  assert (Htask : ({[ "acknowledged" := PyBool true ]} : Dict) !! "task" = None)
    by (by vm_compute).
  exact (proj2 (response_without_task_is_a_failed_submission
                  (scripted taskless_script) tt archive_config "logs-2023"
                  "logs-archive" archive_remote "https://source:9200"
                  "elastic" "secret" archive_jobs sim_start
                  {[ "acknowledged" := PyBool true ]}
                  {| sim_clock := 0; sim_submitted := 1 |}
                  eq_refl eq_refl eq_refl eq_refl eq_refl eq_refl Htask)).
Defined.

Lemma missing_key_halts_before_any_submission_witness :
  let r := migrate_indices (scripted passwordless_script) 5 "config.yaml"
             sim_start in
  r = (Ret tt, sim_start,
       [EvLoad "config.yaml"; EvLog INFO (MsgLoadedConfig "config.yaml")]
         ++ [EvInit {[ "hosts" := PyStr "https://target:9200" ]};
             EvLog INFO (MsgClientInitialized (PyStr "https://target:9200"))]
         ++ [EvLog INFO (MsgAttempt "logs-2023" "https://source:9200"
                           "logs-archive")]
         ++ [EvLog ERROR (MsgMigrationFailed (KeyError "password"))])
  /\ submit_calls (trace r) = [].
Proof.
  assert (Hinit : initialize_opensearch_client (scripted passwordless_script)
                    passwordless_config sim_start
                  = (Ret tt, sim_start,
                     [EvInit {[ "hosts" := PyStr "https://target:9200" ]};
                      EvLog INFO (MsgClientInitialized
                                    (PyStr "https://target:9200"))]))
    by (by vm_compute).
  exact (missing_key_halts_before_any_submission (scripted passwordless_script)
           5 "config.yaml" sim_start passwordless_config sim_start tt
           sim_start _ eq_refl Hinit).
Defined.

Lemma empty_source_list_completes_at_once_witness :
  migrate_indices (scripted idle_script) 0 "config.yaml" sim_start
  = (Ret tt, sim_start,
     [EvLoad "config.yaml"; EvLog INFO (MsgLoadedConfig "config.yaml")]
       ++ [EvInit {[ "hosts" := PyStr "https://target:9200" ]};
           EvLog INFO (MsgClientInitialized (PyStr "https://target:9200"))]
       ++ [EvLog INFO (MsgMigrationCompleted 0)]).
Proof.
  assert (Hinit : initialize_opensearch_client (scripted idle_script)
                    idle_config sim_start
                  = (Ret tt, sim_start,
                     [EvInit {[ "hosts" := PyStr "https://target:9200" ]};
                      EvLog INFO (MsgClientInitialized
                                    (PyStr "https://target:9200"))]))
    by (by vm_compute).
  exact (proj1 (empty_source_list_completes_at_once (scripted idle_script)
                  0 "config.yaml" sim_start idle_config sim_start tt
                  sim_start _ eq_refl Hinit eq_refl)).
Defined.

Lemma run_without_jobs_still_completes_witness :
  let r := migrate_indices (scripted refusing_script) 5 "config.yaml"
             sim_start in
  exists w3 t3,
    r = (Ret tt, w3,
         [EvLoad "config.yaml"; EvLog INFO (MsgLoadedConfig "config.yaml")]
           ++ [EvInit {[ "hosts" := PyStr "https://target:9200" ]};
               EvLog INFO (MsgClientInitialized (PyStr "https://target:9200"))]
           ++ t3
           ++ [EvLog INFO (MsgMigrationCompleted
                             (sim_clock w3 - sim_clock sim_start))])
    /\ source_index <$> submit_calls t3 = ["logs-2023"; "logs-2024"]
    /\ status_queries (trace r) = []
    /\ cycles_of (trace r) = 0%nat.
Proof.
  assert (Hinit : initialize_opensearch_client (scripted refusing_script)
                    archive_config sim_start
                  = (Ret tt, sim_start,
                     [EvInit {[ "hosts" := PyStr "https://target:9200" ]};
                      EvLog INFO (MsgClientInitialized
                                    (PyStr "https://target:9200"))]))
    by (by vm_compute).
  assert (Hcomplete : config_complete archive_config ["logs-2023"; "logs-2024"]
                        "logs-archive" archive_remote)
    by (repeat split; by eexists).
  assert (Hbad : forall index, index ∈ ["logs-2023"; "logs-2024"] ->
            submit_fails (scripted refusing_script) index
            \/ submit_falsy (scripted refusing_script) index).
  { intros index _. left. intros [] body w _. by eexists _, _. }
  exact (run_without_jobs_still_completes (scripted refusing_script) 5
           "config.yaml" sim_start archive_config sim_start tt sim_start _
           _ _ _ eq_refl Hinit Hcomplete Hbad).
Defined.

Lemma poll_loop_waits_for_a_job_in_progress_witness :
  let r := poll_loop (scripted stuck_script) 7 tt archive_jobs sim_start in
  outcome r = OutOfFuel /\ cycles_of (trace r) = 7%nat.
Proof.
  assert (Hnd : NoDup archive_jobs.*1) by (by apply (bool_decide_unpack _)).
  assert (Hin : ("logs-2024", PyStr "task-2") ∈ archive_jobs)
    by (right; left).
  assert (Hstuck : always_in_progress (scripted stuck_script) (PyStr "task-2")).
  { intros [] w. by exists in_progress, (PyBool false), (sim_advance 0 w). }
  assert (Hcontract : status_contract (scripted stuck_script)).
  { intros [] task_id w status w'. simpl.
    case_decide; intros [= <- _]; by eexists. }
  exact (proj2 (proj2 (poll_loop_waits_for_a_job_in_progress
                         (scripted stuck_script) tt "logs-2024"
                         (PyStr "task-2") archive_jobs Hnd Hin Hstuck))
           Hcontract 7%nat sim_start).
Defined.

Lemma summary_follows_a_verdict_for_every_job_witness :
  let r := poll_phase (scripted archive_script) 5 tt 0 archive_jobs sim_start in
  exists n,
    (n < cycles_of (trace r))%nat
    /\ (lifecycle "logs-2024" (trace r) = replicate n JProgress ++ [JComplete]
        \/ lifecycle "logs-2024" (trace r) = replicate n JProgress ++ [JFail]).
Proof.
  assert (Hnd : NoDup archive_jobs.*1) by (by apply (bool_decide_unpack _)).
  assert (Hin : "logs-2024" ∈ archive_jobs.*1)
    by (by apply (bool_decide_unpack _)).
  assert (Hret : outcome (poll_phase (scripted archive_script) 5 tt 0
                            archive_jobs sim_start) = Ret tt)
    by (by vm_compute).
  exact (proj2 (summary_follows_a_verdict_for_every_job
                  (scripted archive_script) 5 tt 0 archive_jobs sim_start
                  Hnd Hret)
           "logs-2024" Hin).
Defined.

Lemma summary_duration_covers_the_sleeps_witness :
  let r := migrate_indices (scripted slow_script) 5 "config.yaml" sim_start in
  26 = sim_clock (world r) - sim_clock sim_start
  /\ 10 * Z.of_nat (cycles_of (trace r)) <= 26
  /\ last (trace r) = Some (EvLog INFO (MsgMigrationCompleted 26)).
Proof.
  assert (Hclock : steady_clock (scripted slow_script)).
  { unfold steady_clock. simpl. split_and!; intros; lia. }
  assert (Hin : EvLog INFO (MsgMigrationCompleted 26)
                  ∈ trace (migrate_indices (scripted slow_script) 5
                             "config.yaml" sim_start)).
  { apply (list_elem_of_lookup_2 _ 24%nat). by vm_compute. }
  exact (summary_duration_covers_the_sleeps (scripted slow_script) 5
           "config.yaml" sim_start Hclock 26 Hin).
Defined.

Lemma only_the_last_started_task_is_polled_witness :
  exists index,
    last_started index
      (trace (migrate_indices (scripted twice_script) 5 "config.yaml" sim_start))
    = Some (PyStr "task-2").
Proof.
  assert (Hin : PyStr "task-2"
                  ∈ status_queries
                      (trace (migrate_indices (scripted twice_script) 5
                                "config.yaml" sim_start))).
  { apply (list_elem_of_lookup_2 _ 0%nat). by vm_compute. }
  exact (only_the_last_started_task_is_polled (scripted twice_script) 5
           "config.yaml" sim_start (PyStr "task-2") Hin).
Defined.

Lemma only_missing_keys_halt_a_run_past_setup_witness :
  let r := migrate_indices (scripted malformed_script) 5 "config.yaml"
             sim_start in
  (exists key, KeyError "completed" = KeyError key /\ key ∈ halting_keys)
  /\ last (trace r) = Some (EvLog ERROR (MsgMigrationFailed (KeyError "completed")))
  /\ (cycles_of (trace r) <> 0%nat ->
      KeyError "completed" = KeyError "completed"
      /\ malformed_status (scripted malformed_script) tt).
Proof.
  assert (Hinit : initialize_opensearch_client (scripted malformed_script)
                    archive_config sim_start
                  = (Ret tt, sim_start,
                     [EvInit {[ "hosts" := PyStr "https://target:9200" ]};
                      EvLog INFO (MsgClientInitialized
                                    (PyStr "https://target:9200"))]))
    by (by vm_compute).
  assert (Hin : EvLog ERROR (MsgMigrationFailed (KeyError "completed"))
                  ∈ trace (migrate_indices (scripted malformed_script) 5
                             "config.yaml" sim_start)).
  { apply (list_elem_of_lookup_2 _ 23%nat). by vm_compute. }
  exact (only_missing_keys_halt_a_run_past_setup (scripted malformed_script) 5
           "config.yaml" sim_start archive_config sim_start tt sim_start _
           eq_refl Hinit (KeyError "completed") Hin).
Defined.

Lemma clean_log_means_every_tracked_job_succeeded_witness :
  let r := migrate_indices (scripted twice_script) 5 "config.yaml" sim_start in
  EvLog INFO (MsgTaskSucceeded "logs-2023") ∈ trace r.
Proof.
  assert (Hret : outcome (migrate_indices (scripted twice_script) 5
                            "config.yaml" sim_start) = Ret tt)
    by (by vm_compute).
  assert (Hclean : Forall (fun ev => is_error ev = false)
                     (trace (migrate_indices (scripted twice_script) 5
                               "config.yaml" sim_start)))
    by (by apply (bool_decide_unpack _)).
  assert (Hlast : last_started "logs-2023"
                    (trace (migrate_indices (scripted twice_script) 5
                              "config.yaml" sim_start))
                  = Some (PyStr "task-2"))
    by (by vm_compute).
  exact (proj2 (proj2 (clean_log_means_every_tracked_job_succeeded
                         (scripted twice_script) 5 "config.yaml" sim_start
                         Hret Hclean))
           "logs-2023" (PyStr "task-2") Hlast).
Defined.

Lemma credentials_reach_the_log_only_through_the_answer_witness :
  log_lines (trace (start_reindex_task (scripted archive_script) tt "logs-2023"
                      "logs-archive" archive_remote sim_start))
  = log_lines (trace (start_reindex_task (scripted archive_script) tt
                        "logs-2023" "logs-archive" rotated_remote sim_start)).
Proof.
  exact (proj2 (credentials_reach_the_log_only_through_the_answer
                  (scripted archive_script) tt "logs-2023" "logs-archive"
                  archive_remote rotated_remote "https://source:9200"
                  "elastic" "secret" "migrator" "rotated" sim_start
                  eq_refl eq_refl eq_refl eq_refl eq_refl eq_refl)
           eq_refl).
Defined.

(** A client that names the user in its error: the name is in the log,
    through the exception the ERROR line interpolates. *)
Example echoed_username_is_logged :
  log_lines (trace (start_reindex_task (scripted echoing_script) tt "logs-2023"
                      "logs-archive" archive_remote sim_start))
  = [(INFO, MsgAttempt "logs-2023" "https://source:9200" "logs-archive");
     (ERROR, MsgStartFailed "logs-2023"
               (ClientError "authentication failed for user elastic"))].
Proof. by vm_compute. Qed.
